(** * LLMBridge: a verification model of the bridge's core

    A shallow embedding of the parts of the bridge that the specification
    makes promises about: the hot-reloaded configuration store
    ([core/config_loader.py]), the verification cool-down gate
    ([services/stream_processor.py], [routes/api_routes.py]), the tab
    registry, load balancer and response-channel broker
    ([core/load_balancer.py], [core/tab_manager.py],
    [routes/websocket_routes.py]), round-robin binding selection and the
    temperature cap ([routes/api_routes.py]), the thinking-separator splitter
    of the direct passthrough stream ([routes/api_routes.py]) and the
    processed-image cache ([services/image_service.py]).

    Conventions.
    - A Python [dict] whose iteration order is never observed is a [gmap];
      one that is iterated (the tab registry, the request metadata table, the
      image cache, JSON objects) is an insertion-ordered association list.
    - Python [str] is a [string] when it is only compared, and a [list ascii]
      where it is sliced and searched.
    - [time.time()] and JSON numbers are rationals ([Q]); no claim below
      depends on floating-point rounding.
    - Effects (WebSocket sends, queue puts, lock operations, image work) are
      recorded in an explicit trace. *)

From Stdlib Require Import ZArith QArith Qround List String Ascii Bool Lia Lqa.
From stdpp Require Import gmap strings list fin_maps pretty.

Local Open Scope string_scope.
Local Open Scope list_scope.
Local Set Warnings "-register-all".

(** ** Python values *)

(** The JSON-shaped values that travel through the bridge: request bodies,
    endpoint bindings, WebSocket envelopes and queue frames. *)
Inductive pyval :=
| PNone
| PBool (b : bool)
| PInt (z : Z)
| PFloat (q : Q)
| PStr (s : string)
| PList (l : list pyval)
| PDict (d : list (string * pyval)).

(** ** Insertion-ordered dictionaries *)

Module PyDict.
Section Ops.
Context {V : Type}.

Definition t := list (string * V).

Fixpoint get (k : string) (d : t) : option V :=
  match d with
  | [] => None
  | (k', v) :: d' => if String.eqb k k' then Some v else get k d'
  end.

Definition mem (k : string) (d : t) : bool :=
  match get k d with Some _ => true | None => false end.

(** [d[k] = v]: an existing key keeps its position, a new key goes last. *)
Fixpoint set (k : string) (v : V) (d : t) : t :=
  match d with
  | [] => [(k, v)]
  | (k', v') :: d' =>
      if String.eqb k k' then (k, v) :: d' else (k', v') :: set k v d'
  end.

(** [del d[k]] (callers test membership first, as the source does). *)
Fixpoint del (k : string) (d : t) : t :=
  match d with
  | [] => []
  | (k', v') :: d' => if String.eqb k k' then d' else (k', v') :: del k d'
  end.

Definition keys (d : t) : list string := map fst d.
Definition values (d : t) : list V := map snd d.

(** [d.update(d2)] *)
Definition update (d2 d : t) : t :=
  fold_left (fun acc kv => set (fst kv) (snd kv) acc) d2 d.
End Ops.
Arguments t : clear implicits.
End PyDict.

(** [d.get(k)] on a value that is expected to be a JSON object. *)
Definition py_get (k : string) (v : pyval) : option pyval :=
  match v with
  | PDict d => PyDict.get k d
  | _ => None
  end.

(** Python truthiness. *)
Definition truthy (v : pyval) : bool :=
  match v with
  | PNone => false
  | PBool b => b
  | PInt z => negb (z =? 0)%Z
  | PFloat q => negb (Qeq_bool q 0)
  | PStr s => negb (String.eqb s "")
  | PList l => match l with [] => false | _ => true end
  | PDict d => match d with [] => false | _ => true end
  end.

(** The numeric reading of a value ([None] for a non-number, on which an
    ordering comparison raises [TypeError]). *)
Definition py_num (v : pyval) : option Q :=
  match v with
  | PInt z => Some (inject_Z z)
  | PFloat q => Some q
  | PBool b => Some (if b then 1 else 0)%Q
  | _ => None
  end.

(** [int(x)] on a number: truncation towards zero. *)
Definition py_int (q : Q) : Z := Z.quot (Qnum q) (Zpos (Qden q)).

(** ** The thinking separator of the direct passthrough stream
    ([routes/api_routes.py], [process_sse_chunk]) *)

Module ThinkingSeparator.

Abbreviation text := (list ascii).

(** [s.startswith(sep)] *)
Fixpoint startswith (sep s : text) : bool :=
  match sep, s with
  | [], _ => true
  | _ :: _, [] => false
  | a :: sep', b :: s' => Ascii.eqb a b && startswith sep' s'
  end.

(** [s.find(sep)]: the index of the first occurrence; [sep in s] is
    [find sep s <> None]. *)
Fixpoint find (sep s : text) : option nat :=
  if startswith sep s then Some 0
  else match s with
       | [] => None
       | _ :: s' => option_map S (find sep s')
       end.

(** [s[a:b]] for non-negative indices. *)
Definition slice (a b : nat) (s : text) : text := drop a (take b s).

(** How many positions of [s] start an occurrence of [sep]. *)
Definition occurrences (sep s : text) : nat :=
  length (List.filter (fun i => startswith sep (drop i s)) (seq 0 (S (length s)))).

(** One line of the upstream stream, as [process_sse_chunk] distinguishes them
    when it sees the line whole: a [data:] line whose JSON has a
    [choices[0].delta] (with its optional [content] and [reasoning_content],
    texts both), or any other line (blank lines, [data: [DONE]], unparsable
    or delta-less payloads), which is passed on untouched. *)
Inductive sse_line :=
| Delta (content : option text) (reasoning_content : option text)
| Raw (line : text).

(** The closure variables of [process_sse_chunk]. *)
Record split_state := {
  accumulated_for_split : text;
  output_position : nat;
  split_done : bool;
  separator_found : bool
}.

Definition initial : split_state :=
  {| accumulated_for_split := []; output_position := 0;
     split_done := false; separator_found := false |}.

(** A field is written into the new delta only when it is non-empty. *)
Definition nonempty (s : text) : option text :=
  match s with [] => None | _ => Some s end.

(** The body of the [for line in lines] loop. *)
Definition process_line (sep : text) (st : split_state) (line : sse_line)
  : list sse_line * split_state :=
  if split_done st then ([line], st) else
  match line with
  | Delta (Some (c :: cs)) _ =>
      let acc := accumulated_for_split st ++ (c :: cs) in
      match find sep acc with
      | Some i =>
          let full_reasoning := take i acc in
          let content_part := drop (i + length sep) acc in
          let remaining_reasoning := drop (output_position st) full_reasoning in
          let st' := {| accumulated_for_split := acc;
                        output_position := output_position st;
                        split_done := true; separator_found := true |} in
          match remaining_reasoning, content_part with
          | [], [] => ([], st')
          | _, _ => ([Delta (nonempty content_part) (nonempty remaining_reasoning)], st')
          end
      | None =>
          let safe_position := Nat.max (output_position st) (length acc - length sep) in
          let safe_content := slice (output_position st) safe_position acc in
          match safe_content with
          | [] => ([], {| accumulated_for_split := acc;
                          output_position := output_position st;
                          split_done := false;
                          separator_found := separator_found st |})
          | _ => ([Delta None (Some safe_content)],
                  {| accumulated_for_split := acc;
                     output_position := safe_position;
                     split_done := false;
                     separator_found := separator_found st |})
          end
      end
  | _ => ([line], st)
  end.

(** The loop over a run of lines that are whole and on which nothing
    raises. *)
Fixpoint process_lines (sep : text) (st : split_state) (lines : list sse_line)
  : list sse_line * split_state :=
  match lines with
  | [] => ([], st)
  | line :: rest =>
      let '(out, st1) := process_line sep st line in
      let '(out', st2) := process_lines sep st1 rest in
      (out ++ out', st2)
  end.

(** What [process_sse_chunk] is handed is not a list of lines but a slice of
    the upstream byte stream ([iter_any]), decoded and cut at the line feeds
    on its own, with nothing carried over from one slice to the next. Between
    two line feeds of a chunk there is
    - a line that lies within the chunk ([Whole]);
    - a piece of a line that a chunk boundary cuts ([Slice], with [completes]
      set on the piece that ends the line). A proper piece of a [data:] line
      is no JSON text, so [json.loads] raises [JSONDecodeError] and the piece
      is passed on as it came; a piece that does not start with [data: ] is
      passed on without a look;
    - a [data:] line whose JSON parses but is not shaped like a chat chunk
      ([Faulty]: a [delta] that is [null], a [content] that is no string, a
      payload that is a number), on which the loop raises something other
      than [JSONDecodeError].
    A chunk whose bytes are not UTF-8 on their own (a boundary inside a
    multi-byte character) does not decode. *)
Inductive chunk_line :=
| Whole (line : sse_line)
| Slice (line : sse_line) (completes : bool)
| Faulty (line : text).

Record chunk := {
  decodes : bool;
  lines : list chunk_line
}.

(** The [for line in lines] loop inside the [try]: [None] for the output when
    an exception leaves the loop, with the closure variables as they were
    at that point. *)
Fixpoint process_chunk_lines (sep : text) (st : split_state) (ls : list chunk_line)
  : option (list chunk_line) * split_state :=
  match ls with
  | [] => (Some [], st)
  | l :: rest =>
      if split_done st then
        let '(out, st') := process_chunk_lines sep st rest in
        (option_map (cons l) out, st')
      else
        match l with
        | Whole line =>
            let '(out1, st1) := process_line sep st line in
            let '(out, st2) := process_chunk_lines sep st1 rest in
            (option_map (app (map Whole out1)) out, st2)
        | Slice _ _ =>
            let '(out, st') := process_chunk_lines sep st rest in
            (option_map (cons l) out, st')
        | Faulty _ => (None, st)
        end
  end.

(** [process_sse_chunk]: without a configured separator, or once the split is
    done, the chunk is returned as it came; so it is when it does not decode
    or when the loop raises ([except Exception: return chunk_bytes]). *)
Definition process_sse_chunk (thinking_separator : option text)
    (st : split_state) (c : chunk) : chunk * split_state :=
  match thinking_separator with
  | None | Some [] => (c, st)
  | Some sep =>
      if split_done st then (c, st)
      else if negb (decodes c) then (c, st)
      else match process_chunk_lines sep st (lines c) with
           | (Some out, st') => ({| decodes := true; lines := out |}, st')
           | (None, st') => (c, st')
           end
  end.

(** [combined_stream_generator]: every upstream chunk goes through
    [process_sse_chunk] and is yielded. *)
Fixpoint combined_stream (thinking_separator : option text)
    (st : split_state) (chunks : list chunk) : list chunk :=
  match chunks with
  | [] => []
  | c :: rest =>
      let '(out, st') := process_sse_chunk thinking_separator st c in
      out :: combined_stream thinking_separator st' rest
  end.

(** The lines that the reader of a byte stream finds in it, the stream being
    the chunks one after the other: a line that was cut is there again once
    its last piece has come. *)
Definition received_line (l : chunk_line) : option sse_line :=
  match l with
  | Whole line => Some line
  | Slice line true => Some line
  | Slice _ false => None
  | Faulty line => Some (Raw line)
  end.

Definition received (chunks : list chunk) : list sse_line :=
  omap received_line (concat (map lines chunks)).

(** A chunk that decodes and holds whole, well-shaped lines only. *)
Definition is_whole (l : chunk_line) : bool :=
  match l with Whole _ => true | _ => false end.

Definition orderly (c : chunk) : Prop :=
  decodes c = true /\ Forall (fun l => is_whole l = true) (lines c).

(** The chunk made of the given lines. *)
Definition whole_lines (ls : list sse_line) : chunk :=
  {| decodes := true; lines := map Whole ls |}.

(** What a client reads off a sequence of lines on each channel. *)
Definition line_content (l : sse_line) : text :=
  match l with Delta (Some c) _ => c | _ => [] end.
Definition line_reasoning (l : sse_line) : text :=
  match l with Delta _ (Some r) => r | _ => [] end.

Definition content_of (lines : list sse_line) : text :=
  concat (map line_content lines).
Definition reasoning_of (lines : list sse_line) : text :=
  concat (map line_reasoning lines).

(** The upstream sends content only (no [reasoning_content] of its own). *)
Definition content_only (lines : list sse_line) : Prop :=
  Forall (fun l => line_reasoning l = []) lines.

(** Scenario S5: separator ["\n---\n"], upstream content ["reasoning A\n"]
    then ["reasoning B\n---\nfinal answer"], each event followed by the blank
    line that ends it. *)
Definition newline : string := String (ascii_of_nat 10) EmptyString.

Definition s5_separator : text :=
  list_ascii_of_string (newline +:+ "---" +:+ newline).

Definition s5_first : sse_line :=
  Delta (Some (list_ascii_of_string ("reasoning A" +:+ newline))) None.

Definition s5_second : sse_line :=
  Delta (Some (list_ascii_of_string
                 ("reasoning B" +:+ newline +:+ "---" +:+ newline +:+ "final answer")))
        None.

(** Each event arrives in a chunk of its own. *)
Definition s5_chunks : list chunk :=
  [ whole_lines [s5_first; Raw []]; whole_lines [s5_second; Raw []] ].

(** The same two events, read off the socket in two slices of which the
    first ends in the middle of the second event's [data:] line. *)
Definition s5_cut_chunks : list chunk :=
  [ {| decodes := true;
       lines := [Whole s5_first; Whole (Raw []); Slice s5_second false] |};
    {| decodes := true;
       lines := [Slice s5_second true; Whole (Raw [])] |} ].

End ThinkingSeparator.

(** ** The running process: shared state, recorded effects, control flow *)

Module Runtime.

Inductive lock := browser_connections_lock | tab_request_counts_lock.

(** The exceptions the modelled code raises or catches. *)
Inductive exn :=
| TypeError (msg : string)
| KeyError (key : string)
| IndexError (msg : string)
| AttributeError (msg : string)
| HTTPException (status_code : Z) (detail : string).

(** [str(e)] *)
Definition str_exn (e : exn) : string :=
  match e with
  | TypeError msg => msg
  | KeyError key => "'" +:+ key +:+ "'"
  | IndexError msg => msg
  | AttributeError msg => msg
  | HTTPException status_code detail => pretty status_code +:+ ": " +:+ detail
  end.

(** What the process does to the outside and to its queues, in order. Log
    lines are recorded only where a property speaks of them (warnings). *)
Inductive event :=
| Acquire (l : lock)
| Release (l : lock)
| SendText (ws : string) (message : pyval)
| Put (request_id : string) (frame : pyval)
| Broadcast (kind : string)
| Warning (tag : string).

(** The verification flags: module-level in [core/global_state.py], and
    handed by value to every function that reads them. *)
Record verification_state := {
  IS_REFRESHING_FOR_VERIFICATION : bool;
  VERIFICATION_COOLDOWN_UNTIL : option Q
}.

(** The module-level state of [core/global_state.py] and
    [core/config_loader.py]. A WebSocket is named by a string. The
    [asyncio.Queue] objects live in [queues], keyed by the request that created
    them; [response_channels] holds the keys currently registered, so a queue
    outlives its removal from the registry, as it does for the coroutine that
    still reads it. [held] are the locks the running task holds. *)
Record world := {
  CONFIG : gmap string pyval;
  MODEL_ENDPOINT_MAP : gmap string pyval;
  MODEL_NAME_TO_ID_MAP : gmap string pyval;
  MODEL_ROUND_ROBIN_INDEX : gmap string nat;
  verification : verification_state;
  browser_connections : PyDict.t string;
  browser_ws : option string;
  tab_request_counts : gmap string nat;
  response_channels : list string;
  queues : gmap string (list pyval);
  request_metadata : PyDict.t (gmap string pyval);
  held : list lock;
  trace : list event
}.

Definition with_round_robin (f : gmap string nat -> gmap string nat)
    (w : world) : world :=
  {| CONFIG := CONFIG w;
     MODEL_ENDPOINT_MAP := MODEL_ENDPOINT_MAP w;
     MODEL_NAME_TO_ID_MAP := MODEL_NAME_TO_ID_MAP w;
     MODEL_ROUND_ROBIN_INDEX := f (MODEL_ROUND_ROBIN_INDEX w);
     verification := verification w;
     browser_connections := browser_connections w;
     browser_ws := browser_ws w;
     tab_request_counts := tab_request_counts w;
     response_channels := response_channels w;
     queues := queues w;
     request_metadata := request_metadata w;
     held := held w;
     trace := trace w |}.

Definition with_verification (f : verification_state -> verification_state)
    (w : world) : world :=
  {| CONFIG := CONFIG w;
     MODEL_ENDPOINT_MAP := MODEL_ENDPOINT_MAP w;
     MODEL_NAME_TO_ID_MAP := MODEL_NAME_TO_ID_MAP w;
     MODEL_ROUND_ROBIN_INDEX := MODEL_ROUND_ROBIN_INDEX w;
     verification := f (verification w);
     browser_connections := browser_connections w;
     browser_ws := browser_ws w;
     tab_request_counts := tab_request_counts w;
     response_channels := response_channels w;
     queues := queues w;
     request_metadata := request_metadata w;
     held := held w;
     trace := trace w |}.

Definition with_connections (f : PyDict.t string -> PyDict.t string)
    (w : world) : world :=
  {| CONFIG := CONFIG w;
     MODEL_ENDPOINT_MAP := MODEL_ENDPOINT_MAP w;
     MODEL_NAME_TO_ID_MAP := MODEL_NAME_TO_ID_MAP w;
     MODEL_ROUND_ROBIN_INDEX := MODEL_ROUND_ROBIN_INDEX w;
     verification := verification w;
     browser_connections := f (browser_connections w);
     browser_ws := browser_ws w;
     tab_request_counts := tab_request_counts w;
     response_channels := response_channels w;
     queues := queues w;
     request_metadata := request_metadata w;
     held := held w;
     trace := trace w |}.

Definition with_browser_ws (f : option string -> option string)
    (w : world) : world :=
  {| CONFIG := CONFIG w;
     MODEL_ENDPOINT_MAP := MODEL_ENDPOINT_MAP w;
     MODEL_NAME_TO_ID_MAP := MODEL_NAME_TO_ID_MAP w;
     MODEL_ROUND_ROBIN_INDEX := MODEL_ROUND_ROBIN_INDEX w;
     verification := verification w;
     browser_connections := browser_connections w;
     browser_ws := f (browser_ws w);
     tab_request_counts := tab_request_counts w;
     response_channels := response_channels w;
     queues := queues w;
     request_metadata := request_metadata w;
     held := held w;
     trace := trace w |}.

Definition with_counts (f : gmap string nat -> gmap string nat)
    (w : world) : world :=
  {| CONFIG := CONFIG w;
     MODEL_ENDPOINT_MAP := MODEL_ENDPOINT_MAP w;
     MODEL_NAME_TO_ID_MAP := MODEL_NAME_TO_ID_MAP w;
     MODEL_ROUND_ROBIN_INDEX := MODEL_ROUND_ROBIN_INDEX w;
     verification := verification w;
     browser_connections := browser_connections w;
     browser_ws := browser_ws w;
     tab_request_counts := f (tab_request_counts w);
     response_channels := response_channels w;
     queues := queues w;
     request_metadata := request_metadata w;
     held := held w;
     trace := trace w |}.

Definition with_channels (f : list string -> list string)
    (w : world) : world :=
  {| CONFIG := CONFIG w;
     MODEL_ENDPOINT_MAP := MODEL_ENDPOINT_MAP w;
     MODEL_NAME_TO_ID_MAP := MODEL_NAME_TO_ID_MAP w;
     MODEL_ROUND_ROBIN_INDEX := MODEL_ROUND_ROBIN_INDEX w;
     verification := verification w;
     browser_connections := browser_connections w;
     browser_ws := browser_ws w;
     tab_request_counts := tab_request_counts w;
     response_channels := f (response_channels w);
     queues := queues w;
     request_metadata := request_metadata w;
     held := held w;
     trace := trace w |}.

Definition with_queues (f : gmap string (list pyval) -> gmap string (list pyval))
    (w : world) : world :=
  {| CONFIG := CONFIG w;
     MODEL_ENDPOINT_MAP := MODEL_ENDPOINT_MAP w;
     MODEL_NAME_TO_ID_MAP := MODEL_NAME_TO_ID_MAP w;
     MODEL_ROUND_ROBIN_INDEX := MODEL_ROUND_ROBIN_INDEX w;
     verification := verification w;
     browser_connections := browser_connections w;
     browser_ws := browser_ws w;
     tab_request_counts := tab_request_counts w;
     response_channels := response_channels w;
     queues := f (queues w);
     request_metadata := request_metadata w;
     held := held w;
     trace := trace w |}.

Definition with_metadata (f : PyDict.t (gmap string pyval) -> PyDict.t (gmap string pyval))
    (w : world) : world :=
  {| CONFIG := CONFIG w;
     MODEL_ENDPOINT_MAP := MODEL_ENDPOINT_MAP w;
     MODEL_NAME_TO_ID_MAP := MODEL_NAME_TO_ID_MAP w;
     MODEL_ROUND_ROBIN_INDEX := MODEL_ROUND_ROBIN_INDEX w;
     verification := verification w;
     browser_connections := browser_connections w;
     browser_ws := browser_ws w;
     tab_request_counts := tab_request_counts w;
     response_channels := response_channels w;
     queues := queues w;
     request_metadata := f (request_metadata w);
     held := held w;
     trace := trace w |}.

Definition with_held (f : list lock -> list lock)
    (w : world) : world :=
  {| CONFIG := CONFIG w;
     MODEL_ENDPOINT_MAP := MODEL_ENDPOINT_MAP w;
     MODEL_NAME_TO_ID_MAP := MODEL_NAME_TO_ID_MAP w;
     MODEL_ROUND_ROBIN_INDEX := MODEL_ROUND_ROBIN_INDEX w;
     verification := verification w;
     browser_connections := browser_connections w;
     browser_ws := browser_ws w;
     tab_request_counts := tab_request_counts w;
     response_channels := response_channels w;
     queues := queues w;
     request_metadata := request_metadata w;
     held := f (held w);
     trace := trace w |}.

Definition with_trace (f : list event -> list event)
    (w : world) : world :=
  {| CONFIG := CONFIG w;
     MODEL_ENDPOINT_MAP := MODEL_ENDPOINT_MAP w;
     MODEL_NAME_TO_ID_MAP := MODEL_NAME_TO_ID_MAP w;
     MODEL_ROUND_ROBIN_INDEX := MODEL_ROUND_ROBIN_INDEX w;
     verification := verification w;
     browser_connections := browser_connections w;
     browser_ws := browser_ws w;
     tab_request_counts := tab_request_counts w;
     response_channels := response_channels w;
     queues := queues w;
     request_metadata := request_metadata w;
     held := held w;
     trace := f (trace w) |}.

(** How a coroutine ends: it returns, it raises, or it is suspended for good
    on a lock that only it could release. *)
Inductive outcome (A : Type) :=
| Return (a : A)
| Raise (e : exn)
| Blocked (l : lock).
Arguments Return {A} a.
Arguments Raise {A} e.
Arguments Blocked {A} l.

Definition M (A : Type) : Type := world -> outcome A * world.

#[global] Instance M_ret : MRet M := fun A a w => (Return a, w).

#[global] Instance M_bind : MBind M := fun A B f m w =>
  match m w with
  | (Return a, w') => f a w'
  | (Raise e, w') => (Raise e, w')
  | (Blocked l, w') => (Blocked l, w')
  end.

Definition read : M world := fun w => (Return w, w).
Definition modify (f : world -> world) : M unit := fun w => (Return tt, f w).
Definition raise {A} (e : exn) : M A := fun w => (Raise e, w).
Definition emit (e : event) : M unit := modify (with_trace (fun t => t ++ [e])).

(** [try: body except Exception as e: handler(e)] *)
Definition try_except {A} (body : M A) (handler : exn -> M A) : M A := fun w =>
  match body w with
  | (Raise e, w') => handler e w'
  | r => r
  end.

(** [for x in xs: body(x)] *)
Fixpoint for_each {A} (xs : list A) (body : A -> M unit) : M unit :=
  match xs with
  | [] => mret tt
  | x :: xs' => body x ;; for_each xs' body
  end.

Definition lock_eqb (a b : lock) : bool :=
  match a, b with
  | browser_connections_lock, browser_connections_lock => true
  | tab_request_counts_lock, tab_request_counts_lock => true
  | _, _ => false
  end.

Definition holds (l : lock) (w : world) : bool := existsb (lock_eqb l) (held w).

(** [await lock.acquire()]: an [asyncio.Lock] is not re-entrant, so a task
    that asks for a lock it already holds waits for itself. *)
Definition acquire (l : lock) : M unit := fun w =>
  if holds l w then (Blocked l, w)
  else (Return tt, with_trace (fun t => t ++ [Acquire l]) (with_held (cons l) w)).

Definition release (l : lock) : M unit :=
  modify (fun w => with_trace (fun t => t ++ [Release l])
                     (with_held (List.filter (fun l' => negb (lock_eqb l' l))) w)).

(** [async with lock: body]: the lock is released however the body ends,
    unless the body never ends. *)
Definition async_with {A} (l : lock) (body : M A) : M A :=
  acquire l ;;
  ((fun w =>
      match body w with
      | (Return a, w') => (Return a, snd (release l w'))
      | (Raise e, w') => (Raise e, snd (release l w'))
      | (Blocked l', w') => (Blocked l', w')
      end) : M A).

(** [await queue.put(frame)] on the queue of [request_id]. *)
Definition put (request_id : string) (frame : pyval) : M unit :=
  modify (with_queues (fun q =>
            <[request_id := default [] (q !! request_id) ++ [frame]]> q)) ;;
  emit (Put request_id frame).

(** [await ws.send_text(json.dumps(message))] *)
Definition send_text (ws : string) (message : pyval) : M unit :=
  emit (SendText ws message).

(** The messages sent over WebSockets, in order. *)
Definition sent (t : list event) : list (string * pyval) :=
  omap (fun e => match e with
                 | SendText ws message => Some (ws, message)
                 | _ => None
                 end) t.

(** Whether a trace has a WebSocket send between an [Acquire l] and the
    matching [Release l]. *)
Fixpoint sends_holding (l : lock) (holding : bool) (t : list event) : bool :=
  match t with
  | [] => false
  | Acquire l' :: t' => sends_holding l (holding || lock_eqb l' l) t'
  | Release l' :: t' => sends_holding l (holding && negb (lock_eqb l' l)) t'
  | SendText _ _ :: t' => holding || sends_holding l holding t'
  | _ :: t' => sends_holding l holding t'
  end.

(** [m] adds to the trace only events that satisfy [Q], and returns only
    values that satisfy [R]. *)
Definition produces {A} (Q : event -> Prop) (R : A -> Prop) (m : M A) : Prop :=
  forall w,
    (exists t', trace (snd (m w)) = trace w ++ t' /\ Forall Q t') /\
    (forall a, fst (m w) = Return a -> R a).

Definition not_a_send (e : event) : Prop :=
  match e with
  | SendText _ _ => False
  | _ => True
  end.

(** *** Calling a Python function

    A function with positional-or-keyword parameters, the first [required] of
    which have no default. [call] binds the arguments the way the interpreter
    does, and raises [TypeError] where it does. *)
Record pyfunc := {
  fn_name : string;
  fn_params : list string;
  fn_required : nat;
  fn_body : PyDict.t pyval -> M pyval
}.

Fixpoint bind_positional (params : list string) (args : list pyval)
  : option (PyDict.t pyval) :=
  match args, params with
  | [], _ => Some []
  | a :: args', p :: params' =>
      option_map (cons (p, a)) (bind_positional params' args')
  | _ :: _, [] => None
  end.

Fixpoint bind_keywords (f : pyfunc) (kwargs : list (string * pyval))
    (bound : PyDict.t pyval) : exn + PyDict.t pyval :=
  match kwargs with
  | [] => inr bound
  | (k, v) :: rest =>
      if negb (bool_decide (k ∈ fn_params f)) then
        inl (TypeError (fn_name f +:+ "() got an unexpected keyword argument '" +:+ k +:+ "'"))
      else if PyDict.mem k bound then
        inl (TypeError (fn_name f +:+ "() got multiple values for argument '" +:+ k +:+ "'"))
      else bind_keywords f rest (bound ++ [(k, v)])
  end.

Definition call (f : pyfunc) (args : list pyval) (kwargs : list (string * pyval))
  : M pyval :=
  match bind_positional (fn_params f) args with
  | None =>
      raise (TypeError (fn_name f +:+ "() takes " +:+ pretty (length (fn_params f))
                          +:+ " positional arguments but " +:+ pretty (length args)
                          +:+ " were given"))
  | Some bound =>
      match bind_keywords f kwargs bound with
      | inl e => raise e
      | inr bound' =>
          if forallb (fun p => PyDict.mem p bound') (take (fn_required f) (fn_params f))
          then fn_body f bound'
          else raise (TypeError (fn_name f +:+ "() missing required positional arguments"))
      end
  end.

(** [d.get(key, dflt)] on a dictionary kept as a [gmap]. *)
Definition get_or (key : string) (dflt : pyval) (d : gmap string pyval) : pyval :=
  default dflt (d !! key).

End Runtime.

(** ** The request translator ([services/message_converter.py]) *)

Module MessageConverter.
Import Runtime.

(** The message pipeline of [convert_openai_to_lmarena_payload] (reasoning
    strip, role normalisation, attachment split, role conversion, tavern
    merge, bypass injection, participant positions) and the lookup of the
    target model id are taken as given. Of the request they read ["messages"]
    and ["model"] only, which is all the model lets them see. *)
Record pipeline := {
  message_templates :
    gmap string pyval -> pyval -> pyval -> pyval -> pyval -> pyval;
  target_model_id : pyval -> pyval
}.

(** [a or b] *)
Definition py_or (a b : pyval) : pyval := if truthy a then a else b.

(** [v == s] for a string [s]. *)
Definition py_eq_str (v : pyval) (s : string) : bool :=
  match v with
  | PStr s' => String.eqb s' s
  | _ => false
  end.

Definition lower_ascii (c : ascii) : ascii :=
  let n := nat_of_ascii c in
  if (65 <=? n)%nat && (n <=? 90)%nat then ascii_of_nat (n + 32) else c.

(** [s.lower()] on ASCII letters. *)
Fixpoint lower (s : string) : string :=
  match s with
  | EmptyString => EmptyString
  | String c s' => String (lower_ascii c) (lower s')
  end.

(** The envelope's [battle_target]: forced to ['a'] in direct-chat mode. *)
Definition final_battle_target (cfg : gmap string pyval)
    (mode_override battle_target_override : pyval) : pyval :=
  let final_mode :=
    py_or mode_override (get_or "id_updater_last_mode" (PStr "direct_chat") cfg) in
  if py_eq_str final_mode "direct_chat" then PStr "a"
  else match py_or battle_target_override
               (get_or "id_updater_battle_target" (PStr "A") cfg) with
       | PStr s => PStr (lower s)
       | v => v
       end.

Definition arg (name : string) (bound : PyDict.t pyval) : pyval :=
  default PNone (PyDict.get name bound).

(** [async def convert_openai_to_lmarena_payload(openai_data, session_id,
    mode_override=None, battle_target_override=None)] *)
Definition convert_openai_to_lmarena_payload (P : pipeline) : pyfunc :=
  {| fn_name := "convert_openai_to_lmarena_payload";
     fn_params := ["openai_data"; "session_id"; "mode_override"; "battle_target_override"];
     fn_required := 2;
     fn_body := fun bound =>
       w ← read;
       let openai_data := arg "openai_data" bound in
       let messages := default (PList []) (py_get "messages" openai_data) in
       let model_name :=
         default (PStr "claude-3-5-sonnet-20241022") (py_get "model" openai_data) in
       mret (PDict
         [ ("message_templates",
            message_templates P (CONFIG w) messages model_name
              (arg "mode_override" bound) (arg "battle_target_override" bound));
           ("target_model_id", target_model_id P model_name);
           ("session_id", arg "session_id" bound);
           ("battle_target",
            final_battle_target (CONFIG w)
              (arg "mode_override" bound) (arg "battle_target_override" bound)) ]) |}.


(** A pipeline for worked examples: every message becomes a template as it
    is, and no target model id is configured. *)
Definition plain_pipeline : pipeline :=
  {| message_templates := fun _ messages _ _ _ => messages;
     target_model_id := fun _ => PNone |}.

End MessageConverter.

(** ** The load balancer ([core/load_balancer.py]) *)

Module LoadBalancer.
Import Runtime.
Import MessageConverter.

Definition DONE : pyval := PStr "[DONE]".
Definition error_frame (msg : string) : pyval := PDict [("error", PStr msg)].

(** [str(v)] for the values that end up in messages. *)
Definition py_str (v : pyval) : string :=
  match v with
  | PNone => "None"
  | PBool true => "True"
  | PBool false => "False"
  | PInt z => pretty z
  | PStr s => s
  | _ => "<value>"
  end.

(** [a >= b] on numbers. *)
Definition py_ge (a b : pyval) : M bool :=
  match py_num a, py_num b with
  | Some x, Some y => mret (Qle_bool y x)
  | _, _ => raise (TypeError "'>=' not supported between these operands")
  end.

(** [v + 1] *)
Definition py_succ (v : pyval) : M pyval :=
  match v with
  | PInt z => mret (PInt (z + 1))
  | PFloat q => mret (PFloat (q + 1))
  | PBool b => mret (PInt (if b then 2 else 1))
  | _ => raise (TypeError "unsupported operand type(s) for +")
  end.

(** [asyncio.wait_for(coro, timeout)]: a coroutine that would wait for ever
    is cancelled and [on_timeout] is raised instead. *)
Definition wait_for {A} (body : M A) (on_timeout : exn) : M A := fun w =>
  match body w with
  | (Blocked _, w') => (Raise on_timeout, w')
  | r => r
  end.

(** [min(loads, key=loads.get)] over the connected tabs, in registry order:
    the first tab with the least load. *)
Fixpoint min_load_tab (counts : gmap string nat) (tabs : list string)
    (best : option (string * nat)) : option (string * nat) :=
  match tabs with
  | [] => best
  | tab :: rest =>
      let load := default 0 (counts !! tab) in
      match best with
      | Some (_, m) =>
          if (load <? m)%nat then min_load_tab counts rest (Some (tab, load))
          else min_load_tab counts rest best
      | None => min_load_tab counts rest (Some (tab, load))
      end
  end.

Definition select_best_tab_for_request : M (string * string) :=
  wait_for
    (async_with browser_connections_lock
       (w ← read;
        match browser_connections w with
        | [] => raise (HTTPException 503 "no browser connection available")
        | _ =>
            (* drop the counters of tabs that are gone, give every tab one *)
            modify (with_counts (fun counts =>
              filter (fun kv => PyDict.mem kv.1 (browser_connections w) = true) counts)) ;;
            modify (with_counts (fun counts =>
              fold_left (fun c tab => if decide (is_Some (c !! tab)) then c
                                      else <[tab := 0]> c)
                        (PyDict.keys (browser_connections w)) counts)) ;;
            w1 ← read;
            match min_load_tab (tab_request_counts w1)
                    (PyDict.keys (browser_connections w1)) None with
            | None => raise (HTTPException 503 "no browser connection available")
            | Some (best_tab_id, _) =>
                match PyDict.get best_tab_id (browser_connections w1) with
                | None => raise (KeyError best_tab_id)
                | Some best_ws =>
                    modify (with_counts (fun counts =>
                      <[best_tab_id := S (default 0 (counts !! best_tab_id))]> counts)) ;;
                    mret (best_tab_id, best_ws)
                end
            end
        end))
    (HTTPException 503 "load balancer lock timed out, possible deadlock").

Definition release_tab_request (tab_id : string) : M unit :=
  async_with tab_request_counts_lock
    (modify (with_counts (fun counts =>
       match counts !! tab_id with
       | Some (S n) => <[tab_id := n]> counts
       | _ => counts
       end))).

(** The first loop of [reassign_pending_requests]: requests of the dead tab
    that reached the transfer limit get an error and ["[DONE]"]; the others
    are collected. *)
Fixpoint requests_to_reassign (disconnected_tab_id : string)
    (items : list (string * gmap string pyval))
  : M (list (string * gmap string pyval)) :=
  match items with
  | [] => mret []
  | (request_id, metadata) :: rest =>
      if py_eq_str (get_or "tab_id" PNone metadata) disconnected_tab_id then
        w ← read;
        let transfer_count := get_or "transfer_count" (PInt 0) metadata in
        let max_transfers := get_or "max_request_transfers" (PInt 3) (CONFIG w) in
        exhausted ← py_ge transfer_count max_transfers;
        if (exhausted : bool) then
          (if bool_decide (request_id ∈ response_channels w) then
             put request_id
               (error_frame ("Request failed after " +:+ py_str max_transfers
                               +:+ " transfer attempts")) ;;
             put request_id DONE
           else mret tt) ;;
          requests_to_reassign disconnected_tab_id rest
        else
          more ← requests_to_reassign disconnected_tab_id rest;
          mret ((request_id, metadata) :: more)
      else requests_to_reassign disconnected_tab_id rest
  end.

(** The tab-selection loop of the second phase: strict [<] from infinity, so
    the first least-loaded tab wins. *)
Definition best_tab (counts : gmap string nat) (active_tabs : list string)
  : option string :=
  option_map fst (min_load_tab counts active_tabs None).

(** The body of the second loop for one request. [now] is
    [datetime.now().isoformat()]. *)
Definition reassign_one (disconnected_tab_id : string) (active_tabs : list string)
    (convert : pyfunc) (now : string) (request_id : string)
    (metadata : gmap string pyval) : M unit :=
  try_except
    (w ← read;
     match best_tab (tab_request_counts w) active_tabs with
     | None | Some "" => mret tt
     | Some best_tab_id =>
         match PyDict.get best_tab_id (browser_connections w) with
         | None => raise (KeyError best_tab_id)
         | Some target_ws =>
             let original_tab_id :=
               get_or "original_tab_id" (PStr disconnected_tab_id) metadata in
             let transfer_count := get_or "transfer_count" (PInt 0) metadata in
             next_count ← py_succ transfer_count;
             match PyDict.get request_id (request_metadata w) with
             | None => raise (KeyError request_id)
             | Some live =>
                 modify (with_metadata (PyDict.set request_id
                   (<["transfer_allowed" := PBool true]>
                    (<["last_transfer_time" := PStr now]>
                     (<["transfer_count" := next_count]>
                      (<["original_tab_id" := original_tab_id]>
                       (<["tab_id" := PStr best_tab_id]> live)))))))
             end ;;
             let openai_request := get_or "openai_request" (PDict []) metadata in
             let session_id := get_or "session_id" PNone metadata in
             let message_id := get_or "message_id" PNone metadata in
             let mode_override := get_or "mode_override" PNone metadata in
             let battle_target_override :=
               get_or "battle_target_override" PNone metadata in
             lmarena_payload ←
               call convert [openai_request; session_id; message_id]
                 [("mode_override", mode_override);
                  ("battle_target_override", battle_target_override)];
             let transfer_message :=
               PDict [ ("request_id", PStr request_id);
                       ("payload", lmarena_payload);
                       ("is_transfer", PBool true);
                       ("original_tab_id", original_tab_id);
                       ("transfer_count", next_count) ] in
             send_text target_ws transfer_message ;;
             modify (with_counts (fun counts =>
               <[best_tab_id := S (default 0 (counts !! best_tab_id))]> counts))
         end
     end)
    (fun e =>
       w ← read;
       if bool_decide (request_id ∈ response_channels w) then
         put request_id
           (error_frame ("Request reassignment failed: " +:+ str_exn e)) ;;
         put request_id DONE
       else mret tt).

Definition reassign_pending_requests (disconnected_tab_id : string)
    (convert : pyfunc) (now : string) : M unit :=
  async_with browser_connections_lock
    (w ← read;
     let active_tabs := PyDict.keys (browser_connections w) in
     match active_tabs with
     | [] => mret tt
     | _ =>
         todo ← requests_to_reassign disconnected_tab_id (request_metadata w);
         for_each todo (fun '(request_id, metadata) =>
           reassign_one disconnected_tab_id active_tabs convert now
             request_id metadata)
     end).

End LoadBalancer.

(** ** The process-level wiring ([core/tab_manager.py]) *)

Module TabManager.
Import Runtime.

(** [reassign_pending_requests(disconnected_tab_id)]: the balancer's function
    applied to the process's own registry, lock and translator. *)
Definition reassign_pending_requests (P : MessageConverter.pipeline) (now : string)
    (disconnected_tab_id : string) : M unit :=
  LoadBalancer.reassign_pending_requests disconnected_tab_id
    (MessageConverter.convert_openai_to_lmarena_payload P) now.

End TabManager.

(** ** The stream parser's verification handling
    ([services/stream_processor.py]) *)

Module StreamProcessor.
Import Runtime.

Inductive verification_message :=
| VerificationDetected
| CoolingDown (remaining : Z)
| WaitingForVerification.

(** [handle_cloudflare_verification], a closure of [_process_lmarena_stream].
    Its [nonlocal] names are [IS_REFRESHING_FOR_VERIFICATION] and
    [VERIFICATION_COOLDOWN_UNTIL], parameters of that generator: [frame] is
    the pair of them, and the new pair is all the closure writes. On the
    first detection it also asks the first connected tab to refresh. *)
Definition handle_cloudflare_verification (now : Q) (frame : verification_state)
  : M (verification_message * verification_state) :=
  if negb (IS_REFRESHING_FOR_VERIFICATION frame) then
    w ← read;
    match PyDict.values (browser_connections w) with
    | first_ws :: _ => send_text first_ws (PDict [("command", PStr "refresh")])
    | [] => mret tt
    end ;;
    mret (VerificationDetected,
          {| IS_REFRESHING_FOR_VERIFICATION := true;
             VERIFICATION_COOLDOWN_UNTIL := Some (now + 25)%Q |})
  else
    match VERIFICATION_COOLDOWN_UNTIL frame with
    | Some cooldown_until =>
        let remaining := Z.max 0 (py_int (cooldown_until - now)) in
        if negb (Qeq_bool cooldown_until 0) && (0 <? remaining)%Z
        then mret (CoolingDown remaining, frame)
        else mret (WaitingForVerification, frame)
    | None => mret (WaitingForVerification, frame)
    end.

(** [reset_verification_status], the task started on the first detection: 25
    seconds later it rebinds the same two parameters. *)
Definition reset_verification_status (frame : verification_state) : verification_state :=
  {| IS_REFRESHING_FOR_VERIFICATION := false; VERIFICATION_COOLDOWN_UNTIL := None |}.

(** The part of [_process_lmarena_stream] that meets a challenge page in the
    buffer at time [now]: the generator was called with the two flags by
    value, yields the error event, and returns. Its frame goes with it. *)
Definition process_lmarena_stream_challenge (now : Q)
    (IS_REFRESHING_FOR_VERIFICATION_arg : bool)
    (VERIFICATION_COOLDOWN_UNTIL_arg : option Q)
  : M (verification_message * verification_state) :=
  handle_cloudflare_verification now
    {| IS_REFRESHING_FOR_VERIFICATION := IS_REFRESHING_FOR_VERIFICATION_arg;
       VERIFICATION_COOLDOWN_UNTIL := VERIFICATION_COOLDOWN_UNTIL_arg |}.

End StreamProcessor.

(** ** The chat-completions route ([routes/api_routes.py]) *)

Module ApiRoutes.
Import Runtime.
Import MessageConverter.
Import LoadBalancer.

(** What the caller gets back from the tab path once the envelope is out; the
    streaming that follows is not part of this model. *)
Inductive reply :=
| Forwarded (request_id tab_id : string)
| DirectApi (endpoint_config : pyval)
| Queued
| JSONError (status_code : Z) (kind : string).

(** The detail of the 503 raised during the cool-down; the source words it in
    Chinese around the same number. *)
Definition cooldown_detail (adjusted_remaining : Z) : string :=
  "waiting for the verification cool-down (" +:+ pretty adjusted_remaining +:+ " s left)".

(** The admission gate at the top of [chat_completions]. *)
Definition cooldown_gate (now : Q) (VERIFICATION_COOLDOWN_UNTIL : option Q) : M unit :=
  match VERIFICATION_COOLDOWN_UNTIL with
  | Some cooldown_until =>
      let remaining := (cooldown_until - now)%Q in
      if Qlt_le_dec 0 remaining then
        let adjusted_remaining := Z.max 0 (py_int (remaining - 3)) in
        raise (HTTPException 503 (cooldown_detail adjusted_remaining))
      else mret tt
  | None => mret tt
  end.

(** [lst[i]] *)
Definition py_index (lst : list pyval) (i : nat) : M pyval :=
  match lst !! i with
  | Some v => mret v
  | None => raise (IndexError "list index out of range")
  end.

Definition has_key (k : string) (v : pyval) : bool :=
  match py_get k v with Some _ => true | None => false end.

(** Whether a value can be the key of a dictionary: a list and an object
    cannot, and looking one up raises [TypeError]. *)
Definition hashable (v : pyval) : bool :=
  match v with
  | PList _ | PDict _ => false
  | _ => true
  end.

Definition unhashable : exn := TypeError "unhashable type".

(** [mapping.get(model_name)] for a model name that can be hashed; it may be
    missing from the request body, or be no string, and then it is no key of
    the mapping. *)
Definition lookup_model (m : gmap string pyval) (model_name : pyval) : option pyval :=
  match model_name with
  | PStr s => m !! s
  | _ => None
  end.

Definition contains (needle hay : string) : bool :=
  match ThinkingSeparator.find (list_ascii_of_string needle)
          (list_ascii_of_string hay) with
  | Some _ => true
  | None => false
  end.

(** ["type" in v]: a key of an object, an element of a list, a part of a
    text; other values cannot be searched. *)
Definition type_in (v : pyval) : M bool :=
  match v with
  | PDict d => mret (PyDict.mem "type" d)
  | PList l => mret (existsb (fun x => py_eq_str x "type") l)
  | PStr s => mret (contains "type" s)
  | _ => raise (TypeError "argument is not iterable")
  end.

(** The model type [chat_completions] settles on: the ["type"] of the
    endpoint mapping (of its first entry, for a list) if it declares one,
    else the one of [models.json], else ["text"]. The first entry of a list
    is searched for ["type"] whatever it is. *)
Definition model_type_of (model_name : pyval) : M pyval :=
  w ← read;
  if negb (hashable model_name) then raise unhashable else
  let endpoint_mapping := lookup_model (MODEL_ENDPOINT_MAP w) model_name in
  let of_models_json : M pyval :=
    match default (PDict []) (lookup_model (MODEL_NAME_TO_ID_MAP w) model_name) with
    | PDict model_info => mret (default (PStr "text") (PyDict.get "type" model_info))
    | _ => raise (AttributeError "object has no attribute 'get'")
    end in
  match endpoint_mapping with
  | Some (PDict (entry :: entries)) =>
      match PyDict.get "type" (entry :: entries) with
      | Some t => mret t
      | None => of_models_json
      end
  | Some (PList (first :: _)) =>
      declared ← type_in first;
      if (declared : bool) then
        mret (match first with
              | PDict d => default (PStr "text") (PyDict.get "type" d)
              | _ => PStr "text"
              end)
      else of_models_json
  | _ => of_models_json
  end.

(** The cursor of a model that has none yet starts at 0. *)
Definition init_cursor (model_name : string) (idx : gmap string nat) : gmap string nat :=
  if decide (is_Some (idx !! model_name)) then idx else <[model_name := 0]> idx.

(** The multi-endpoint step of [chat_completions]: for a model mapped to a
    list, take the endpoint under the cursor and move the cursor on. *)
Definition chat_completions_endpoint (model_name : pyval) : M (option pyval) :=
  w ← read;
  match model_name, lookup_model (MODEL_ENDPOINT_MAP w) model_name with
  | PStr name, Some (PList (e :: es)) =>
      if String.eqb name "" then mret None else
      modify (with_round_robin (init_cursor name)) ;;
      w1 ← read;
      let current_index := default 0 (MODEL_ROUND_ROBIN_INDEX w1 !! name) in
      endpoint_config ← py_index (e :: es) current_index;
      modify (with_round_robin
                (<[name := (current_index + 1) mod length (e :: es)]>)) ;;
      mret (Some endpoint_config)
  | _, other =>
      if truthy model_name && negb (hashable model_name) then raise unhashable
      else mret (if truthy model_name then other else None)
  end.

Definition is_direct_api_mode (endpoint_config : option pyval) : bool :=
  match endpoint_config with
  | Some (PDict d) =>
      match PyDict.get "api_type" d with
      | Some v => py_eq_str v "direct_api" || py_eq_str v "gemini_native"
      | None => false
      end
  | _ => false
  end.

(** The binding [handle_lmarena_request] works with, and for a list the
    index it was found at: the entry under the cursor, which this function
    reads and leaves where it is. *)
Definition selected_mapping (model_name : pyval) : M (option pyval * pyval) :=
  w ← read;
  match model_name, lookup_model (MODEL_ENDPOINT_MAP w) model_name with
  | PStr name, Some (PList (e :: es)) =>
      if String.eqb name "" then mret (None, PNone) else
      modify (with_round_robin (init_cursor name)) ;;
      w1 ← read;
      let current_index := default 0 (MODEL_ROUND_ROBIN_INDEX w1 !! name) in
      mapping ← py_index (e :: es) current_index;
      mret (Some mapping, PInt (Z.of_nat current_index))
  | PStr name, Some (PDict d) =>
      mret (if String.eqb name "" then None else Some (PDict d), PNone)
  | _, _ =>
      if truthy model_name && negb (hashable model_name) then raise unhashable
      else mret (None, PNone)
  end.

(** [a > b] on numbers. *)
Definition py_gt (a b : pyval) : M bool :=
  match py_num a, py_num b with
  | Some x, Some y => mret (negb (Qle_bool x y))
  | _, _ => raise (TypeError "'>' not supported between these operands")
  end.

(** The temperature cap: [openai_req["temperature"]] is lowered to the
    binding's [max_temperature] when it exceeds it. *)
Definition apply_temperature_limit (max_temperature_config : pyval)
    (openai_req : PyDict.t pyval) : M (PyDict.t pyval) :=
  match max_temperature_config, PyDict.get "temperature" openai_req with
  | PNone, _ | _, None => mret openai_req
  | _, Some original_temp =>
      above ← py_gt original_temp max_temperature_config;
      if (above : bool)
      then mret (PyDict.set "temperature" max_temperature_config openai_req)
      else mret openai_req
  end.

(** [retry_config] of the envelope. *)
Definition retry_config (cfg : gmap string pyval) : pyval :=
  let c := get_or "empty_response_retry" (PDict []) cfg in
  PDict [ ("enabled", default (PBool true) (py_get "enabled" c));
          ("max_retries", default (PInt 5) (py_get "max_retries" c));
          ("base_delay_ms", default (PInt 1000) (py_get "base_delay_ms" c));
          ("max_delay_ms", default (PInt 30000) (py_get "max_delay_ms" c));
          ("show_retry_info",
           default (PBool false) (py_get "show_retry_info_to_client" c)) ].

(** The envelope sent over the tab's WebSocket. *)
Definition message_to_browser (cfg : gmap string pyval) (request_id : string)
    (lmarena_payload : pyval) : pyval :=
  PDict [ ("request_id", PStr request_id);
          ("payload", lmarena_payload);
          ("retry_config", retry_config cfg) ].

Definition mark_image_request (model_type : pyval) (lmarena_payload : pyval) : pyval :=
  match lmarena_payload with
  | PDict d =>
      if py_eq_str model_type "image"
      then PDict (PyDict.set "is_image_request" (PBool true) d)
      else lmarena_payload
  | _ => lmarena_payload
  end.

(** [handle_lmarena_request] up to the moment the envelope has been sent.
    [request_id] is the fresh UUID and [created_at] the time stamp. The image
    pre-processing of the messages, which is off unless the file bed or image
    optimisation is configured, is not modelled; it rewrites image URLs inside
    ["messages"] only. *)
Definition handle_lmarena_request (P : pipeline) (request_id created_at : string)
    (model_name : pyval) (model_type : pyval) (openai_req : PyDict.t pyval)
  : M reply :=
  selection ← selected_mapping model_name;
  let '(mapping, selected_index_for_update) := selection in
  let field k := default PNone (mapping ≫= py_get k) in
  w ← read;
  binding ←
    (if truthy (field "session_id")
     then mret (field "session_id", field "mode", field "battle_target")
     else if truthy (get_or "use_default_ids_if_mapping_not_found" (PBool true) (CONFIG w))
     then mret (get_or "session_id" PNone (CONFIG w), PNone, PNone)
     else raise (HTTPException 400 "no session id configured for the model"));
  let '(session_id, mode_override, battle_target_override) := binding in
  openai_req ← apply_temperature_limit (field "max_temperature") openai_req;
  (if negb (truthy session_id) || contains "YOUR_" (py_str session_id)
   then raise (HTTPException 400 "invalid session id")
   else mret tt) ;;
  modify (with_channels (fun c => c ++ [request_id])) ;;
  modify (with_queues (<[request_id := []]>)) ;;
  modify (with_metadata (PyDict.set request_id
    (list_to_map
       [ ("openai_request", PDict openai_req);
         ("model_name", model_name);
         ("session_id", session_id);
         ("mode_override", mode_override);
         ("battle_target_override", battle_target_override);
         ("created_at", PStr created_at);
         ("selected_index", selected_index_for_update);
         ("mapping_list_length",
          match lookup_model (MODEL_ENDPOINT_MAP w) model_name with
          | Some (PList l) => PInt (Z.of_nat (length l))
          | _ => PNone
          end);
         ("transfer_allowed", PBool true);
         ("original_tab_id", PNone);
         ("transfer_count", PInt 0);
         ("last_transfer_time", PNone) ]))) ;;
  emit (Broadcast "request_start") ;;
  try_except
    (lmarena_payload ←
       call (convert_openai_to_lmarena_payload P) [PDict openai_req; session_id]
         [("mode_override", mode_override);
          ("battle_target_override", battle_target_override)];
     let envelope :=
       message_to_browser (CONFIG w) request_id
         (mark_image_request model_type lmarena_payload) in
     selected ← select_best_tab_for_request;
     let '(selected_tab_id, selected_ws) := selected in
     modify (with_metadata (fun md =>
       match PyDict.get request_id md with
       | Some m =>
           let m1 := <["tab_id" := PStr selected_tab_id]> m in
           PyDict.set request_id
             (if truthy (get_or "original_tab_id" PNone m1) then m1
              else <["original_tab_id" := PStr selected_tab_id]> m1) md
       | None => md
       end)) ;;
     send_text selected_ws envelope ;;
     mret (Forwarded request_id selected_tab_id))
    (fun e =>
       emit (Broadcast "request_end") ;;
       w2 ← read;
       match PyDict.get request_id (request_metadata w2) ≫= (fun m => m !! "tab_id") with
       | Some (PStr tab_id) => release_tab_request tab_id
       | _ => mret tt
       end ;;
       modify (with_channels (List.filter (fun r => negb (String.eqb r request_id)))) ;;
       modify (with_metadata (PyDict.del request_id)) ;;
       mret (JSONError 500 "internal_server_error")).

(** [chat_completions] for a request body [openai_req]. [bearer] is the key
    of a well-formed [Authorization: Bearer ...] header, if there is one. *)
Definition chat_completions (P : pipeline) (now : Q)
    (VERIFICATION_COOLDOWN_UNTIL : option Q) (IS_REFRESHING_FOR_VERIFICATION : bool)
    (request_id created_at : string) (bearer : option string)
    (openai_req : PyDict.t pyval) : M reply :=
  cooldown_gate now VERIFICATION_COOLDOWN_UNTIL ;;
  let model_name := default PNone (PyDict.get "model" openai_req) in
  model_type ← model_type_of model_name;
  w ← read;
  endpoint_config ← chat_completions_endpoint model_name;
  let direct := is_direct_api_mode endpoint_config in
  let api_key := get_or "api_key" PNone (CONFIG w) in
  (if truthy api_key && negb direct then
     match bearer with
     | Some provided_key =>
         if py_eq_str api_key provided_key then mret tt
         else raise (HTTPException 401 "wrong API key")
     | None => raise (HTTPException 401 "no API key provided")
     end
   else mret tt) ;;
  match browser_ws w, direct with
  | None, false =>
      if truthy (get_or "enable_auto_retry" (PBool false) (CONFIG w))
      then mret Queued
      else raise (HTTPException 503 "browser script not connected")
  | None, true =>
      if IS_REFRESHING_FOR_VERIFICATION
      then raise (HTTPException 503 "waiting for the browser to refresh")
      else mret (DirectApi (default PNone endpoint_config))
  | Some _, true => mret (DirectApi (default PNone endpoint_config))
  | Some _, false =>
      handle_lmarena_request P request_id created_at model_name model_type openai_req
  end.

(** The route handler that calls [chat_completions] is not among the sources;
    like the wrappers of [core/tab_manager.py] it is taken to pass the
    module-level values of [core/global_state.py]. *)
Definition post_chat_completions (P : pipeline) (now : Q)
    (request_id created_at : string) (bearer : option string)
    (openai_req : PyDict.t pyval) : M reply :=
  w ← read;
  chat_completions P now
    (VERIFICATION_COOLDOWN_UNTIL (verification w))
    (IS_REFRESHING_FOR_VERIFICATION (verification w))
    request_id created_at bearer openai_req.

(** A tab-path request whose upstream reply turns out to be a challenge page
    at time [seen]: admission, then the stream generator, which was given the
    flags the route was called with. *)
Definition request_meeting_challenge (P : pipeline) (now seen : Q)
    (request_id created_at : string) (openai_req : PyDict.t pyval)
  : M (reply * option (StreamProcessor.verification_message * verification_state)) :=
  w ← read;
  r ← post_chat_completions P now request_id created_at None openai_req;
  match r with
  | Forwarded _ _ =>
      d ← StreamProcessor.process_lmarena_stream_challenge seen
             (IS_REFRESHING_FOR_VERIFICATION (verification w))
             (VERIFICATION_COOLDOWN_UNTIL (verification w));
      mret (r, Some d)
  | _ => mret (r, None)
  end.





End ApiRoutes.

(** ** The WebSocket endpoint ([routes/websocket_routes.py]) *)

Module WebsocketRoutes.
Import Runtime.
Import MessageConverter.
Import LoadBalancer.

(** One turn of the receive loop: a parsed frame [{request_id, data}] from
    the tab [tab_id] is put on the channel of its request, or dropped. *)
Definition route_message (tab_id : string) (message : PyDict.t pyval) : M unit :=
  let request_id := default PNone (PyDict.get "request_id" message) in
  let data := default PNone (PyDict.get "data" message) in
  if negb (truthy request_id) then emit (Warning "invalid message")
  else match data, request_id with
       | PNone, _ => emit (Warning "invalid message")
       | _, PStr rid =>
           w ← read;
           if bool_decide (rid ∈ response_channels w) then
             match PyDict.get rid (request_metadata w) with
             | Some metadata =>
                 let expected_tab_id := get_or "tab_id" PNone metadata in
                 let transfer_allowed :=
                   get_or "transfer_allowed" (PBool true) metadata in
                 if truthy transfer_allowed then put rid data
                 else if py_eq_str expected_tab_id tab_id then put rid data
                 else emit (Warning "cross-tab routing refused")
             | None =>
                 (* no metadata: put it in anyway (backward compatible) *)
                 put rid data
             end
           else emit (Warning "unknown or closed request")
       | _, _ => emit (Warning "unknown or closed request")
       end.

(** The first frame of a tab that did not announce a [tab_id] (an older
    user script) is handled before the loop, by the channel's existence
    alone. *)
Definition route_first_message (message : PyDict.t pyval) : M unit :=
  let request_id := default PNone (PyDict.get "request_id" message) in
  let data := default PNone (PyDict.get "data" message) in
  if negb (truthy request_id) then mret tt
  else match data, request_id with
       | PNone, _ => mret tt
       | _, PStr rid =>
           w ← read;
           if bool_decide (rid ∈ response_channels w) then put rid data
           else emit (Warning "unknown or closed request")
       | _, _ => emit (Warning "unknown or closed request")
       end.

Definition browser_disconnected : pyval :=
  error_frame "Browser disconnected during operation".

(** The [finally] block of [websocket_endpoint]: what runs when the tab's
    socket is gone. [reassign_pending_requests_func] is the function the
    endpoint is given for reassignment. *)
Definition disconnect_cleanup (tab_id : string)
    (reassign_pending_requests_func : string -> M unit) : M unit :=
  async_with tab_request_counts_lock
    (modify (with_counts (delete tab_id))) ;;
  async_with browser_connections_lock
    (modify (with_connections (PyDict.del tab_id)) ;;
     w ← read;
     modify (with_browser_ws (fun _ => head (PyDict.values (browser_connections w)))) ;;
     match browser_connections w with
     | [] => mret tt
     | _ => try_except (reassign_pending_requests_func tab_id) (fun _ => mret tt)
     end) ;;
  emit (Broadcast "browser_status") ;;
  emit (Broadcast "tab_connection") ;;
  w ← read;
  if negb (truthy (get_or "enable_auto_retry" (PBool false) (CONFIG w))) then
    for_each (response_channels w) (fun request_id =>
      put request_id browser_disconnected) ;;
    modify (with_channels (fun _ => []))
  else mret tt.

(** The endpoint as the process runs it: the function it is given takes the
    tab id alone, which is the tab manager's wrapper, and that wrapper works
    on the registry lock of [core/global_state.py], the one this block holds. *)
Definition websocket_disconnect (P : pipeline) (now : string) (tab_id : string)
  : M unit :=
  disconnect_cleanup tab_id (TabManager.reassign_pending_requests P now).

End WebsocketRoutes.

(** ** Worked scenarios for the tab registry *)

Module Scenario.
Import Runtime.

Definition no_verification : verification_state :=
  {| IS_REFRESHING_FOR_VERIFICATION := false; VERIFICATION_COOLDOWN_UNTIL := None |}.

Definition idle : world :=
  {| CONFIG := ∅; MODEL_ENDPOINT_MAP := ∅; MODEL_NAME_TO_ID_MAP := ∅;
     MODEL_ROUND_ROBIN_INDEX := ∅; verification := no_verification;
     browser_connections := []; browser_ws := None; tab_request_counts := ∅;
     response_channels := []; queues := ∅; request_metadata := [];
     held := []; trace := [] |}.

(** The metadata [handle_lmarena_request] stores for a request sent on [tab]. *)
Definition pending (tab : string) (transfers : Z) : gmap string pyval :=
  list_to_map
    [ ("openai_request",
       PDict [("model", PStr "m1");
              ("messages", PList [PDict [("role", PStr "user"); ("content", PStr "hi")]])]);
      ("model_name", PStr "m1");
      ("session_id", PStr "session-1");
      ("mode_override", PNone);
      ("battle_target_override", PNone);
      ("transfer_allowed", PBool true);
      ("tab_id", PStr tab);
      ("original_tab_id", PStr tab);
      ("transfer_count", PInt transfers);
      ("last_transfer_time", PNone) ].

(** Two tabs; request R1 is in flight on T1, R2 on T2. *)
Definition two_tabs : world :=
  {| CONFIG := ∅; MODEL_ENDPOINT_MAP := ∅; MODEL_NAME_TO_ID_MAP := ∅;
     MODEL_ROUND_ROBIN_INDEX := ∅; verification := no_verification;
     browser_connections := [("T1", "ws1"); ("T2", "ws2")];
     browser_ws := Some "ws1";
     tab_request_counts := {["T1" := 1; "T2" := 1]};
     response_channels := ["R1"; "R2"];
     queues := {["R1" := []; "R2" := []]};
     request_metadata := [("R1", pending "T1" 0); ("R2", pending "T2" 0)];
     held := []; trace := [] |}.

(** The same process once T1 has been taken out of the registry. *)
Definition t1_gone : world :=
  with_counts (delete "T1") (with_connections (PyDict.del "T1") two_tabs).

(** A single tab with a request in flight. *)
Definition one_tab : world :=
  {| CONFIG := ∅; MODEL_ENDPOINT_MAP := ∅; MODEL_NAME_TO_ID_MAP := ∅;
     MODEL_ROUND_ROBIN_INDEX := ∅; verification := no_verification;
     browser_connections := [("T1", "ws1")];
     browser_ws := Some "ws1";
     tab_request_counts := {["T1" := 1]};
     response_channels := ["R1"];
     queues := {["R1" := []]};
     request_metadata := [("R1", pending "T1" 0)];
     held := []; trace := [] |}.

(** A channel whose metadata is gone. *)
Definition orphan_channel : world :=
  {| CONFIG := ∅; MODEL_ENDPOINT_MAP := ∅; MODEL_NAME_TO_ID_MAP := ∅;
     MODEL_ROUND_ROBIN_INDEX := ∅; verification := no_verification;
     browser_connections := [("T1", "ws1"); ("T2", "ws2")];
     browser_ws := Some "ws1";
     tab_request_counts := ∅;
     response_channels := ["R1"];
     queues := {["R1" := []]};
     request_metadata := [];
     held := []; trace := [] |}.

(** A request that forbids transfers, in flight on T1. *)
Definition strict_owner : world :=
  {| CONFIG := ∅; MODEL_ENDPOINT_MAP := ∅; MODEL_NAME_TO_ID_MAP := ∅;
     MODEL_ROUND_ROBIN_INDEX := ∅; verification := no_verification;
     browser_connections := [("T1", "ws1"); ("T2", "ws2")];
     browser_ws := Some "ws1";
     tab_request_counts := {["T1" := 1]};
     response_channels := ["R1"];
     queues := {["R1" := []]};
     request_metadata :=
       [("R1", <["transfer_allowed" := PBool false]> (pending "T1" 0))];
     held := []; trace := [] |}.

(** A translator with the parameter list the reassignment code calls it
    with: the current one plus a [message_id] in third place (the current
    one's return statement notes that the field "has been removed"). It is
    used only to show what the code after the call would do. *)
Definition convert_taking_message_id (P : MessageConverter.pipeline) : pyfunc :=
  {| fn_name := "convert_openai_to_lmarena_payload";
     fn_params := ["openai_data"; "session_id"; "message_id"; "mode_override";
                   "battle_target_override"];
     fn_required := 3;
     fn_body := fn_body (MessageConverter.convert_openai_to_lmarena_payload P) |}.

(** A field of the metadata stored for a request. *)
Definition stored (request_id key : string) (w : world) : option pyval :=
  match PyDict.get request_id (request_metadata w) with
  | Some metadata => metadata !! key
  | None => None
  end.

Definition frame (request_id : string) (data : pyval) : PyDict.t pyval :=
  [("request_id", PStr request_id); ("data", data)].

(** Scenario S2: model m2 is mapped to three session bindings; one tab. *)
Definition binding (session_id : string) : pyval :=
  PDict [("session_id", PStr session_id); ("mode", PStr "direct_chat");
         ("type", PStr "text")].

Definition round_robin : world :=
  {| CONFIG := ∅;
     MODEL_ENDPOINT_MAP :=
       {["m2" := PList [binding "B1"; binding "B2"; binding "B3"]]};
     MODEL_NAME_TO_ID_MAP := ∅;
     MODEL_ROUND_ROBIN_INDEX := ∅; verification := no_verification;
     browser_connections := [("T1", "ws1")];
     browser_ws := Some "ws1";
     tab_request_counts := ∅;
     response_channels := []; queues := ∅; request_metadata := [];
     held := []; trace := [] |}.

(** Scenario S1: model m1 has one binding capped at temperature 0.7; the
    request asks for 1.5. *)
Definition capped : world :=
  {| CONFIG := ∅;
     MODEL_ENDPOINT_MAP :=
       {["m1" := PDict [("session_id", PStr "session-1"); ("type", PStr "text");
                        ("max_temperature", PFloat (7 # 10))]]};
     MODEL_NAME_TO_ID_MAP := ∅;
     MODEL_ROUND_ROBIN_INDEX := ∅; verification := no_verification;
     browser_connections := [("T1", "ws1")];
     browser_ws := Some "ws1";
     tab_request_counts := ∅;
     response_channels := []; queues := ∅; request_metadata := [];
     held := []; trace := [] |}.

Definition hot_request : PyDict.t pyval :=
  [("model", PStr "m1"); ("temperature", PFloat (3 # 2)); ("stream", PBool true);
   ("messages", PList [PDict [("role", PStr "user"); ("content", PStr "hi")]])].

End Scenario.

(** ** The configuration store ([core/config_loader.py]) *)

Module ConfigLoader.

(** What reading and parsing a configuration file comes to. *)
Inductive file_content :=
| Missing                           (* [open] raises [FileNotFoundError] *)
| Blank                             (* empty, or white space only *)
| Malformed                         (* [json.loads] raises [JSONDecodeError] *)
| Object (d : gmap string pyval).   (* a JSON object; other JSON values are
                                       not configuration files *)

(** What the file system shows of one file when a reload looks at it;
    [getmtime = None] stands for [FileNotFoundError]. *)
Record file_view := {
  getmtime : option Z;
  content : file_content
}.

Record store := {
  CONFIG : gmap string pyval;
  MODEL_ENDPOINT_MAP : gmap string pyval;
  CONFIG_FILE_MTIMES : gmap string Z
}.

Definition mtime_of (config_file : string) (st : store) : Z :=
  default 0%Z (CONFIG_FILE_MTIMES st !! config_file).

(** [d.clear(); d.update(new)] *)
Definition clear_update (new : gmap string pyval) : gmap string pyval := new ∪ ∅.

Definition load_config (force_reload : bool) (fs : file_view) (st : store) : store :=
  match getmtime fs with
  | None =>
      {| CONFIG := ∅; MODEL_ENDPOINT_MAP := MODEL_ENDPOINT_MAP st;
         CONFIG_FILE_MTIMES := CONFIG_FILE_MTIMES st |}
  | Some current_mtime =>
      if negb force_reload && (current_mtime =? mtime_of "config.jsonc" st)%Z then st
      else
        match content fs with
        | Object new_config =>
            {| CONFIG := clear_update new_config;
               MODEL_ENDPOINT_MAP := MODEL_ENDPOINT_MAP st;
               CONFIG_FILE_MTIMES :=
                 <["config.jsonc" := current_mtime]> (CONFIG_FILE_MTIMES st) |}
        | Missing | Blank | Malformed =>
            (* "load or parse failed ... the default configuration is used" *)
            {| CONFIG := ∅; MODEL_ENDPOINT_MAP := MODEL_ENDPOINT_MAP st;
               CONFIG_FILE_MTIMES := CONFIG_FILE_MTIMES st |}
        end
  end.

Definition load_model_endpoint_map (force_reload : bool) (fs : file_view)
    (st : store) : store :=
  match getmtime fs with
  | None =>
      {| CONFIG := CONFIG st; MODEL_ENDPOINT_MAP := ∅;
         CONFIG_FILE_MTIMES := CONFIG_FILE_MTIMES st |}
  | Some current_mtime =>
      if negb force_reload
         && (current_mtime =? mtime_of "model_endpoint_map.json" st)%Z then st
      else
        match content fs with
        | Object new_map =>
            {| CONFIG := CONFIG st; MODEL_ENDPOINT_MAP := clear_update new_map;
               CONFIG_FILE_MTIMES :=
                 <["model_endpoint_map.json" := current_mtime]> (CONFIG_FILE_MTIMES st) |}
        | Blank =>
            {| CONFIG := CONFIG st; MODEL_ENDPOINT_MAP := clear_update ∅;
               CONFIG_FILE_MTIMES :=
                 <["model_endpoint_map.json" := current_mtime]> (CONFIG_FILE_MTIMES st) |}
        | Missing | Malformed =>
            (* "... an empty mapping is used" *)
            {| CONFIG := CONFIG st; MODEL_ENDPOINT_MAP := ∅;
               CONFIG_FILE_MTIMES := CONFIG_FILE_MTIMES st |}
        end
  end.

(** A running store, and a configuration file saved half-way through an
    edit. *)
Definition running : store :=
  {| CONFIG := {["api_key" := PStr "secret"; "enable_auto_retry" := PBool true]};
     MODEL_ENDPOINT_MAP := {["m1" := PDict [("session_id", PStr "session-1")]]};
     CONFIG_FILE_MTIMES :=
       {["config.jsonc" := 10%Z; "model_endpoint_map.json" := 10%Z; "models.json" := 0%Z]} |}.

Definition broken_edit : file_view := {| getmtime := Some 20%Z; content := Malformed |}.

End ConfigLoader.

(** ** The image pipeline's cache ([services/image_service.py]) *)

Module ImageService.

(** What the pipeline does to an image, in order. *)
Inductive image_work :=
| Decode
| Optimize
| Upload (endpoint_name : string).

(** The image codecs ([modules/image_processor.py], built on PIL), the
    file-bed uploader, SHA-256 and [random.sample] are taken as given. An
    image is its bytes, kept as a string. *)
Record toolbox := {
  sha256_hexdigest : string -> string;
  decode_base64_image : string -> (string * string) + string;
  optimize_image : string -> pyval -> string -> (string * string) + string;
  get_mime_type_from_format : string -> string;
  image_to_base64 : string -> string -> string;
  upload_to_file_bed : string -> string -> pyval -> string + string;
  random_sample : list pyval -> list pyval
}.

(** The mutable arguments of [process_image_data] ([None] when the caller
    leaves them out) and the work done so far. *)
Record image_state := {
  PROCESSED_IMAGE_CACHE : option (PyDict.t (string * Q));
  DISABLED_ENDPOINTS : option (PyDict.t Q);
  ROUND_ROBIN_INDEX_REF : option nat;
  work : list image_work
}.

Definition with_cache (c : option (PyDict.t (string * Q))) (st : image_state) : image_state :=
  {| PROCESSED_IMAGE_CACHE := c; DISABLED_ENDPOINTS := DISABLED_ENDPOINTS st;
     ROUND_ROBIN_INDEX_REF := ROUND_ROBIN_INDEX_REF st; work := work st |}.

Definition with_disabled (d : option (PyDict.t Q)) (st : image_state) : image_state :=
  {| PROCESSED_IMAGE_CACHE := PROCESSED_IMAGE_CACHE st; DISABLED_ENDPOINTS := d;
     ROUND_ROBIN_INDEX_REF := ROUND_ROBIN_INDEX_REF st; work := work st |}.

Definition with_index (i : option nat) (st : image_state) : image_state :=
  {| PROCESSED_IMAGE_CACHE := PROCESSED_IMAGE_CACHE st;
     DISABLED_ENDPOINTS := DISABLED_ENDPOINTS st;
     ROUND_ROBIN_INDEX_REF := i; work := work st |}.

Definition did (x : image_work) (st : image_state) : image_state :=
  {| PROCESSED_IMAGE_CACHE := PROCESSED_IMAGE_CACHE st;
     DISABLED_ENDPOINTS := DISABLED_ENDPOINTS st;
     ROUND_ROBIN_INDEX_REF := ROUND_ROBIN_INDEX_REF st; work := work st ++ [x] |}.

(** [base64_data.split(',', 1)[1]] when there is a comma. *)
Fixpoint after_comma (s : string) : option string :=
  match s with
  | EmptyString => None
  | String c s' => if Ascii.eqb c "," then Some s' else after_comma s'
  end.

Definition calculate_image_hash (T : toolbox) (base64_data : string) : string :=
  sha256_hexdigest T (default base64_data (after_comma base64_data)).

(** [merge_image_config] of [modules/image_processor.py]: the model's
    settings override the global ones, under the global field names. *)
Definition field_mapping : list (string * string) :=
  [ ("enabled", "enabled"); ("target_format", "target_format");
    ("convert_png_to_jpg", "convert_png_to_jpg");
    ("convert_to_webp", "convert_to_webp"); ("target_size_kb", "target_size_kb");
    ("quality", "jpeg_quality"); ("jpeg_quality", "jpeg_quality");
    ("webp_quality", "webp_quality"); ("max_width", "max_width");
    ("max_height", "max_height"); ("strip_metadata", "strip_metadata");
    ("optimize_encoding", "optimize_encoding") ].

Definition as_dict (v : pyval) : PyDict.t pyval :=
  match v with PDict d => d | _ => [] end.

Definition merge_image_config (global_config model_config : pyval) : pyval :=
  let merged := if truthy global_config then as_dict global_config else [] in
  if negb (truthy model_config) then PDict merged else
  let merged :=
    fold_left (fun m '(model_key, global_key) =>
      match py_get model_key model_config with
      | Some value =>
          let m := PyDict.set global_key value m in
          if String.eqb model_key "quality"
          then PyDict.set "webp_quality" value (PyDict.set "jpeg_quality" value m)
          else m
      | None => m
      end) field_mapping merged in
  if truthy (default (PBool false) (py_get "enabled" model_config))
  then PDict (PyDict.set "enabled" (PBool true) merged)
  else PDict merged.

(** How a call of [process_image_data] ends: with the pair (processed data,
    error) it returns, or with an exception, of which the name of its type
    is kept. *)
Inductive result :=
| Returns (processed : string) (error : option string)
| Raises (type_name : string).

(** The message of the [except Exception] handler around the processing; the
    source words it in Chinese around the type and the text of the
    exception. *)
Definition processing_error (type_name : string) : string :=
  "image processing failed: " +:+ type_name.

(** [merge_image_config(global_optimization_config, model_image_config)] and
    the [.get("enabled", False)] on what it returns, for a global setting
    that is whatever the configuration file holds under
    ["image_optimization"]. A value that is true and no object has no
    [copy()] ([AttributeError]), or, being a list, has one and then fails
    at the first [merged[global_key] = value] ([TypeError]) or at the
    [.get] on the list that comes back ([AttributeError]). *)
Definition merged_optimization_config (global_optimization_config model_image_config : pyval)
  : string + pyval :=
  match global_optimization_config with
  | PDict _ => inr (merge_image_config global_optimization_config model_image_config)
  | PList (_ :: _) =>
      if truthy model_image_config
         && existsb (fun '(model_key, _) =>
                       match py_get model_key model_image_config with
                       | Some _ => true
                       | None => false
                       end) field_mapping
      then inl "TypeError" else inl "AttributeError"
  | _ =>
      if truthy global_optimization_config then inl "AttributeError"
      else inr (merge_image_config global_optimization_config model_image_config)
  end.

(** [cache[image_hash] = (value, now)], then the size check of the two
    branches that have one: past [max_size] the oldest entry goes. The
    comparison with a [max_size] that is no number raises [TypeError], after
    the entry has been written; the name of the exception, if any, is the
    first component. *)
Definition cache_store (evict : bool) (cache_enabled : bool)
    (cache_config : PyDict.t pyval)
    (image_hash : option string) (value : string) (now : Q) (st : image_state)
  : option string * image_state :=
  match cache_enabled, image_hash, PROCESSED_IMAGE_CACHE st with
  | true, Some h, Some c =>
      if String.eqb h "" then (None, st) else
      let c1 := PyDict.set h (value, now) c in
      if evict then
        match py_num (default (PInt 200) (PyDict.get "max_size" cache_config)) with
        | Some max_size =>
            if negb (Qle_bool (inject_Z (Z.of_nat (length c1))) max_size)
            then (None, with_cache (Some (tail c1)) st)
            else (None, with_cache (Some c1) st)
        | None => (Some "TypeError", with_cache (Some c1) st)
        end
      else (None, with_cache (Some c1) st)
  | _, _, _ => (None, st)
  end.

(** The upload loop over [endpoints_to_try], each of them an object. The
    names of endpoints are compared by their text. *)
Fixpoint try_upload (T : toolbox) (strategy : pyval) (filename upload_base64 : string)
    (now : Q) (i : nat) (endpoints_to_try : list pyval) (last_error : option string)
    (st : image_state) : (string + option string) * image_state :=
  match endpoints_to_try with
  | [] => (inr last_error, st)
  | endpoint :: rest =>
      let endpoint_name :=
        LoadBalancer.py_str (default (PStr "Unknown") (py_get "name" endpoint)) in
      if match DISABLED_ENDPOINTS st with
         | Some d => PyDict.mem endpoint_name d
         | None => false
         end
      then try_upload T strategy filename upload_base64 now (S i) rest last_error st
      else
        let st1 := did (Upload endpoint_name) st in
        match upload_to_file_bed T filename upload_base64 endpoint with
        | inl uploaded_url => (inl uploaded_url, st1)
        | inr upload_error =>
            let st2 :=
              with_disabled
                (option_map (PyDict.set endpoint_name now) (DISABLED_ENDPOINTS st1)) st1 in
            let st3 :=
              if MessageConverter.py_eq_str strategy "failover" && (i =? 0)%nat
              then with_index (option_map S (ROUND_ROBIN_INDEX_REF st2)) st2
              else st2 in
            try_upload T strategy filename upload_base64 now (S i) rest
              (Some upload_error) st3
        end
  end.

(** [lst[k:] + lst[:k]] *)
Definition rotate {A} (k : nat) (l : list A) : list A := drop k l ++ take k l.

(** [[ep for ep in all_endpoints if ep.get("enabled") and ep.get("name") not
    in DISABLED_ENDPOINTS]] (without the second test when there are no
    disabled endpoints to look at), or the name of the exception it raises:
    an entry that is no object has no [get], a name that is a list or an
    object cannot be looked up. *)
Fixpoint active_among (disabled : option (PyDict.t Q)) (all_endpoints : list pyval)
  : string + list pyval :=
  match all_endpoints with
  | [] => inr []
  | PDict ep :: rest =>
      let keep :=
        if truthy (default PNone (PyDict.get "enabled" ep)) then
          match disabled, default PNone (PyDict.get "name" ep) with
          | Some _, (PList _ | PDict _) => inl "TypeError"
          | Some d, name => inr (negb (PyDict.mem (LoadBalancer.py_str name) d))
          | None, _ => inr true
          end
        else inr false in
      match keep with
      | inl e => inl e
      | inr k =>
          match active_among disabled rest with
          | inl e => inl e
          | inr l => inr (if k then PDict ep :: l else l)
          end
      end
  | _ :: _ => inl "AttributeError"
  end.

(** The same for whatever the configuration holds under
    ["file_bed_endpoints"]: a text is gone through letter by letter and an
    object key by key, and none of these has a [get]; a number, a truth
    value or [null] cannot be gone through at all. *)
Definition active_endpoints_of (disabled : option (PyDict.t Q)) (all_endpoints : pyval)
  : string + list pyval :=
  match all_endpoints with
  | PList l => active_among disabled l
  | PStr "" | PDict [] => inr []
  | PStr _ | PDict _ => inl "AttributeError"
  | _ => inl "TypeError"
  end.

(** [process_image_data]; [now] is the clock, read as one instant. What is
    read of the configuration before the [try] raises where the value has
    not the type the code takes it to have; inside the [try] every exception
    ends in the handler, which returns the data as they came, with an error,
    and leaves the state as it was when the exception came. *)
Definition process_image_data (T : toolbox) (now : Q) (base64_data filename : string)
    (CONFIG : gmap string pyval) (FILEBED_RECOVERY_TIME : Q)
    (model_image_config : pyval) (st : image_state)
  : result * image_state :=
  let file_bed_enabled := truthy (Runtime.get_or "file_bed_enabled" (PBool false) CONFIG) in
  let global_optimization_config := Runtime.get_or "image_optimization" (PDict []) CONFIG in
  match Runtime.get_or "processed_image_cache" (PDict []) CONFIG with
  | PDict cache_config =>
  let cache_enabled := truthy (default (PBool true) (PyDict.get "enabled" cache_config)) in
  match merged_optimization_config global_optimization_config model_image_config with
  | inl type_name => (Raises type_name, st)
  | inr optimization_config =>
  let optimization_enabled :=
    truthy (default (PBool false) (py_get "enabled" optimization_config))
    || (truthy model_image_config
        && truthy (default (PBool false) (py_get "enabled" model_image_config))) in
  (* the cache *)
  let image_hash :=
    match cache_enabled, PROCESSED_IMAGE_CACHE st with
    | true, Some _ => Some (calculate_image_hash T base64_data)
    | _, _ => None
    end in
  let lookup : (string + string) + image_state :=
    match image_hash, PROCESSED_IMAGE_CACHE st with
    | Some h, Some c =>
        match PyDict.get h c with
        | Some (cached_data, cache_time) =>
            match py_num (default (PInt 3600) (PyDict.get "ttl_seconds" cache_config)) with
            | Some ttl =>
                if Qlt_le_dec (now - cache_time) ttl
                then inl (inl cached_data)
                else inr (with_cache (Some (PyDict.del h c)) st)
            | None => inl (inr "TypeError")
            end
        | None => inr st
        end
    | _, _ => inr st
    end in
  match lookup with
  | inl (inl cached_data) => (Returns cached_data None, st)
  | inl (inr type_name) => (Raises type_name, st)
  | inr st =>
      let handled type_name st :=
        (Returns base64_data (Some (processing_error type_name)), st) in
      let stored_then (outcome : result) (s : option string * image_state) :=
        match s with
        | (None, st) => (outcome, st)
        | (Some type_name, st) => handled type_name st
        end in
      let st := did Decode st in
      match decode_base64_image T base64_data with
      | inr decode_error => (Returns base64_data (Some decode_error), st)
      | inl (image_bytes, image_format) =>
          let '(final_image_data, final_format, st) :=
            if optimization_enabled then
              match optimize_image T image_bytes optimization_config image_format with
              | inl (optimized_data, optimized_format) =>
                  (optimized_data, optimized_format, did Optimize st)
              | inr _ => (image_bytes, image_format, did Optimize st)
              end
            else (image_bytes, image_format, st) in
          let base64_result :=
            image_to_base64 T final_image_data
              (get_mime_type_from_format T final_format) in
          if file_bed_enabled then
            let st :=
              with_disabled
                (option_map
                   (List.filter (fun '(_, disable_time) =>
                      negb (if Qlt_le_dec FILEBED_RECOVERY_TIME (now - disable_time)
                            then true else false)))
                   (DISABLED_ENDPOINTS st)) st in
            match active_endpoints_of (DISABLED_ENDPOINTS st)
                    (Runtime.get_or "file_bed_endpoints" (PList []) CONFIG) with
            | inl type_name => handled type_name st
            | inr [] => (Returns base64_result None, st)
            | inr active_endpoints =>
                let strategy := Runtime.get_or "file_bed_selection_strategy" (PStr "random") CONFIG in
                let '(endpoints_to_try, st) :=
                  match ROUND_ROBIN_INDEX_REF st with
                  | Some ROUND_ROBIN_INDEX =>
                      let start_index := ROUND_ROBIN_INDEX mod length active_endpoints in
                      if MessageConverter.py_eq_str strategy "failover"
                      then (rotate start_index active_endpoints, st)
                      else if MessageConverter.py_eq_str strategy "round_robin"
                      then (rotate start_index active_endpoints,
                            with_index (Some (S ROUND_ROBIN_INDEX)) st)
                      else (random_sample T active_endpoints, st)
                  | None => (random_sample T active_endpoints, st)
                  end in
                match try_upload T strategy filename base64_result now 0
                        endpoints_to_try None st with
                | (inl final_url, st) =>
                    stored_then (Returns final_url None)
                      (cache_store true cache_enabled cache_config image_hash final_url
                         now st)
                | (inr _, st) =>
                    stored_then (Returns base64_result None)
                      (cache_store false cache_enabled cache_config image_hash
                         base64_result now st)
                end
            end
          else
            stored_then (Returns base64_result None)
              (cache_store true cache_enabled cache_config image_hash base64_result now st)
      end
  end
  end
  | _ => (Raises "AttributeError", st)
  end.

(** A toolbox for worked examples: the hash is the text itself, every image
    decodes, optimisation and upload succeed. *)
Definition plain_toolbox : toolbox :=
  {| sha256_hexdigest := fun s => s;
     decode_base64_image := fun s => inl (default s (after_comma s), "png");
     optimize_image := fun bytes _ fmt => inl (bytes, fmt);
     get_mime_type_from_format := fun _ => "image/png";
     image_to_base64 := fun bytes mime => "data:" +:+ mime +:+ ";base64," +:+ bytes;
     upload_to_file_bed := fun name _ _ => inl ("https://files.example/" +:+ name);
     random_sample := fun l => l |}.

(** An image whose processed form was cached at time 0. *)
Definition cached_image : image_state :=
  {| PROCESSED_IMAGE_CACHE := Some [("AAAA", ("https://files.example/a.png", 0%Q))];
     DISABLED_ENDPOINTS := Some [];
     ROUND_ROBIN_INDEX_REF := Some 0;
     work := [] |}.

(** A configuration that switches the cache off, as a hot reload may. *)
Definition cache_off : gmap string pyval :=
  {["processed_image_cache" := PDict [("enabled", PBool false)]]}.

End ImageService.
(** ** Relating the state before and after a coroutine *)

Module Frame.
Import Runtime.

(** [m] takes every state to one that is [I]-related to it, and returns only
    values that satisfy [R]. *)
Definition keeps {A} (I : world -> world -> Prop) (R : A -> Prop) (m : M A) : Prop :=
  forall w, I w (snd (m w)) /\ (forall a, fst (m w) = Return a -> R a).

(** The queue of [request_id] is as it was. *)
Definition same_queue (request_id : string) (w w' : world) : Prop :=
  queues w' !! request_id = queues w !! request_id.

(** The registry of tabs, the counters and the locks held are as they
    were. *)
Definition same_registry (w w' : world) : Prop :=
  browser_connections w' = browser_connections w /\
  browser_ws w' = browser_ws w /\
  tab_request_counts w' = tab_request_counts w /\
  held w' = held w.

(** The registries of channels and of metadata are as they were, and so is
    every queue that does not belong to a registered channel. *)
Definition open_channels_only (w w' : world) : Prop :=
  response_channels w' = response_channels w /\
  request_metadata w' = request_metadata w /\
  forall r, r ∉ response_channels w -> queues w' !! r = queues w !! r.

End Frame.

Module LoadBalancerNotions.
Import Runtime.

(** The two clean-up loops of [select_best_tab_for_request]: counters of tabs
    that are gone are dropped, every connected tab has a counter. *)
Definition fresh_counts (conns : PyDict.t string) (counts : gmap string nat)
  : gmap string nat :=
  fold_left (fun c tab => if decide (is_Some (c !! tab)) then c else <[tab := 0]> c)
    (PyDict.keys conns)
    (filter (fun kv => PyDict.mem kv.1 conns = true) counts).

End LoadBalancerNotions.

(** ** Requests in a row at the multi-endpoint step ([routes/api_routes.py]) *)

Module ApiRoutesNotions.
Import Runtime.
Import ApiRoutes.

(** The endpoint configurations that [n] successive requests for
    [model_name] get from the multi-endpoint step of [chat_completions]. *)
Fixpoint endpoints_of (model_name : pyval) (n : nat) : M (list (option pyval)) :=
  match n with
  | O => mret []
  | S n' =>
      endpoint_config ← chat_completions_endpoint model_name;
      rest ← endpoints_of model_name n';
      mret (endpoint_config :: rest)
  end.

End ApiRoutesNotions.

(** ** More worked scenarios *)

Module MoreScenarios.
Import Runtime.

(** Scenario S2's process with an API key configured. *)
Definition keyed : world :=
  {| CONFIG := {["api_key" := PStr "secret"]};
     MODEL_ENDPOINT_MAP :=
       {["m2" := PList [Scenario.binding "B1"; Scenario.binding "B2";
                        Scenario.binding "B3"]]};
     MODEL_NAME_TO_ID_MAP := ∅;
     MODEL_ROUND_ROBIN_INDEX := ∅; verification := Scenario.no_verification;
     browser_connections := [("T1", "ws1")];
     browser_ws := Some "ws1";
     tab_request_counts := ∅;
     response_channels := []; queues := ∅; request_metadata := [];
     held := []; trace := [] |}.

(** A clock for worked examples: the time stamp ["old"] is 45 minutes back,
    ["new"] is 5 minutes back, anything else cannot be read. *)
Definition minutes_since (created_at : string) : option Q :=
  if String.eqb created_at "old" then Some 45%Q
  else if String.eqb created_at "new" then Some 5%Q
  else None.

(** A process with eleven requests on record: R1 is old, R2 has a time stamp
    that cannot be read, the others are new; R1, R2 and R3 have channels. *)
Definition crowded : world :=
  {| CONFIG := ∅; MODEL_ENDPOINT_MAP := ∅; MODEL_NAME_TO_ID_MAP := ∅;
     MODEL_ROUND_ROBIN_INDEX := ∅; verification := Scenario.no_verification;
     browser_connections := [("T1", "ws1")];
     browser_ws := Some "ws1";
     tab_request_counts := ∅;
     response_channels := ["R1"; "R2"; "R3"];
     queues := {["R1" := []; "R2" := []; "R3" := []]};
     request_metadata :=
       [ ("R1", {["created_at" := PStr "old"]});
         ("R2", {["created_at" := PStr "yesterday"]});
         ("R3", {["created_at" := PStr "new"]});
         ("R4", {["created_at" := PStr "new"]});
         ("R5", {["created_at" := PStr "new"]});
         ("R6", {["created_at" := PStr "new"]});
         ("R7", {["created_at" := PStr "new"]});
         ("R8", {["created_at" := PStr "new"]});
         ("R9", {["created_at" := PStr "new"]});
         ("R10", {["created_at" := PStr "new"]});
         ("R11", {["created_at" := PStr "new"]}) ];
     held := []; trace := [] |}.

End MoreScenarios.

(** ** More of the configuration loader ([core/config_loader.py]) *)

Module Jsonc.
Import ThinkingSeparator.

(** [_parse_jsonc] up to the call of [json.loads]. A text is a list of
    characters with code points below 256. *)

(** [sub in s] *)
Definition contains (sub s : text) : bool :=
  match find sub s with Some _ => true | None => false end.

(** [s.partition(sep)[0]] *)
Definition before_first (sep s : text) : text :=
  match find sep s with Some i => take i s | None => s end.

(** [s.partition(sep)[2]], which is also [s.split(sep, 1)[1]] when [sep]
    occurs in [s]. *)
Definition after_first (sep s : text) : text :=
  match find sep s with Some i => drop (i + length sep) s | None => [] end.

(** [c.isspace()] for a code point below 256. *)
Definition py_isspace (c : ascii) : bool :=
  let n := nat_of_ascii c in
  ((9 <=? n)%nat && (n <=? 13)%nat) || ((28 <=? n)%nat && (n <=? 32)%nat)
  || (n =? 133)%nat || (n =? 160)%nat.

(** [bool(s.strip())] *)
Definition nonblank (s : text) : bool := negb (forallb py_isspace s).

Definition quote : ascii := ascii_of_nat 34.
Definition backslash : ascii := ascii_of_nat 92.
Definition slash : ascii := "/"%char.
Definition star : ascii := "*"%char.

(** The [while i < len(line)] loop: the line up to the first [//] that is
    outside a string literal. *)
Fixpoint scan (in_string escape_next : bool) (line : text) : text :=
  match line with
  | [] => []
  | char :: rest =>
      if escape_next then char :: scan in_string false rest
      else if Ascii.eqb char backslash then char :: scan in_string true rest
      else if Ascii.eqb char quote then char :: scan (negb in_string) false rest
      else if Ascii.eqb char slash
                && match rest with next :: _ => Ascii.eqb next slash | [] => false end
                && negb in_string
      then []
      else char :: scan in_string false rest
  end.

(** The body of [for line in lines], from the state [in_block_comment] to
    the lines kept so far. *)
Fixpoint strip_lines (in_block_comment : bool) (lines : list text) : list text :=
  match lines with
  | [] => []
  | line :: rest =>
      if in_block_comment && negb (contains [star; slash] line)
      then strip_lines true rest
      else
        let line :=
          if in_block_comment then after_first [star; slash] line else line in
        let '(line, in_block_comment) :=
          if contains [slash; star] line then
            let before_comment := before_first [slash; star] line in
            let after_comment := after_first [slash; star] line in
            if contains [star; slash] after_comment
            then (before_comment ++ after_first [star; slash] after_comment, false)
            else (before_comment, true)
          else (line, false) in
        let processed_line := scan false false line in
        if nonblank processed_line
        then processed_line :: strip_lines in_block_comment rest
        else strip_lines in_block_comment rest
  end.

(** The lines handed to [json.loads], joined by newlines there. *)
Definition no_comments_lines (lines : list text) : list text := strip_lines false lines.

End Jsonc.

Module ModelMap.

(** [value.split(':', 1)] when [':' in value]. *)
Fixpoint split_colon (s : string) : option (string * string) :=
  match s with
  | EmptyString => None
  | String c s' =>
      if Ascii.eqb c ":" then Some (EmptyString, s')
      else match split_colon s' with
           | Some (a, b) => Some (String c a, b)
           | None => None
           end
  end.

(** One entry of [models.json] as [load_model_map] stores it. *)
Definition process_entry (value : pyval) : pyval :=
  match value with
  | PStr s =>
      match split_colon s with
      | Some (id, type) =>
          PDict [ ("id", if String.eqb (MessageConverter.lower id) "null"
                         then PNone else PStr id);
                  ("type", PStr type) ]
      | None => PDict [("id", value); ("type", PStr "text")]
      end
  | _ => PDict [("id", value); ("type", PStr "text")]
  end.

(** [load_model_map]: whatever the file holds replaces the stored map;
    there is no modification-time check in this function. *)
Definition load_model_map (file : ConfigLoader.file_content)
    (MODEL_NAME_TO_ID_MAP : gmap string pyval) : gmap string pyval :=
  match file with
  | ConfigLoader.Object raw_map => process_entry <$> raw_map
  | ConfigLoader.Blank | ConfigLoader.Missing | ConfigLoader.Malformed => ∅
  end.

End ModelMap.

(** ** The file watcher ([background_tasks/monitors.py], [config_monitor]) *)

Module Monitors.
Import ConfigLoader.

Record stores := {
  loaded : store;
  MODEL_NAME_TO_ID_MAP : gmap string pyval
}.

Record files := {
  config_jsonc : file_view;
  model_endpoint_map_json : file_view;
  models_json : file_view
}.

(** One round of [config_monitor] after its sleep, with the three loader
    functions it is given being those of [core/config_loader.py]. A file that
    is missing is passed over. *)
Definition config_monitor_round (fs : files) (st : stores) : stores :=
  let st :=
    match getmtime (config_jsonc fs) with
    | Some config_mtime =>
        if negb (config_mtime =? mtime_of "config.jsonc" (loaded st))%Z
        then {| loaded := load_config false (config_jsonc fs) (loaded st);
                MODEL_NAME_TO_ID_MAP := MODEL_NAME_TO_ID_MAP st |}
        else st
    | None => st
    end in
  let st :=
    match getmtime (model_endpoint_map_json fs) with
    | Some map_mtime =>
        if negb (map_mtime =? mtime_of "model_endpoint_map.json" (loaded st))%Z
        then {| loaded :=
                  load_model_endpoint_map false (model_endpoint_map_json fs) (loaded st);
                MODEL_NAME_TO_ID_MAP := MODEL_NAME_TO_ID_MAP st |}
        else st
    | None => st
    end in
  match getmtime (models_json fs) with
  | Some models_mtime =>
      if negb (models_mtime =? mtime_of "models.json" (loaded st))%Z
      then {| loaded :=
                {| CONFIG := CONFIG (loaded st);
                   MODEL_ENDPOINT_MAP := MODEL_ENDPOINT_MAP (loaded st);
                   CONFIG_FILE_MTIMES :=
                     <["models.json" := models_mtime]> (CONFIG_FILE_MTIMES (loaded st)) |};
              MODEL_NAME_TO_ID_MAP :=
                ModelMap.load_model_map (content (models_json fs)) (MODEL_NAME_TO_ID_MAP st) |}
      else st
  | None => st
  end.

End Monitors.

(** ** The non-streaming splitter ([services/direct_api_service.py]) *)

Module DirectApiService.
Import ThinkingSeparator.

(** [s.lstrip()], [s.rstrip()] and [s.strip()] on code points below 256. *)
Fixpoint lstrip (s : text) : text :=
  match s with
  | c :: s' => if Jsonc.py_isspace c then lstrip s' else s
  | [] => []
  end.

Definition rstrip (s : text) : text := rev (lstrip (rev s)).

Definition strip (s : text) : text := rstrip (lstrip s).

(** [DirectAPIService.split_thinking_content]: (reasoning, main content). *)
Definition split_thinking_content (content separator : text) : text * text :=
  match separator with
  | [] => ([], content)
  | _ =>
      match find separator content with
      | None => ([], content)
      | Some separator_index =>
          (strip (take separator_index content),
           strip (drop (separator_index + length separator) content))
      end
  end.

End DirectApiService.

(** ** A tab connects and talks ([routes/websocket_routes.py],
    [websocket_endpoint]) *)

Module WebsocketEndpoint.
Import Runtime.

(** The registration of a tab under the registry lock. A connection with an
    id that is already registered replaces the old one; [browser_ws] is set
    when there is none or the tab is the ["default"] one. The connection
    times are not part of this model, and the two verification flags the
    block resets are parameters of the endpoint, local to the call. *)
Definition register_tab (tab_id websocket : string) : M unit :=
  async_with browser_connections_lock
    (modify (with_connections (PyDict.set tab_id websocket)) ;;
     modify (with_browser_ws (fun ws =>
       match ws with
       | Some old => if String.eqb tab_id "default" then Some websocket else Some old
       | None => Some websocket
       end))).

(** The [while True] loop over the frames the tab sends, each a JSON object
    already parsed by [json.loads], up to the frame after which the socket
    closes. *)
Definition receive_loop (tab_id : string) (messages : list (PyDict.t pyval)) : M unit :=
  for_each messages (WebsocketRoutes.route_message tab_id).

(** A frame whose [request_id] is a string, [null] or missing. (The loop
    looks the id up in a dictionary and may slice it for a log line, which
    fails on other values.) *)
Definition textual_id (message : PyDict.t pyval) : Prop :=
  match PyDict.get "request_id" message with
  | None | Some PNone | Some (PStr _) => True
  | Some _ => False
  end.

End WebsocketEndpoint.

(** ** A worked example for the image service *)

Module ImageScenarios.
Import ImageService.

(** A toolbox whose decoder refuses every input. *)
Definition no_decoder : toolbox :=
  {| sha256_hexdigest := fun s => s;
     decode_base64_image := fun _ => inr "not an image";
     optimize_image := fun bytes _ fmt => inl (bytes, fmt);
     get_mime_type_from_format := fun _ => "image/png";
     image_to_base64 := fun bytes _ => bytes;
     upload_to_file_bed := fun name _ _ => inl name;
     random_sample := fun l => l |}.

End ImageScenarios.

(** ** The memory monitor's sweep of request metadata
    ([background_tasks/monitors.py], [memory_monitor]) *)

Module MemoryMonitor.
Import Runtime.

(** The test made on one entry of [request_metadata]. [age_minutes] stands
    for [(current_time - datetime.fromisoformat(s)).total_seconds() / 60],
    with [None] where that raises [ValueError] or [TypeError]; both are
    caught and make the entry stale, and so does a value that is no string
    or a threshold that cannot be compared with a number. An entry with no
    (or an empty) [created_at] is passed over. *)
Definition is_stale (age_minutes : string -> option Q) (timeout_threshold : pyval)
    (metadata : gmap string pyval) : bool :=
  let created_at_str := get_or "created_at" PNone metadata in
  if truthy created_at_str then
    match created_at_str with
    | PStr s =>
        match age_minutes s with
        | Some age =>
            match py_num timeout_threshold with
            | Some threshold => negb (Qle_bool age threshold)
            | None => true
            end
        | None => true
        end
    | _ => true
    end
  else false.

(** The body of the second loop: the metadata of [req_id] goes, and its
    channel with it if there still is one. *)
Definition sweep_one (req_id : string) : M unit :=
  modify (with_metadata (PyDict.del req_id)) ;;
  w ← read;
  if bool_decide (req_id ∈ response_channels w)
  then modify (with_channels (List.filter (fun r => negb (String.eqb r req_id))))
  else mret tt.

(** The sweep of one round: nothing below eleven entries; above, the stale
    ids are collected first and then deleted, each with its channel. *)
Definition metadata_cleanup (age_minutes : string -> option Q) : M unit :=
  w ← read;
  if (10 <? length (request_metadata w))%nat then
    let timeout_threshold := get_or "metadata_timeout_minutes" (PInt 30) (CONFIG w) in
    let stale_request_ids :=
      map fst (List.filter (fun '(_, metadata) =>
                              is_stale age_minutes timeout_threshold metadata)
                 (request_metadata w)) in
    for_each stale_request_ids sweep_one
  else mret tt.

End MemoryMonitor.


(** ** What [handle_lmarena_request] reads on its way to the tab *)

Module Admission.
Import Runtime.
Import ApiRoutes.



(** [model_image_config]: the ["image_compression"] of the model's entry, or
    of the first binding when the entry is a list. *)
Definition model_image_config (w : world) (name : string) : pyval :=
  match MODEL_ENDPOINT_MAP w !! name with
  | Some (PDict d) => default PNone (PyDict.get "image_compression" d)
  | Some (PList (PDict d :: _)) => default PNone (PyDict.get "image_compression" d)
  | _ => PNone
  end.



End Admission.

(** ** The two registries of a pending request
    ([core/global_state.py], [response_channels] and [request_metadata]) *)

Module Broker.
Import Runtime.
Import MessageConverter.
Import LoadBalancer.
Import ApiRoutes.
Import WebsocketRoutes.



(** Neither registry has changed. *)
Definition registries_untouched (w w' : world) : Prop :=
  response_channels w' = response_channels w /\
  request_metadata w' = request_metadata w.


(** What the specification asks of a frame from [tab_id] for [request_id]:
    the flag is set, or the tab is the one recorded for the request. *)
Definition permitted (tab_id request_id : string) (w : world) : Prop :=
  exists metadata,
    PyDict.get request_id (request_metadata w) = Some metadata /\
    (truthy (get_or "transfer_allowed" (PBool true) metadata) = true \/
     get_or "tab_id" PNone metadata = PStr tab_id).


(** The [finally] block of [_process_lmarena_stream], first half: the tab
    recorded for the request gets its slot back. (The recorded [tab_id] is a
    text: only [handle_lmarena_request] and the balancer write it.) *)
Definition stream_release (request_id : string) : M unit :=
  w ← read;
  match PyDict.get request_id (request_metadata w) ≫= (fun m => m !! "tab_id") with
  | Some (PStr tab_id) =>
      if String.eqb tab_id "" then mret tt else release_tab_request tab_id
  | _ => mret tt
  end.






End Broker.

(** * Part II: theorems *)

(** ** The thinking separator *)

Section ThinkingSeparatorFacts.
Import ThinkingSeparator.

Implicit Types sep s t : text.

Lemma startswith_app_l sep s t :
  startswith sep s = true -> startswith sep (s ++ t) = true.
Proof.
  revert s; induction sep as [|a sep IH]; intros [|b s]; simpl; try done.
  intros [-> H]%andb_true_iff. by rewrite IH.
Qed.

Lemma startswith_app_fits sep s t :
  length sep <= length s -> startswith sep (s ++ t) = startswith sep s.
Proof.
  revert s; induction sep as [|a sep IH]; intros [|b s]; simpl; try done; try lia.
  intros Hlen. rewrite IH; [done | lia].
Qed.

Lemma startswith_length sep s :
  startswith sep s = true -> length sep <= length s.
Proof.
  revert s; induction sep as [|a sep IH]; intros [|b s]; simpl; try done; try lia.
  intros [_ H]%andb_true_iff. apply IH in H. lia.
Qed.

Lemma startswith_decompose sep s :
  startswith sep s = true -> s = sep ++ drop (length sep) s.
Proof.
  revert s; induction sep as [|a sep IH]; intros [|b s]; simpl; try done.
  intros [Hab H]%andb_true_iff. apply Ascii.eqb_eq in Hab as ->.
  f_equal. by apply IH.
Qed.

(** [find] returns the first position at which [sep] starts. *)
Lemma find_Some sep s i :
  find sep s = Some i ->
  startswith sep (drop i s) = true /\
  (forall j, j < i -> startswith sep (drop j s) = false).
Proof.
  revert i; induction s as [|a s IH]; intros i; simpl.
  - destruct (startswith sep []) eqn:E; [|done].
    intros [= <-]. split; [done | lia].
  - destruct (startswith sep (a :: s)) eqn:E.
    + intros [= <-]. split; [done | lia].
    + destruct (find sep s) as [i'|] eqn:F; [|done].
      intros [= <-]. destruct (IH i' eq_refl) as [H1 H2].
      split; [done|]. intros [|j] Hj; [done|]. apply H2. lia.
Qed.

Lemma find_None sep s j :
  find sep s = None -> startswith sep (drop j s) = false.
Proof.
  revert j; induction s as [|a s IH]; intros j; simpl.
  - destruct (startswith sep []) eqn:E; [done|]. by destruct j.
  - destruct (startswith sep (a :: s)) eqn:E; [done|].
    destruct (find sep s) eqn:F; [done|]. intros _.
    destruct j as [|j]; [done|]. by apply IH.
Qed.

Lemma find_bound sep s i :
  find sep s = Some i -> i + length sep <= length s.
Proof.
  revert i; induction s as [|a s IH]; intros i; simpl.
  - destruct (startswith sep []) eqn:E; [|done].
    intros [= <-]. apply startswith_length in E. simpl in *. lia.
  - destruct (startswith sep (a :: s)) eqn:E.
    + intros [= <-]. apply startswith_length in E. simpl in *. lia.
    + destruct (find sep s) as [i'|] eqn:F; [|done].
      intros [= <-]. specialize (IH i' eq_refl). simpl. lia.
Qed.

(** An occurrence found in a prefix is still the first one in the whole. *)
Lemma find_app_Some sep s t i :
  find sep s = Some i -> find sep (s ++ t) = Some i.
Proof.
  revert i; induction s as [|a s IH]; intros i; simpl.
  - destruct (startswith sep []) eqn:E; [|done].
    intros [= <-]. destruct sep; [|done]. by destruct t.
  - destruct (startswith sep (a :: s)) eqn:E.
    + intros [= <-].
      pose proof (startswith_app_l sep (a :: s) t E) as E'.
      simpl in E'. by rewrite E'.
    + destruct (find sep s) as [i'|] eqn:F; [|done].
      intros [= <-]. pose proof (find_bound _ _ _ F) as Hb.
      pose proof (startswith_app_fits sep (a :: s) t) as E'.
      simpl in E'. rewrite E', E by lia. by rewrite (IH i' eq_refl).
Qed.

(** A separator that appears only once more text has arrived ends beyond
    the text seen before. *)
Lemma find_app_fresh sep s t i :
  find sep s = None -> find sep (s ++ t) = Some i ->
  length s < i + length sep.
Proof.
  intros Hnone [Hi _]%find_Some.
  destruct (decide (length s < i + length sep)) as [|Hge]; [done|].
  exfalso. rewrite drop_app_le in Hi by lia.
  rewrite startswith_app_fits in Hi by (rewrite length_drop; lia).
  by rewrite (find_None sep s i Hnone) in Hi.
Qed.

Lemma find_split sep s i :
  find sep s = Some i -> take i s ++ sep ++ drop (i + length sep) s = s.
Proof.
  intros [Hi _]%find_Some. apply startswith_decompose in Hi.
  rewrite drop_drop in Hi. rewrite <- Hi. apply take_drop.
Qed.

Lemma occurrences_find sep s :
  0 < occurrences sep s -> exists i, find sep s = Some i.
Proof.
  intros Hocc. destruct (find sep s) as [i|] eqn:F; [by exists i|].
  exfalso. unfold occurrences in Hocc.
  induction (seq 0 (S (length s))) as [|j l IH]; simpl in Hocc; [lia|].
  rewrite (find_None sep s j F) in Hocc. auto.
Qed.

(** Once the split is done every line is passed on untouched. *)
Lemma process_lines_done sep st lines :
  split_done st = true -> process_lines sep st lines = (lines, st).
Proof.
  intros Hd. induction lines as [|l lines IH]; simpl; [done|].
  unfold process_line. rewrite Hd, IH. done.
Qed.

Lemma content_of_app l1 l2 : content_of (l1 ++ l2) = content_of l1 ++ content_of l2.
Proof. unfold content_of. by rewrite map_app, concat_app. Qed.

Lemma reasoning_of_app l1 l2 :
  reasoning_of (l1 ++ l2) = reasoning_of l1 ++ reasoning_of l2.
Proof. unfold reasoning_of. by rewrite map_app, concat_app. Qed.

Lemma content_only_reasoning lines : content_only lines -> reasoning_of lines = [].
Proof.
  unfold reasoning_of. induction 1 as [|l lines Hl _ IH]; simpl; [done|].
  by rewrite Hl, IH.
Qed.

Lemma nonempty_text s : from_option id [] (nonempty s) = s.
Proof. by destruct s. Qed.

(** A line without content leaves the splitter's state alone. *)
Lemma process_line_skip sep st line :
  line_content line = [] -> process_line sep st line = ([line], st).
Proof.
  unfold process_line. destruct (split_done st); [done|].
  by destruct line as [[[|c cs]|] r|].
Qed.

Lemma process_lines_cons sep st line lines :
  (process_lines sep st (line :: lines)).1 =
    (process_line sep st line).1 ++
    (process_lines sep (process_line sep st line).2 lines).1.
Proof.
  simpl. destruct (process_line sep st line) as [out st1]. simpl.
  by destruct (process_lines sep st1 lines).
Qed.

(** The line that completes the separator: the reasoning not yet sent and the
    text after the separator leave together. *)
Lemma process_line_found sep st c cs r i :
  split_done st = false ->
  find sep (accumulated_for_split st ++ c :: cs) = Some i ->
  split_done (process_line sep st (Delta (Some (c :: cs)) r)).2 = true /\
  reasoning_of (process_line sep st (Delta (Some (c :: cs)) r)).1 =
    drop (output_position st) (take i (accumulated_for_split st ++ c :: cs)) /\
  content_of (process_line sep st (Delta (Some (c :: cs)) r)).1 =
    drop (i + length sep) (accumulated_for_split st ++ c :: cs).
Proof.
  intros Hd Hf. unfold process_line. rewrite Hd, Hf.
  destruct (drop (output_position st) _) as [|x xs] eqn:Er;
    destruct (drop (i + length sep) _) as [|y ys] eqn:Ec;
    unfold reasoning_of, content_of; simpl; rewrite ?app_nil_r; done.
Qed.

(** A line that does not complete the separator: everything but the last
    [length sep] characters seen so far is released as reasoning. *)
Lemma process_line_hold sep st c cs r :
  split_done st = false ->
  find sep (accumulated_for_split st ++ c :: cs) = None ->
  output_position st <= length (accumulated_for_split st) - length sep ->
  let st' := (process_line sep st (Delta (Some (c :: cs)) r)).2 in
  let out := (process_line sep st (Delta (Some (c :: cs)) r)).1 in
  split_done st' = false /\
  accumulated_for_split st' = accumulated_for_split st ++ c :: cs /\
  output_position st <= output_position st' /\
  output_position st' <= length (accumulated_for_split st') - length sep /\
  reasoning_of out =
    slice (output_position st) (output_position st') (accumulated_for_split st') /\
  content_of out = [].
Proof.
  intros Hd Hf Hpos. unfold process_line. rewrite Hd, Hf.
  set (acc := accumulated_for_split st ++ c :: cs).
  assert (length (accumulated_for_split st) <= length acc) as Hlen
    by (unfold acc; rewrite length_app; lia).
  destruct (slice _ _ acc) as [|x xs] eqn:Es; simpl.
  - repeat split; try done; try lia.
    unfold reasoning_of, slice; simpl.
    rewrite skipn_firstn_comm, Nat.sub_diag. done.
  - repeat split; try done; try lia.
    unfold reasoning_of; simpl. by rewrite app_nil_r.
Qed.

(** The splitter's invariant: while the separator has not been seen, the
    reasoning sent so far is the first [output_position] characters of the
    accumulated text, and that position stays [length sep] short of its end. *)
Lemma process_lines_split sep lines :
  content_only lines ->
  forall st i,
    split_done st = false ->
    find sep (accumulated_for_split st) = None ->
    output_position st <= length (accumulated_for_split st) - length sep ->
    find sep (accumulated_for_split st ++ content_of lines) = Some i ->
    reasoning_of (process_lines sep st lines).1 =
      drop (output_position st) (take i (accumulated_for_split st ++ content_of lines)) /\
    content_of (process_lines sep st lines).1 =
      drop (i + length sep) (accumulated_for_split st ++ content_of lines).
Proof.
  induction 1 as [|line lines Hr Hrest IH]; intros st i Hd Hnone Hpos Hfind.
  - unfold content_of in Hfind; simpl in Hfind. rewrite app_nil_r in Hfind. congruence.
  - change (content_of (line :: lines)) with (line_content line ++ content_of lines) in *.
    rewrite process_lines_cons, reasoning_of_app, content_of_app.
    destruct (line_content line) as [|c cs] eqn:Ec.
    + rewrite (process_line_skip sep st line Ec). simpl.
      destruct (IH st i Hd Hnone Hpos Hfind) as [-> ->].
      unfold reasoning_of, content_of; simpl. rewrite Hr, Ec. done.
    + destruct line as [[content|] r|]; simpl in Ec; try done. subst content.
      rewrite app_assoc in Hfind |- *.
      destruct (find sep (accumulated_for_split st ++ c :: cs)) as [i0|] eqn:Ef.
      * pose proof (find_app_Some sep _ (content_of lines) i0 Ef) as Hf'.
        assert (i0 = i) as -> by congruence.
        pose proof (find_bound _ _ _ Ef) as Hb.
        destruct (process_line_found sep st c cs r i Hd Ef) as (Hd1 & Hr1 & Hc1).
        rewrite (process_lines_done sep _ lines Hd1). simpl.
        rewrite Hr1, Hc1, (content_only_reasoning lines Hrest), app_nil_r.
        rewrite (take_app_le (accumulated_for_split st ++ c :: cs)) by lia.
        rewrite (drop_app_le (accumulated_for_split st ++ c :: cs)) by lia. done.
      * pose proof (find_app_fresh sep _ (content_of lines) i Ef Hfind) as Hfresh.
        destruct (process_line_hold sep st c cs r Hd Ef Hpos)
          as (Hd1 & Hacc1 & Hle & Hpos1 & Hr1 & Hc1).
        set (st1 := (process_line sep st (Delta (Some (c :: cs)) r)).2) in *.
        rewrite <- Hacc1 in Hfind, Hfresh, Ef |- *.
        destruct (IH st1 i Hd1 Ef Hpos1 Hfind) as [IHr IHc].
        rewrite Hr1, Hc1, IHr, IHc. simpl.
        split; [|done]. unfold slice.
        set (total := accumulated_for_split st1 ++ content_of lines).
        assert (output_position st1 <= i) as Hi by lia.
        assert (take (output_position st1) (accumulated_for_split st1) =
                take (output_position st1) (take i total)) as ->.
        { rewrite take_take, Nat.min_l by lia. unfold total.
          rewrite take_app_le by lia. done. }
        by apply drop_take_drop.
Qed.

Lemma process_lines_app sep st l1 l2 :
  process_lines sep st (l1 ++ l2) =
    ((process_lines sep st l1).1 ++
       (process_lines sep (process_lines sep st l1).2 l2).1,
     (process_lines sep (process_lines sep st l1).2 l2).2).
Proof.
  revert st; induction l1 as [|l l1 IH]; intros st; simpl.
  - by destruct (process_lines sep st l2).
  - destruct (process_line sep st l) as [out st1]. rewrite IH.
    destruct (process_lines sep st1 l1) as [out1 st2]. simpl.
    destruct (process_lines sep st2 l2) as [out2 st3]. simpl.
    by rewrite app_assoc.
Qed.

(** On whole lines the loop of a chunk is the loop over its lines. *)
Lemma process_chunk_lines_whole sep st (ls : list chunk_line) :
  Forall (fun l => is_whole l = true) ls ->
  process_chunk_lines sep st ls =
    (Some (map Whole (process_lines sep st (omap received_line ls)).1),
     (process_lines sep st (omap received_line ls)).2).
Proof.
  intros Hall. revert st. induction Hall as [|l ls Hl Hall IH]; intros st; [done|].
  destruct l as [line| |]; try discriminate Hl. cbn [process_chunk_lines].
  change (omap received_line (Whole line :: ls)) with (line :: omap received_line ls).
  cbn [process_lines].
  destruct (split_done st) eqn:Hd.
  - assert (process_line sep st line = ([line], st)) as ->
      by (unfold process_line; by rewrite Hd).
    rewrite IH.
    destruct (process_lines sep st (omap received_line ls)) as [out st']. done.
  - destruct (process_line sep st line) as [out1 st1]. rewrite IH.
    destruct (process_lines sep st1 (omap received_line ls)) as [out st']. simpl.
    by rewrite map_app.
Qed.

Lemma received_whole (ls : list sse_line) : omap received_line (map Whole ls) = ls.
Proof. induction ls as [|l ls IH]; [done|]. cbn. by f_equal. Qed.

Lemma received_cons (c : chunk) (chunks : list chunk) :
  received (c :: chunks) = omap received_line (lines c) ++ received chunks.
Proof. unfold received. simpl. by rewrite omap_app. Qed.

(** When every chunk decodes and holds whole lines, chunk boundaries do not
    matter: what the client receives is the line loop run over all the lines
    in order. *)
Lemma combined_stream_lines sep st (chunks : list chunk) :
  sep <> [] ->
  Forall orderly chunks ->
  received (combined_stream (Some sep) st chunks) =
    (process_lines sep st (received chunks)).1.
Proof.
  intros Hsep Hall. revert st.
  induction Hall as [|c chunks [Hdec Hwhole] Hall IH]; intros st; [done|].
  cbn [combined_stream]. unfold process_sse_chunk.
  destruct sep as [|a sep]; [done|].
  rewrite (received_cons c), process_lines_app. cbn [fst].
  destruct (split_done st) eqn:Hd.
  - rewrite received_cons, IH.
    by rewrite (process_lines_done _ st (omap received_line (lines c)) Hd).
  - rewrite Hdec. cbn [negb]. rewrite (process_chunk_lines_whole _ _ _ Hwhole).
    rewrite received_cons, IH. cbn [lines]. by rewrite received_whole.
Qed.

(** X29. With a configured thinking separator, if every chunk decodes and
    holds whole lines, the upstream sends content only and the concatenated
    content contains the separator exactly once, then the reasoning deltas
    sent to the client concatenate to the text before the separator, the
    content deltas to the text after it, and together with the separator they
    partition the upstream text: no character is sent on both channels. *)
Lemma thinking_separator_partition (sep : text) (chunks : list chunk) :
  sep <> [] ->
  Forall orderly chunks ->
  content_only (received chunks) ->
  occurrences sep (content_of (received chunks)) = 1 ->
  exists i,
    find sep (content_of (received chunks)) = Some i /\
    reasoning_of (received (combined_stream (Some sep) initial chunks)) =
      take i (content_of (received chunks)) /\
    content_of (received (combined_stream (Some sep) initial chunks)) =
      drop (i + length sep) (content_of (received chunks)) /\
    reasoning_of (received (combined_stream (Some sep) initial chunks)) ++ sep ++
      content_of (received (combined_stream (Some sep) initial chunks)) =
      content_of (received chunks).
Proof.
  intros Hsep Hall Honly Hocc.
  destruct (occurrences_find sep (content_of (received chunks))) as [i Hi]; [lia|].
  exists i. rewrite (combined_stream_lines sep initial chunks Hsep Hall).
  assert (find sep (accumulated_for_split initial) = None) as Hnone
    by (destruct sep; done).
  destruct (process_lines_split sep (received chunks) Honly initial i eq_refl Hnone)
    as [Hr Hc]; [simpl; lia | done |].
  simpl in Hr, Hc. rewrite Hr, Hc.
  repeat split; try done. by apply find_split.
Qed.

End ThinkingSeparatorFacts.

(** C8 at its failing input. Scenario S5's two events, with the separator
    ["\n---\n"] once in their content, are read off the upstream socket in
    two slices, the first ending inside the second event's [data:] line.
    Neither piece of that line parses, so both are passed on as they came
    and the line's content is never accumulated: the client is sent
    ["reasoni"] as reasoning, then the whole second event, separator
    included, as content, and never the characters ["ng A\n"]. The claim has
    ["reasoning A\nreasoning B"] as reasoning and ["final answer"] as
    content. *)
Theorem cut_line_escapes_the_split :
  ThinkingSeparator.content_of (ThinkingSeparator.received ThinkingSeparator.s5_cut_chunks) =
    list_ascii_of_string
      ("reasoning A" +:+ ThinkingSeparator.newline +:+ "reasoning B"
         +:+ ThinkingSeparator.newline +:+ "---" +:+ ThinkingSeparator.newline
         +:+ "final answer") /\
  ThinkingSeparator.occurrences ThinkingSeparator.s5_separator
    (ThinkingSeparator.content_of
       (ThinkingSeparator.received ThinkingSeparator.s5_cut_chunks)) = 1 /\
  ThinkingSeparator.find ThinkingSeparator.s5_separator
    (ThinkingSeparator.content_of
       (ThinkingSeparator.received ThinkingSeparator.s5_cut_chunks)) = Some 23 /\
  ThinkingSeparator.reasoning_of
    (ThinkingSeparator.received
       (ThinkingSeparator.combined_stream (Some ThinkingSeparator.s5_separator)
          ThinkingSeparator.initial ThinkingSeparator.s5_cut_chunks)) =
    list_ascii_of_string "reasoni" /\
  ThinkingSeparator.content_of
    (ThinkingSeparator.received
       (ThinkingSeparator.combined_stream (Some ThinkingSeparator.s5_separator)
          ThinkingSeparator.initial ThinkingSeparator.s5_cut_chunks)) =
    list_ascii_of_string
      ("reasoning B" +:+ ThinkingSeparator.newline +:+ "---"
         +:+ ThinkingSeparator.newline +:+ "final answer").
Proof. vm_compute. repeat split; reflexivity. Qed.

(** The scenario of the specification with each event in a chunk of its own:
    the separator arrives in the second chunk and the split is as specified. *)
Lemma thinking_separator_partition_witness :
  exists i,
    ThinkingSeparator.find ThinkingSeparator.s5_separator
      (ThinkingSeparator.content_of
         (ThinkingSeparator.received ThinkingSeparator.s5_chunks)) = Some i /\
    ThinkingSeparator.reasoning_of
      (ThinkingSeparator.received
         (ThinkingSeparator.combined_stream (Some ThinkingSeparator.s5_separator)
            ThinkingSeparator.initial ThinkingSeparator.s5_chunks)) =
      take i (ThinkingSeparator.content_of
                (ThinkingSeparator.received ThinkingSeparator.s5_chunks)) /\
    ThinkingSeparator.content_of
      (ThinkingSeparator.received
         (ThinkingSeparator.combined_stream (Some ThinkingSeparator.s5_separator)
            ThinkingSeparator.initial ThinkingSeparator.s5_chunks)) =
      drop (i + length ThinkingSeparator.s5_separator)
        (ThinkingSeparator.content_of
           (ThinkingSeparator.received ThinkingSeparator.s5_chunks)) /\
    ThinkingSeparator.reasoning_of
      (ThinkingSeparator.received
         (ThinkingSeparator.combined_stream (Some ThinkingSeparator.s5_separator)
            ThinkingSeparator.initial ThinkingSeparator.s5_chunks)) ++
      ThinkingSeparator.s5_separator ++
      ThinkingSeparator.content_of
        (ThinkingSeparator.received
           (ThinkingSeparator.combined_stream (Some ThinkingSeparator.s5_separator)
              ThinkingSeparator.initial ThinkingSeparator.s5_chunks)) =
      ThinkingSeparator.content_of
        (ThinkingSeparator.received ThinkingSeparator.s5_chunks).
Proof.
  apply (thinking_separator_partition ThinkingSeparator.s5_separator
           ThinkingSeparator.s5_chunks).
  - discriminate.
  - repeat constructor.
  - repeat constructor.
  - vm_compute. reflexivity.
Defined.

(** ** The configuration store *)

Section ConfigLoaderFacts.
Import ConfigLoader.

(** A reload installs the parsed object whole, or nothing of it. *)
Lemma load_config_all_or_nothing force fs st :
  CONFIG (load_config force fs st) = CONFIG st \/
  CONFIG (load_config force fs st) = ∅ \/
  exists d, content fs = Object d /\ CONFIG (load_config force fs st) = d.
Proof.
  unfold load_config. destruct (getmtime fs) as [m|]; [|auto].
  destruct (negb force && _); [auto|].
  destruct (content fs) as [| | |d]; simpl; auto.
  right; right. exists d. split; [done|]. unfold clear_update.
  by rewrite (right_id_L ∅ (∪)).
Qed.

(** C1, as the code has it. When a triggered reload cannot parse its file,
    the store that file feeds is emptied (no key it exposed survives, and
    no partly parsed data is installed), the other store is left alone, and
    the recorded modification times stay as they were, so that the next check
    tries again. *)
Theorem failed_reload_empties_store (force : bool) (fs : file_view) (st : store) (m : Z) :
  getmtime fs = Some m ->
  content fs = Malformed ->
  (force = true \/ m <> mtime_of "config.jsonc" st) ->
  (force = true \/ m <> mtime_of "model_endpoint_map.json" st) ->
  (CONFIG (load_config force fs st) = ∅ /\
   MODEL_ENDPOINT_MAP (load_config force fs st) = MODEL_ENDPOINT_MAP st /\
   CONFIG_FILE_MTIMES (load_config force fs st) = CONFIG_FILE_MTIMES st) /\
  (MODEL_ENDPOINT_MAP (load_model_endpoint_map force fs st) = ∅ /\
   CONFIG (load_model_endpoint_map force fs st) = CONFIG st /\
   CONFIG_FILE_MTIMES (load_model_endpoint_map force fs st) = CONFIG_FILE_MTIMES st).
Proof.
  intros Hm Hc Hcfg Hmap. unfold load_config, load_model_endpoint_map.
  rewrite Hm, Hc.
  assert (negb force && (m =? mtime_of "config.jsonc" st)%Z = false) as ->.
  { destruct Hcfg as [->|Hne]; [done|]. apply andb_false_iff. right.
    by apply Z.eqb_neq. }
  assert (negb force && (m =? mtime_of "model_endpoint_map.json" st)%Z = false) as ->.
  { destruct Hmap as [->|Hne]; [done|]. apply andb_false_iff. right.
    by apply Z.eqb_neq. }
  done.
Qed.

End ConfigLoaderFacts.

(** A forced reload of a file saved half-way through an edit. *)
Lemma failed_reload_empties_store_witness :
  (ConfigLoader.CONFIG
     (ConfigLoader.load_config true ConfigLoader.broken_edit ConfigLoader.running) = ∅ /\
   ConfigLoader.MODEL_ENDPOINT_MAP
     (ConfigLoader.load_config true ConfigLoader.broken_edit ConfigLoader.running) =
     ConfigLoader.MODEL_ENDPOINT_MAP ConfigLoader.running /\
   ConfigLoader.CONFIG_FILE_MTIMES
     (ConfigLoader.load_config true ConfigLoader.broken_edit ConfigLoader.running) =
     ConfigLoader.CONFIG_FILE_MTIMES ConfigLoader.running) /\
  (ConfigLoader.MODEL_ENDPOINT_MAP
     (ConfigLoader.load_model_endpoint_map true ConfigLoader.broken_edit
        ConfigLoader.running) = ∅ /\
   ConfigLoader.CONFIG
     (ConfigLoader.load_model_endpoint_map true ConfigLoader.broken_edit
        ConfigLoader.running) = ConfigLoader.CONFIG ConfigLoader.running /\
   ConfigLoader.CONFIG_FILE_MTIMES
     (ConfigLoader.load_model_endpoint_map true ConfigLoader.broken_edit
        ConfigLoader.running) = ConfigLoader.CONFIG_FILE_MTIMES ConfigLoader.running).
Proof.
  apply (failed_reload_empties_store true ConfigLoader.broken_edit
           ConfigLoader.running 20%Z);
    [reflexivity | reflexivity | left; reflexivity | left; reflexivity].
Defined.

(** C1, as stated, fails: the file watcher sees a new modification time on a
    [config.jsonc] that does not parse, and the API key that was exposed
    before the reload is gone after it; likewise for the endpoint of [m1]. *)
Lemma failed_reload_loses_values :
  ConfigLoader.CONFIG ConfigLoader.running !! "api_key" = Some (PStr "secret") /\
  ConfigLoader.CONFIG
    (ConfigLoader.load_config false ConfigLoader.broken_edit ConfigLoader.running)
    !! "api_key" = None /\
  ConfigLoader.MODEL_ENDPOINT_MAP ConfigLoader.running !! "m1" =
    Some (PDict [("session_id", PStr "session-1")]) /\
  ConfigLoader.MODEL_ENDPOINT_MAP
    (ConfigLoader.load_model_endpoint_map false ConfigLoader.broken_edit
       ConfigLoader.running) !! "m1" = None.
Proof. vm_compute. repeat split; reflexivity. Qed.

(** ** The processed-image cache *)

Section ImageServiceFacts.
Import ImageService.

(** With an [image_optimization] setting that is an object, or counts as
    false, the merge goes through. *)
Lemma merged_optimization_config_typed (global_optimization_config model_image_config : pyval) :
  ((exists settings, global_optimization_config = PDict settings) \/
   truthy global_optimization_config = false) ->
  merged_optimization_config global_optimization_config model_image_config =
    inr (merge_image_config global_optimization_config model_image_config).
Proof.
  intros [[settings ->]|Hfalse]; [done|].
  unfold merged_optimization_config.
  destruct global_optimization_config as [| | | | |[|x l]|]; try done;
    by rewrite Hfalse.
Qed.

(** A hit in the cache, for settings of the expected types. *)
Lemma cache_hit_after (T : toolbox) (now : Q) (base64_data filename : string)
    (CONFIG : gmap string pyval) (FILEBED_RECOVERY_TIME : Q)
    (model_image_config : pyval) (st : image_state)
    (cache_config : PyDict.t pyval) (ttl : Q)
    (cache : PyDict.t (string * Q)) (cached_data : string) (cache_time : Q) :
  Runtime.get_or "processed_image_cache" (PDict []) CONFIG = PDict cache_config ->
  truthy (default (PBool true) (PyDict.get "enabled" cache_config)) = true ->
  py_num (default (PInt 3600) (PyDict.get "ttl_seconds" cache_config)) = Some ttl ->
  ((exists settings,
      Runtime.get_or "image_optimization" (PDict []) CONFIG = PDict settings) \/
   truthy (Runtime.get_or "image_optimization" (PDict []) CONFIG) = false) ->
  PROCESSED_IMAGE_CACHE st = Some cache ->
  PyDict.get (calculate_image_hash T base64_data) cache = Some (cached_data, cache_time) ->
  (now - cache_time < ttl)%Q ->
  process_image_data T now base64_data filename CONFIG FILEBED_RECOVERY_TIME
    model_image_config st = (Returns cached_data None, st).
Proof.
  intros Hcfg Hen Httl Hopt Hc Hget Hfresh. unfold process_image_data.
  rewrite Hcfg, Hen.
  rewrite (merged_optimization_config_typed _ model_image_config Hopt).
  rewrite Hc, Hget, Httl.
  destruct (Qlt_le_dec _ _) as [_|Hle]; [done|].
  exfalso. by apply (Qlt_not_le _ _ Hfresh).
Qed.

(** C9, as the code has it. When the cache is switched on
    ([processed_image_cache.enabled], true unless configured otherwise), a
    cache is passed in, and the settings read on the way have the types the
    code takes them to have ([processed_image_cache] an object, its
    [ttl_seconds] a number, [image_optimization] an object or a value that
    counts as false), an image whose hash is cached and younger than the time
    to live comes back as the cached value, with no error, and nothing else
    happens: no decoding, no optimisation, no upload, no change to the cache,
    the disabled endpoints or the round-robin index. *)
Theorem cache_hit_returns_cached (T : toolbox) (now : Q) (base64_data filename : string)
    (CONFIG : gmap string pyval) (FILEBED_RECOVERY_TIME : Q)
    (model_image_config : pyval) (st : image_state)
    (cache_config : PyDict.t pyval) (ttl : Q)
    (cache : PyDict.t (string * Q)) (cached_data : string) (cache_time : Q) :
  Runtime.get_or "processed_image_cache" (PDict []) CONFIG = PDict cache_config ->
  truthy (default (PBool true) (PyDict.get "enabled" cache_config)) = true ->
  py_num (default (PInt 3600) (PyDict.get "ttl_seconds" cache_config)) = Some ttl ->
  ((exists settings,
      Runtime.get_or "image_optimization" (PDict []) CONFIG = PDict settings) \/
   truthy (Runtime.get_or "image_optimization" (PDict []) CONFIG) = false) ->
  PROCESSED_IMAGE_CACHE st = Some cache ->
  PyDict.get (calculate_image_hash T base64_data) cache = Some (cached_data, cache_time) ->
  (now - cache_time < ttl)%Q ->
  process_image_data T now base64_data filename CONFIG FILEBED_RECOVERY_TIME
    model_image_config st = (Returns cached_data None, st).
Proof.
  intros Hcfg Hen Httl Hopt Hc Hget Hfresh. unfold process_image_data.
  rewrite Hcfg, Hen.
  rewrite (merged_optimization_config_typed _ model_image_config Hopt).
  rewrite Hc, Hget, Httl.
  destruct (Qlt_le_dec _ _) as [_|Hle]; [done|].
  exfalso. by apply (Qlt_not_le _ _ Hfresh).
Qed.

End ImageServiceFacts.

(** An image cached ten seconds ago, under the default configuration. *)
Lemma cache_hit_returns_cached_witness :
  ImageService.process_image_data ImageService.plain_toolbox 10
    "data:image/png;base64,AAAA" "a.png" ∅ 300 PNone ImageService.cached_image =
  (ImageService.Returns "https://files.example/a.png" None, ImageService.cached_image).
Proof.
  apply (cache_hit_returns_cached ImageService.plain_toolbox 10
           "data:image/png;base64,AAAA" "a.png" ∅ 300 PNone
           ImageService.cached_image [] 3600
           [("AAAA", ("https://files.example/a.png", 0%Q))]
           "https://files.example/a.png" 0%Q);
    [reflexivity | reflexivity | reflexivity | left; by eexists | reflexivity
    | reflexivity | reflexivity].
Defined.

(** C9, as stated, fails: the same image, cached and unexpired, once the
    configuration has [processed_image_cache.enabled = false]. The cached URL
    is not returned and the image is decoded again. *)
Lemma cache_entry_ignored_when_disabled :
  PyDict.get
    (ImageService.calculate_image_hash ImageService.plain_toolbox
       "data:image/png;base64,AAAA")
    [("AAAA", ("https://files.example/a.png", 0%Q))] =
    Some ("https://files.example/a.png", 0%Q) /\
  fst (ImageService.process_image_data ImageService.plain_toolbox 10
         "data:image/png;base64,AAAA" "a.png" ImageService.cache_off 300 PNone
         ImageService.cached_image) =
    ImageService.Returns "data:image/png;base64,AAAA" None /\
  ImageService.work
    (snd (ImageService.process_image_data ImageService.plain_toolbox 10
            "data:image/png;base64,AAAA" "a.png" ImageService.cache_off 300 PNone
            ImageService.cached_image)) = [ImageService.Decode].
Proof. vm_compute. repeat split; reflexivity. Qed.

(** The same image once more, cached and unexpired, under a configuration
    whose [ttl_seconds] is [null]: the comparison with the age of the entry
    raises [TypeError] before the [try], and the call does not return. *)
Lemma cache_hit_with_unusable_ttl_raises :
  ImageService.process_image_data ImageService.plain_toolbox 10
    "data:image/png;base64,AAAA" "a.png"
    {["processed_image_cache" := PDict [("ttl_seconds", PNone)]]} 300 PNone
    ImageService.cached_image =
  (ImageService.Raises "TypeError", ImageService.cached_image).
Proof. vm_compute. reflexivity. Qed.

(** ** The response-channel broker *)

Section BrokerFacts.
Import Runtime.
Import MessageConverter.
Import WebsocketRoutes.

Lemma py_eq_str_true v s : py_eq_str v s = true <-> v = PStr s.
Proof.
  destruct v; simpl; try (split; [discriminate | discriminate]).
  rewrite String.eqb_eq. split; [by intros -> | by intros [= ->]].
Qed.

Lemma truthy_str s : s <> "" -> truthy (PStr s) = true.
Proof. intros Hs. simpl. apply negb_true_iff. by apply String.eqb_neq. Qed.

(** The receive loop in any state, whether a run reaches it or not. A
    well-formed frame for a request with an open channel is put on that
    channel exactly when the request has no metadata, or its
    [transfer_allowed] flag is set (or absent), or the sending tab is the tab
    recorded for it; otherwise nothing changes but for the warning. *)
Lemma route_message_enqueues_iff (tab_id rid : string) (data : pyval)
    (message : PyDict.t pyval) (w : world) :
  PyDict.get "request_id" message = Some (PStr rid) -> rid <> "" ->
  PyDict.get "data" message = Some data -> data <> PNone ->
  rid ∈ response_channels w ->
  let permitted :=
    match PyDict.get rid (request_metadata w) with
    | None => True
    | Some metadata =>
        truthy (get_or "transfer_allowed" (PBool true) metadata) = true \/
        get_or "tab_id" PNone metadata = PStr tab_id
    end in
  (permitted ->
   route_message tab_id message w =
     (Return tt,
      with_trace (fun t => t ++ [Put rid data])
        (with_queues (fun q => <[rid := default [] (q !! rid) ++ [data]]> q) w))) /\
  (~ permitted ->
   route_message tab_id message w =
     (Return tt, with_trace (fun t => t ++ [Warning "cross-tab routing refused"]) w)).
Proof.
  intros Hrid Hne Hdata Hd Hopen permitted. subst permitted.
  assert (route_message tab_id message w =
          match PyDict.get rid (request_metadata w) with
          | Some metadata =>
              if truthy (get_or "transfer_allowed" (PBool true) metadata)
              then put rid data w
              else if py_eq_str (get_or "tab_id" PNone metadata) tab_id
                   then put rid data w
                   else emit (Warning "cross-tab routing refused") w
          | None => put rid data w
          end) as ->.
  { unfold route_message. rewrite Hrid, Hdata.
    change (default PNone (Some data)) with data.
    change (default PNone (Some (PStr rid))) with (PStr rid).
    rewrite (truthy_str rid Hne). cbn [negb].
    destruct data; try done;
      (unfold mbind, M_bind, read; cbv beta iota;
       rewrite bool_decide_true by done;
       destruct (PyDict.get rid (request_metadata w)) as [md|]; [|done];
       destruct (truthy _); [done|]; by destruct (py_eq_str _ _)). }
  destruct (PyDict.get rid (request_metadata w)) as [md|].
  - destruct (truthy _) eqn:Ht.
    + split; [done|]. intros Hn. exfalso. apply Hn. by left.
    + destruct (py_eq_str _ _) eqn:He.
      * split; [done|]. intros Hn. exfalso. apply Hn. right.
        by apply py_eq_str_true.
      * split; [|done]. intros [?|Heq]; [done|].
        apply py_eq_str_true in Heq. congruence.
  - split; [done|]. intros Hn. by exfalso.
Qed.

End BrokerFacts.

(** A request that forbids transfers: the frame of its own tab T1 is put on
    the channel, the frame of T2 is refused. *)
Lemma route_message_enqueues_iff_witness :
  WebsocketRoutes.route_message "T1" (Scenario.frame "R1" (PStr "a0:hi"))
    Scenario.strict_owner =
  (Runtime.Return tt,
   Runtime.with_trace (fun t => t ++ [Runtime.Put "R1" (PStr "a0:hi")])
     (Runtime.with_queues
        (fun q => <["R1" := default [] (q !! "R1") ++ [PStr "a0:hi"]]> q)
        Scenario.strict_owner)) /\
  WebsocketRoutes.route_message "T2" (Scenario.frame "R1" (PStr "a0:hi"))
    Scenario.strict_owner =
  (Runtime.Return tt,
   Runtime.with_trace (fun t => t ++ [Runtime.Warning "cross-tab routing refused"])
     Scenario.strict_owner).
Proof.
  assert ("R1" ∈ Runtime.response_channels Scenario.strict_owner) as Hopen
    by (apply list_elem_of_In; simpl; by left).
  split.
  - apply (route_message_enqueues_iff "T1" "R1" (PStr "a0:hi")
             (Scenario.frame "R1" (PStr "a0:hi")) Scenario.strict_owner);
      [reflexivity | discriminate | reflexivity | discriminate | exact Hopen |].
    right. vm_compute. reflexivity.
  - apply (route_message_enqueues_iff "T2" "R1" (PStr "a0:hi")
             (Scenario.frame "R1" (PStr "a0:hi")) Scenario.strict_owner);
      [reflexivity | discriminate | reflexivity | discriminate | exact Hopen |].
    vm_compute. intros [H|H]; discriminate.
Defined.

(** The loop's third branch, on a state with a channel whose metadata is
    gone: the frame from T2 is put on the channel. No run of the process
    reaches such a state, as the registries are written (see
    [reachable_channels_have_metadata] below). *)
Lemma frame_routed_without_metadata :
  Runtime.response_channels Scenario.orphan_channel = ["R1"] /\
  PyDict.get "R1" (Runtime.request_metadata Scenario.orphan_channel) = None /\
  Runtime.queues Scenario.orphan_channel !! "R1" = Some [] /\
  Runtime.queues
    (snd (WebsocketRoutes.route_message "T2" (Scenario.frame "R1" (PStr "a0:hi"))
            Scenario.orphan_channel)) !! "R1" = Some [PStr "a0:hi"].
Proof. vm_compute. repeat split; reflexivity. Qed.

(** ** The verification cool-down *)

Section CooldownFacts.
Import Runtime.
Import ApiRoutes.

Lemma py_int_nonneg q : (0 <= q)%Q -> (0 <= py_int q)%Z.
Proof.
  destruct q as [n d]. unfold Qle, py_int. simpl. intros H.
  apply Z.quot_pos; lia.
Qed.

(** Handed a deadline that lies ahead, the gate of [chat_completions] turns
    the request away with a 503 that carries a number of seconds, and that
    number is not negative. *)
Lemma cooldown_gate_rejects (now cooldown_until : Q) (w : world) :
  (now < cooldown_until)%Q ->
  exists remaining : Z,
    (0 <= remaining)%Z /\
    cooldown_gate now (Some cooldown_until) w =
      (Raise (HTTPException 503 (cooldown_detail remaining)), w).
Proof.
  intros Hlt. unfold cooldown_gate.
  destruct (Qlt_le_dec 0 (cooldown_until - now)) as [_|Hle].
  - eexists. split; [|reflexivity]. lia.
  - exfalso. lra.
Qed.

(** With no deadline handed in, the gate lets every request through. *)
Lemma cooldown_gate_open (now : Q) (w : world) :
  cooldown_gate now None w = (Return tt, w).
Proof. reflexivity. Qed.

(** Detecting a challenge writes the stream generator's own two variables;
    the module-level flags are not among the things it can reach. *)
Lemma challenge_leaves_module_state (now : Q) (frame : verification_state) (w : world) :
  verification (snd (StreamProcessor.handle_cloudflare_verification now frame w)) =
    verification w.
Proof.
  unfold StreamProcessor.handle_cloudflare_verification.
  destruct (IS_REFRESHING_FOR_VERIFICATION frame); simpl.
  - destruct (VERIFICATION_COOLDOWN_UNTIL frame) as [c|]; [|done].
    by destruct (negb (Qeq_bool c 0) && _).
  - unfold mbind, M_bind, read. simpl.
    by destruct (PyDict.values (browser_connections w)).
Qed.

End CooldownFacts.

(** C2 at its failing input. Request RA is forwarded at time 100 and its
    stream meets a challenge page: the generator's own flags now say
    "refreshing, cool-down until 125", the refresh command is sent, but the
    process's flags are as before; request RB at time 101 passes the gate and
    is forwarded to the tab. *)
Theorem cooldown_stays_in_stream_frame :
  fst (ApiRoutes.request_meeting_challenge MessageConverter.plain_pipeline 100 100
         "RA" "t" Scenario.hot_request Scenario.capped) =
    Runtime.Return
      (ApiRoutes.Forwarded "RA" "T1",
       Some (StreamProcessor.VerificationDetected,
             {| Runtime.IS_REFRESHING_FOR_VERIFICATION := true;
                Runtime.VERIFICATION_COOLDOWN_UNTIL := Some 125%Q |})) /\
  Runtime.verification
    (snd (ApiRoutes.request_meeting_challenge MessageConverter.plain_pipeline 100 100
            "RA" "t" Scenario.hot_request Scenario.capped)) =
    Scenario.no_verification /\
  fst (ApiRoutes.post_chat_completions MessageConverter.plain_pipeline 101 "RB" "t" None
         Scenario.hot_request
         (snd (ApiRoutes.request_meeting_challenge MessageConverter.plain_pipeline 100 100
                 "RA" "t" Scenario.hot_request Scenario.capped))) =
    Runtime.Return (ApiRoutes.Forwarded "RB" "T1").
Proof. vm_compute. repeat split; reflexivity. Qed.

(** ** Reassignment after a tab disconnects *)

Section ReassignFacts.
Import Runtime.
Import MessageConverter.

(** The call in [reassign_pending_requests] passes three positional
    arguments and two keywords to a function of four parameters: the third
    positional argument lands on [mode_override], which the keyword then
    names again. *)
Lemma convert_call_raises (P : pipeline) (openai_request session_id message_id : pyval)
    (mode_override battle_target_override : pyval) (w : world) :
  call (convert_openai_to_lmarena_payload P)
    [openai_request; session_id; message_id]
    [("mode_override", mode_override);
     ("battle_target_override", battle_target_override)] w =
  (Raise (TypeError
     "convert_openai_to_lmarena_payload() got multiple values for argument 'mode_override'"),
   w).
Proof. reflexivity. Qed.


End ReassignFacts.

(** C3 at its failing input. T1 is gone, T2 remains, R1 was in flight on T1
    and has never been transferred. The metadata is moved to T2 with
    [transfer_count = 1], then the translator call raises: nothing is sent on
    T2's socket, T2's counter stays at 1, and R1's channel receives a
    "reassignment failed" error followed by ["[DONE]"]. *)
Theorem reassignment_fails_at_translator_call :
  fst (TabManager.reassign_pending_requests MessageConverter.plain_pipeline "now" "T1"
         Scenario.t1_gone) = Runtime.Return tt /\
  Runtime.sent
    (Runtime.trace
       (snd (TabManager.reassign_pending_requests MessageConverter.plain_pipeline "now"
               "T1" Scenario.t1_gone))) = [] /\
  Runtime.tab_request_counts
    (snd (TabManager.reassign_pending_requests MessageConverter.plain_pipeline "now"
            "T1" Scenario.t1_gone)) !! "T2" = Some 1 /\
  Runtime.queues
    (snd (TabManager.reassign_pending_requests MessageConverter.plain_pipeline "now"
            "T1" Scenario.t1_gone)) !! "R1" =
    Some [ LoadBalancer.error_frame
             "Request reassignment failed: convert_openai_to_lmarena_payload() got multiple values for argument 'mode_override'";
           LoadBalancer.DONE ] /\
  Scenario.stored "R1" "transfer_count"
    (snd (TabManager.reassign_pending_requests MessageConverter.plain_pipeline "now"
            "T1" Scenario.t1_gone)) = Some (PInt 1) /\
  Scenario.stored "R1" "tab_id"
    (snd (TabManager.reassign_pending_requests MessageConverter.plain_pipeline "now"
            "T1" Scenario.t1_gone)) = Some (PStr "T2").
Proof. vm_compute. repeat split; reflexivity. Qed.

(** With a translator that takes the call, the rest of the loop body does
    what the specification says: one envelope to T2, marked as a transfer
    from T1 with count 1, and T2's counter goes up. The send happens between
    the acquisition and the release of the registry lock. *)
Lemma reassignment_after_a_successful_call :
  Runtime.sent
    (Runtime.trace
       (snd (LoadBalancer.reassign_pending_requests "T1"
               (Scenario.convert_taking_message_id MessageConverter.plain_pipeline)
               "now" Scenario.t1_gone))) =
    [("ws2",
      PDict [ ("request_id", PStr "R1");
              ("payload",
               PDict [ ("message_templates",
                        PList [PDict [("role", PStr "user"); ("content", PStr "hi")]]);
                       ("target_model_id", PNone);
                       ("session_id", PStr "session-1");
                       ("battle_target", PStr "a") ]);
              ("is_transfer", PBool true);
              ("original_tab_id", PStr "T1");
              ("transfer_count", PInt 1) ])] /\
  Runtime.tab_request_counts
    (snd (LoadBalancer.reassign_pending_requests "T1"
            (Scenario.convert_taking_message_id MessageConverter.plain_pipeline)
            "now" Scenario.t1_gone)) !! "T2" = Some 2 /\
  Runtime.sends_holding Runtime.browser_connections_lock false
    (Runtime.trace
       (snd (LoadBalancer.reassign_pending_requests "T1"
               (Scenario.convert_taking_message_id MessageConverter.plain_pipeline)
               "now" Scenario.t1_gone))) = true.
Proof. vm_compute. repeat split; reflexivity. Qed.

(** ** The disconnect handler and the registry lock *)

Section DisconnectFacts.
Import Runtime.
Import WebsocketRoutes.

(** Whenever another tab remains, the handler calls the reassignment while
    it holds the registry lock, and the reassignment begins by asking for
    that lock: the handler never gets past this point. *)
Lemma disconnect_blocks (P : MessageConverter.pipeline) (now tab_id : string) (w : world) :
  held w = [] ->
  PyDict.del tab_id (browser_connections w) <> [] ->
  fst (websocket_disconnect P now tab_id w) = Blocked browser_connections_lock /\
  response_channels (snd (websocket_disconnect P now tab_id w)) = response_channels w /\
  queues (snd (websocket_disconnect P now tab_id w)) = queues w /\
  sent (trace (snd (websocket_disconnect P now tab_id w))) = sent (trace w).
Proof.
  destruct w as [cfg mem mnm rr ver bc bws cnt chans qs md hd tr]. simpl.
  intros -> Hrest.
  unfold websocket_disconnect, disconnect_cleanup, TabManager.reassign_pending_requests,
    LoadBalancer.reassign_pending_requests, async_with, try_except.
  unfold mbind, M_bind, acquire, release, modify, read, emit, holds. simpl.
  destruct (PyDict.del tab_id bc) as [|kv rest] eqn:E; [done|]. simpl.
  repeat split. unfold sent. rewrite !omap_app. simpl. by rewrite !app_nil_r.
Qed.

End DisconnectFacts.

(** C4 at its failing input. T1 and T2 are connected and T1's socket closes:
    the handler takes the registry lock, and while holding it awaits
    reassignment, which awaits the same lock. The task is left waiting for a
    lock that it holds itself. *)
Theorem disconnect_waits_for_its_own_lock :
  fst (WebsocketRoutes.websocket_disconnect MessageConverter.plain_pipeline "now" "T1"
         Scenario.two_tabs) = Runtime.Blocked Runtime.browser_connections_lock /\
  Runtime.holds Runtime.browser_connections_lock
    (snd (WebsocketRoutes.websocket_disconnect MessageConverter.plain_pipeline "now" "T1"
            Scenario.two_tabs)) = true /\
  Runtime.trace
    (snd (WebsocketRoutes.websocket_disconnect MessageConverter.plain_pipeline "now" "T1"
            Scenario.two_tabs)) =
    [ Runtime.Acquire Runtime.tab_request_counts_lock;
      Runtime.Release Runtime.tab_request_counts_lock;
      Runtime.Acquire Runtime.browser_connections_lock ].
Proof. vm_compute. repeat split; reflexivity. Qed.

(** C10 at its failing input. Auto-retry is off, T1 and T2 are connected with
    R1 in flight on T1 and R2 on T2, and T1's socket closes. The handler is
    stuck before the clean-up: both channels stay registered and neither
    queue receives the "Browser disconnected" frame. *)
Theorem disconnect_cleanup_not_reached :
  Runtime.get_or "enable_auto_retry" (PBool false) (Runtime.CONFIG Scenario.two_tabs) =
    PBool false /\
  fst (WebsocketRoutes.websocket_disconnect MessageConverter.plain_pipeline "now" "T1"
         Scenario.two_tabs) = Runtime.Blocked Runtime.browser_connections_lock /\
  Runtime.response_channels
    (snd (WebsocketRoutes.websocket_disconnect MessageConverter.plain_pipeline "now" "T1"
            Scenario.two_tabs)) = ["R1"; "R2"] /\
  Runtime.queues
    (snd (WebsocketRoutes.websocket_disconnect MessageConverter.plain_pipeline "now" "T1"
            Scenario.two_tabs)) !! "R1" = Some [] /\
  Runtime.queues
    (snd (WebsocketRoutes.websocket_disconnect MessageConverter.plain_pipeline "now" "T1"
            Scenario.two_tabs)) !! "R2" = Some [].
Proof. vm_compute. repeat split; reflexivity. Qed.

(** When the last tab goes, the clean-up is reached: the open channel gets
    the terminal error frame and the registry of channels is emptied. *)
Lemma last_tab_disconnect_cleans_up :
  fst (WebsocketRoutes.websocket_disconnect MessageConverter.plain_pipeline "now" "T1"
         Scenario.one_tab) = Runtime.Return tt /\
  Runtime.response_channels
    (snd (WebsocketRoutes.websocket_disconnect MessageConverter.plain_pipeline "now" "T1"
            Scenario.one_tab)) = [] /\
  Runtime.queues
    (snd (WebsocketRoutes.websocket_disconnect MessageConverter.plain_pipeline "now" "T1"
            Scenario.one_tab)) !! "R1" = Some [WebsocketRoutes.browser_disconnected].
Proof. vm_compute. repeat split; reflexivity. Qed.

(** ** Round-robin selection *)


(** ** Reasoning about what a coroutine adds to the trace *)

Section TraceLogic.
Import Runtime.

Context (Q : event -> Prop).

Lemma produces_ret {A} (R : A -> Prop) (a : A) : R a -> produces Q R (mret a).
Proof.
  intros Ha w. split; [exists []; simpl; by rewrite app_nil_r|].
  by intros a' [= <-].
Qed.

Lemma produces_raise {A} (R : A -> Prop) (e : exn) : produces Q R (raise e).
Proof. intros w. split; [exists []; simpl; by rewrite app_nil_r | done]. Qed.

Lemma produces_read : produces Q (fun _ => True) read.
Proof. intros w. split; [exists []; simpl; by rewrite app_nil_r | done]. Qed.

Lemma produces_modify (f : world -> world) :
  (forall w, trace (f w) = trace w) -> produces Q (fun _ => True) (modify f).
Proof.
  intros Hf w. split; [|done]. exists []. simpl. by rewrite Hf, app_nil_r.
Qed.

Lemma produces_emit (e : event) : Q e -> produces Q (fun _ => True) (emit e).
Proof.
  intros He w. split; [|done]. exists [e]. split; [done|]. by constructor.
Qed.

Lemma produces_weaken {A} (R R' : A -> Prop) (m : M A) :
  (forall a, R a -> R' a) -> produces Q R m -> produces Q R' m.
Proof.
  intros HR Hm w. destruct (Hm w) as [Ht Hv]. split; [done|].
  intros a Ha. by apply HR, Hv.
Qed.

Lemma produces_bind {A B} (R : A -> Prop) (R' : B -> Prop) (m : M A) (f : A -> M B) :
  produces Q R m -> (forall a, R a -> produces Q R' (f a)) ->
  produces Q R' (m ≫= f).
Proof.
  intros Hm Hf w. destruct (Hm w) as [(t1 & Ht1 & HQ1) Hv].
  unfold mbind, M_bind. destruct (m w) as [[a|e|l] w1] eqn:E; simpl in *.
  - destruct (Hf a (Hv a eq_refl) w1) as [(t2 & Ht2 & HQ2) Hv2].
    split; [|done]. exists (t1 ++ t2). rewrite Ht2, Ht1, app_assoc.
    split; [done|]. by apply Forall_app.
  - split; [by exists t1 | done].
  - split; [by exists t1 | done].
Qed.

Lemma produces_try_except {A} (R : A -> Prop) (body : M A) (handler : exn -> M A) :
  produces Q R body -> (forall e, produces Q R (handler e)) ->
  produces Q R (try_except body handler).
Proof.
  intros Hb Hh w. destruct (Hb w) as [(t1 & Ht1 & HQ1) Hv].
  unfold try_except. destruct (body w) as [[a|e|l] w1] eqn:E; simpl in *.
  - split; [by exists t1 | done].
  - destruct (Hh e w1) as [(t2 & Ht2 & HQ2) Hv2].
    split; [|done]. exists (t1 ++ t2). rewrite Ht2, Ht1, app_assoc.
    split; [done|]. by apply Forall_app.
  - split; [by exists t1 | done].
Qed.

Lemma produces_acquire (l : lock) : Q (Acquire l) -> produces Q (fun _ => True) (acquire l).
Proof.
  intros Hl w. split; [|done]. unfold acquire. destruct (holds l w); simpl.
  - exists []. by rewrite app_nil_r.
  - exists [Acquire l]. split; [done|]. by constructor.
Qed.

Lemma produces_async_with {A} (R : A -> Prop) (l : lock) (body : M A) :
  Q (Acquire l) -> Q (Release l) -> produces Q R body ->
  produces Q R (async_with l body).
Proof.
  intros Ha Hr Hb. unfold async_with.
  apply (produces_bind (fun _ => True)); [by apply produces_acquire|].
  intros _ _ w. destruct (Hb w) as [(t1 & Ht1 & HQ1) Hv].
  destruct (body w) as [[a|e|l'] w1] eqn:E; simpl in *.
  - split; [|by intros a' [= <-]; apply Hv]. exists (t1 ++ [Release l]).
    rewrite Ht1, app_assoc. split; [done|]. apply Forall_app. split; [done|].
    by constructor.
  - split; [|done]. exists (t1 ++ [Release l]).
    rewrite Ht1, app_assoc. split; [done|]. apply Forall_app. split; [done|].
    by constructor.
  - split; [by exists t1 | done].
Qed.

Lemma produces_wait_for {A} (R : A -> Prop) (body : M A) (e : exn) :
  produces Q R body -> produces Q R (LoadBalancer.wait_for body e).
Proof.
  intros Hb w. destruct (Hb w) as [Ht Hv]. unfold LoadBalancer.wait_for.
  by destruct (body w) as [[a|e'|l] w1].
Qed.

End TraceLogic.

Ltac trace_step :=
  lazymatch goal with
  | |- Runtime.produces _ _ (mret _) => apply produces_ret; try done
  | |- Runtime.produces _ _ (Runtime.raise _) => apply produces_raise
  | |- Runtime.produces _ _ Runtime.read => apply produces_read
  | |- Runtime.produces _ _ (Runtime.modify _) =>
      apply produces_modify; intros; reflexivity
  | |- Runtime.produces _ _ (Runtime.emit _) => apply produces_emit; done
  | |- Runtime.produces _ _ (Runtime.put _ _) => unfold Runtime.put
  | |- Runtime.produces _ _ (_ ≫= _) =>
      apply (produces_bind _ (fun _ => True)); [|intros ? _]
  | |- Runtime.produces _ _ (Runtime.try_except _ _) =>
      apply produces_try_except; [|intros ?]
  | |- Runtime.produces _ _ (Runtime.async_with _ _) =>
      apply produces_async_with; [done|done|]
  | |- Runtime.produces _ _ (LoadBalancer.wait_for _ _) => apply produces_wait_for
  | |- Runtime.produces _ _ (if ?b then _ else _) => destruct b
  | |- Runtime.produces _ _ (match ?x with _ => _ end) => destruct x
  end.

(** ** The temperature cap *)

Section TemperatureFacts.
Import Runtime.
Import MessageConverter.
Import LoadBalancer.
Import ApiRoutes.








End TemperatureFacts.


(** ** Reassignment, in general *)

Section ReassignInGeneral.
Import Runtime.
Import MessageConverter.
Import LoadBalancer.

Lemma for_each_produces {A} (Q : event -> Prop) (xs : list A) (body : A -> M unit) :
  (forall x, produces Q (fun _ => True) (body x)) ->
  produces Q (fun _ => True) (for_each xs body).
Proof.
  intros Hb. induction xs as [|x xs IH]; simpl.
  - by apply produces_ret.
  - apply (produces_bind _ (fun _ => True)); [apply Hb | by intros].
Qed.

Lemma requests_to_reassign_sends_nothing tab items :
  produces not_a_send (fun _ => True) (requests_to_reassign tab items).
Proof.
  induction items as [|[request_id metadata] rest IH]; simpl.
  - by apply produces_ret.
  - destruct (py_eq_str _ _); [|done].
    apply (produces_bind _ (fun _ => True)); [apply produces_read|]. intros w _.
    apply (produces_bind _ (fun _ => True)).
    { unfold py_ge. repeat trace_step. }
    intros [] _.
    + apply (produces_bind _ (fun _ => True)); [|by intros].
      repeat trace_step.
    + apply (produces_bind _ (fun _ => True)); [done|]. intros. by apply produces_ret.
Qed.

(** The call that would produce the payload never returns one. *)
Lemma convert_call_never_returns (P : pipeline) (a b c m t : pyval) :
  produces not_a_send (fun _ => False)
    (call (convert_openai_to_lmarena_payload P) [a; b; c]
       [("mode_override", m); ("battle_target_override", t)]).
Proof.
  intros w. rewrite convert_call_raises. split; [|done].
  exists []. simpl. by rewrite app_nil_r.
Qed.

Lemma reassign_one_sends_nothing (P : pipeline) tab active_tabs now request_id metadata :
  produces not_a_send (fun _ => True)
    (reassign_one tab active_tabs (convert_openai_to_lmarena_payload P) now
       request_id metadata).
Proof.
  unfold reassign_one. apply produces_try_except.
  - apply (produces_bind _ (fun _ => True)); [apply produces_read|]. intros w _.
    destruct (best_tab _ _) as [[|c s]|]; [by apply produces_ret| |by apply produces_ret].
    destruct (PyDict.get _ _) as [target_ws|]; [|apply produces_raise].
    apply (produces_bind _ (fun _ => True)); [unfold py_succ; repeat trace_step|].
    intros next_count _.
    apply (produces_bind _ (fun _ => True)); [repeat trace_step|]. intros _ _.
    apply (produces_bind _ (fun _ => False)); [apply convert_call_never_returns|].
    by intros payload [].
  - intros e. repeat trace_step.
Qed.

(** Whatever the state of the process, reassignment through the tab manager
    sends nothing on any WebSocket. *)
Lemma reassignment_never_sends (P : pipeline) (now tab : string) :
  produces not_a_send (fun _ => True) (TabManager.reassign_pending_requests P now tab).
Proof.
  unfold TabManager.reassign_pending_requests, reassign_pending_requests.
  apply produces_async_with; [done|done|].
  apply (produces_bind _ (fun _ => True)); [apply produces_read|]. intros w _.
  destruct (PyDict.keys _); [by apply produces_ret|].
  apply (produces_bind _ (fun _ => True)); [apply requests_to_reassign_sends_nothing|].
  intros todo _. apply for_each_produces. intros [request_id metadata].
  apply reassign_one_sends_nothing.
Qed.

End ReassignInGeneral.

(** ** The clean-up after the last tab has gone *)

Section CleanupFacts.
Import Runtime.
Import WebsocketRoutes.

Lemma for_each_put (frame : pyval) (rids : list string) (w : world) :
  NoDup rids ->
  fst (for_each rids (fun r => put r frame) w) = Return tt /\
  response_channels (snd (for_each rids (fun r => put r frame) w)) = response_channels w /\
  (forall r, r ∈ rids ->
     queues (snd (for_each rids (fun r => put r frame) w)) !! r =
       Some (default [] (queues w !! r) ++ [frame])) /\
  (forall r, r ∉ rids ->
     queues (snd (for_each rids (fun r => put r frame) w)) !! r = queues w !! r).
Proof.
  intros Hnd. revert w. induction Hnd as [|rid rids Hnotin Hnd IH]; intros w.
  - simpl. repeat split; try done. by intros r ?%elem_of_nil.
  - simpl. unfold mbind, M_bind. unfold put at 1. unfold mbind, M_bind, modify, emit.
    simpl.
    set (w1 := with_trace _ (with_queues _ w)).
    destruct (IH w1) as (Hret & Hch & Hin & Hout).
    destruct (for_each rids _ w1) as [o w2]. simpl in *. subst o.
    split; [done|]. split; [done|]. split.
    + intros r [->|Hr]%elem_of_cons.
      * rewrite (Hout rid Hnotin). unfold w1. simpl. by rewrite lookup_insert_eq.
      * rewrite (Hin r Hr). unfold w1. simpl.
        rewrite lookup_insert_ne; [done|]. intros ->. done.
    + intros r Hr. apply not_elem_of_cons in Hr as [Hne Hr].
      rewrite (Hout r Hr). unfold w1. simpl. by rewrite lookup_insert_ne.
Qed.

(** When the tab that disconnects was the last one and auto-retry is off,
    the handler runs to its end: every registered channel's queue receives
    the "Browser disconnected during operation" error as its last frame, and
    the registry of channels is emptied. *)
Lemma last_tab_disconnect_terminates_channels (P : MessageConverter.pipeline)
    (now tab_id : string) (w : world) :
  held w = [] ->
  PyDict.del tab_id (browser_connections w) = [] ->
  truthy (get_or "enable_auto_retry" (PBool false) (CONFIG w)) = false ->
  NoDup (response_channels w) ->
  fst (websocket_disconnect P now tab_id w) = Return tt /\
  response_channels (snd (websocket_disconnect P now tab_id w)) = [] /\
  (forall r, r ∈ response_channels w ->
     queues (snd (websocket_disconnect P now tab_id w)) !! r =
       Some (default [] (queues w !! r) ++ [browser_disconnected])).
Proof.
  destruct w as [cfg mem mnm rr ver bc bws cnt chans qs md hd tr]. simpl.
  intros -> Hlast Hoff Hnd.
  unfold websocket_disconnect, disconnect_cleanup, async_with.
  unfold mbind, M_bind, acquire, release, modify, read, emit, holds. simpl.
  rewrite Hlast. simpl. rewrite Hoff. simpl.
  match goal with
  | |- context [for_each chans ?body ?w0] =>
      destruct (for_each_put browser_disconnected chans w0 Hnd) as (Hret & Hch & Hin & _);
      destruct (for_each chans body w0) as [o w2]
  end.
  simpl in *. subst o. simpl. split; [done|]. split; [done|]. exact Hin.
Qed.

End CleanupFacts.

(** ** The round-robin cursor *)

Section CursorFacts.
Import Runtime.
Import ApiRoutes.

(** One admitted request for a model with a list of bindings: the route moves
    the cursor from [i] to [(i + 1) mod N], and the binding the request is
    sent with is the one found there afterwards. *)
Lemma binding_is_read_after_the_cursor_moved (name : string) (bindings : list pyval)
    (i : nat) (w : world) :
  name <> "" ->
  MODEL_ENDPOINT_MAP w !! name = Some (PList bindings) ->
  MODEL_ROUND_ROBIN_INDEX w !! name = Some i ->
  i < length bindings ->
  exists chosen,
    bindings !! ((i + 1) mod length bindings) = Some chosen /\
    (chat_completions_endpoint (PStr name) ;; selected_mapping (PStr name)) w =
      (Return (Some chosen, PInt (Z.of_nat ((i + 1) mod length bindings))),
       with_round_robin (<[name := (i + 1) mod length bindings]>) w).
Proof.
  intros Hname Hmap Hidx Hi.
  destruct bindings as [|e es]; [simpl in Hi; lia|].
  assert ((i + 1) mod length (e :: es) < length (e :: es)) as Hnext
    by (apply Nat.mod_upper_bound; simpl; lia).
  destruct (lookup_lt_is_Some_2 (e :: es) _ Hnext) as [chosen Hchosen].
  destruct (lookup_lt_is_Some_2 (e :: es) _ Hi) as [current Hcurrent].
  exists chosen. split; [done|].
  destruct w as [cfg mem mnm rr ver bc bws cnt chans qs md hd tr].
  cbn [MODEL_ENDPOINT_MAP MODEL_ROUND_ROBIN_INDEX] in Hmap, Hidx.
  apply String.eqb_neq in Hname.
  set (next := (i + 1) mod length (e :: es)) in *.
  assert (init_cursor name rr = rr) as Hinit
    by (unfold init_cursor; rewrite decide_True by eauto; done).
  assert (init_cursor name (<[name := next]> rr) = <[name := next]> rr) as Hinit'
    by (unfold init_cursor; rewrite decide_True
          by (rewrite lookup_insert_eq; eauto); done).
  unfold chat_completions_endpoint, selected_mapping, lookup_model, py_index.
  unfold mbind, M_bind, read, modify, with_round_robin.
  cbn -[Nat.modulo length lookup insert init_cursor].
  rewrite Hmap, Hname.
  cbn -[Nat.modulo length lookup insert init_cursor].
  rewrite Hinit, Hidx.
  cbn -[Nat.modulo length lookup insert init_cursor].
  rewrite Hcurrent.
  cbn -[Nat.modulo length lookup insert init_cursor].
  rewrite Hmap.
  cbn -[Nat.modulo length lookup insert init_cursor].
  fold next. rewrite Hinit', lookup_insert_eq.
  cbn -[Nat.modulo length lookup insert init_cursor].
  rewrite Hchosen. reflexivity.
Qed.

End CursorFacts.
(** * Part III: further properties of the modelled code *)

(** Unfolds the state updates of a run that has been reduced to nested
    [with_...] applications. *)
Ltac world_norm :=
  lazy beta iota zeta delta
    [mret Runtime.M_ret Runtime.with_round_robin Runtime.with_verification
     Runtime.with_connections Runtime.with_browser_ws Runtime.with_counts
     Runtime.with_channels Runtime.with_queues Runtime.with_metadata
     Runtime.with_held Runtime.with_trace
     Runtime.CONFIG Runtime.MODEL_ENDPOINT_MAP Runtime.MODEL_NAME_TO_ID_MAP
     Runtime.MODEL_ROUND_ROBIN_INDEX Runtime.verification
     Runtime.browser_connections Runtime.browser_ws Runtime.tab_request_counts
     Runtime.response_channels Runtime.queues Runtime.request_metadata
     Runtime.held Runtime.trace].

(** ** The load balancer: choosing and releasing a tab *)

Section LoadBalancerFacts.
Import Runtime.
Import LoadBalancer.
Import LoadBalancerNotions.

Lemma PyDict_mem_keys {V} (k : string) (d : PyDict.t V) :
  PyDict.mem k d = true <-> k ∈ PyDict.keys d.
Proof.
  unfold PyDict.mem, PyDict.keys. induction d as [|[k' v] d IH]; simpl.
  - split; [done | by intros ?%elem_of_nil].
  - destruct (String.eqb k k') eqn:E.
    + apply String.eqb_eq in E as ->. split; [intros _; apply list_elem_of_here | done].
    + apply String.eqb_neq in E. rewrite IH. split.
      * by apply list_elem_of_further.
      * intros [?|?]%elem_of_cons; [done|done].
Qed.

Lemma PyDict_get_keys {V} (k : string) (d : PyDict.t V) :
  k ∈ PyDict.keys d -> is_Some (PyDict.get k d).
Proof.
  intros H%PyDict_mem_keys. unfold PyDict.mem in H.
  destruct (PyDict.get k d); [by eexists | done].
Qed.

(** The scan keeps the first tab whose load is the least. *)
Lemma min_load_tab_acc (counts : gmap string nat) (tabs : list string) (b : string) (m : nat) :
  exists tab l,
    min_load_tab counts tabs (Some (b, m)) = Some (tab, l) /\
    l <= m /\
    Forall (fun t => l <= default 0 (counts !! t)) tabs /\
    ((tab = b /\ l = m) \/
     (exists pre post, tabs = pre ++ tab :: post /\ l = default 0 (counts !! tab) /\
        l < m /\ Forall (fun t => l < default 0 (counts !! t)) pre)).
Proof.
  revert b m. induction tabs as [|t0 rest IH]; intros b m; simpl.
  - exists b, m. split; [done|]. split; [done|]. split; [constructor|]. by left.
  - destruct (Nat.ltb_spec (default 0 (counts !! t0)) m) as [Hlt|Hge].
    + destruct (IH t0 (default 0 (counts !! t0))) as (tab & l & -> & Hle & Hall & Hwhere).
      exists tab, l. split; [done|]. split; [lia|]. split; [by constructor|].
      right. destruct Hwhere as [[-> ->]|(pre & post & -> & -> & Hl & Hpre)].
      * exists [], rest. split; [done|]. split; [done|]. split; [done|]. constructor.
      * exists (t0 :: pre), post. split; [done|]. split; [done|]. split; [lia|].
        by constructor.
    + destruct (IH b m) as (tab & l & -> & Hle & Hall & Hwhere).
      exists tab, l. split; [done|]. split; [done|].
      split; [constructor; [lia|done]|].
      destruct Hwhere as [[-> ->]|(pre & post & -> & -> & Hl & Hpre)]; [by left|].
      right. exists (t0 :: pre), post. split; [done|]. split; [done|]. split; [done|].
      constructor; [lia|done].
Qed.

Lemma min_load_tab_first_least (counts : gmap string nat) (t0 : string) (rest : list string) :
  exists tab pre post,
    min_load_tab counts (t0 :: rest) None = Some (tab, default 0 (counts !! tab)) /\
    t0 :: rest = pre ++ tab :: post /\
    Forall (fun t => default 0 (counts !! tab) < default 0 (counts !! t)) pre /\
    Forall (fun t => default 0 (counts !! tab) <= default 0 (counts !! t)) (t0 :: rest).
Proof.
  simpl.
  destruct (min_load_tab_acc counts rest t0 (default 0 (counts !! t0)))
    as (tab & l & -> & Hle & Hall & Hwhere).
  destruct Hwhere as [[-> ->]|(pre & post & -> & -> & Hl & Hpre)].
  - exists t0, [], rest. split; [done|]. split; [done|]. split; [constructor|].
    by constructor.
  - exists tab, (t0 :: pre), post. split; [done|]. split; [done|].
    split; [by constructor|]. constructor; [lia|done].
Qed.

Lemma fill_lookup (keys : list string) (c : gmap string nat) (t : string) :
  fold_left (fun c tab => if decide (is_Some (c !! tab)) then c else <[tab := 0]> c)
    keys c !! t =
  if decide (t ∈ keys) then Some (default 0 (c !! t)) else c !! t.
Proof.
  revert c. induction keys as [|k keys IH]; intros c.
  - simpl. by destruct (decide (t ∈ [])) as [?%elem_of_nil|].
  - cbn [fold_left]. rewrite IH.
    destruct (decide (t ∈ keys)) as [Hin|Hnin];
      destruct (decide (t ∈ k :: keys)) as [Hin'|Hnin'];
      destruct (decide (is_Some (c !! k))) as [[n Hn]|Hnone%eq_None_not_Some];
      try (exfalso; apply Hnin'; by apply list_elem_of_further); try done.
    + destruct (decide (t = k)) as [->|Hne].
      * by rewrite lookup_insert_eq, Hnone.
      * by rewrite lookup_insert_ne.
    + apply elem_of_cons in Hin' as [->|?]; [|done]. by rewrite Hn.
    + apply elem_of_cons in Hin' as [->|?]; [|done].
      by rewrite lookup_insert_eq, Hnone.
    + rewrite lookup_insert_ne; [done|]. intros <-. apply Hnin', list_elem_of_here.
Qed.

Lemma fresh_counts_lookup (conns : PyDict.t string) (counts : gmap string nat) (t : string) :
  fresh_counts conns counts !! t =
  if decide (t ∈ PyDict.keys conns) then Some (default 0 (counts !! t)) else None.
Proof.
  unfold fresh_counts. rewrite fill_lookup.
  destruct (decide (t ∈ PyDict.keys conns)) as [Hin|Hnin].
  - f_equal. destruct (counts !! t) as [n|] eqn:E.
    + erewrite map_lookup_filter_Some_2; [done|done|].
      simpl. by apply PyDict_mem_keys.
    + rewrite map_lookup_filter_None_2; [done|by left].
  - apply map_lookup_filter_None_2. right. intros n _. simpl.
    rewrite PyDict_mem_keys. done.
Qed.

End LoadBalancerFacts.
Section SelectFacts.
Import Runtime.
Import LoadBalancer.
Import LoadBalancerNotions.

Lemma lock_eqb_refl l : lock_eqb l l = true.
Proof. by destruct l. Qed.

Lemma lock_eqb_sym a b : lock_eqb a b = lock_eqb b a.
Proof. by destruct a, b. Qed.

Lemma release_after_acquire (l : lock) (h : list lock) :
  existsb (lock_eqb l) h = false ->
  List.filter (fun l' => negb (lock_eqb l' l)) (l :: h) = h.
Proof.
  intros Hfree. simpl. rewrite lock_eqb_refl. simpl.
  induction h as [|a h IH]; [done|]. simpl in *.
  apply orb_false_iff in Hfree as [Ha Hh].
  rewrite lock_eqb_sym, Ha. simpl. by rewrite IH.
Qed.

Lemma fresh_counts_load (conns : PyDict.t string) (counts : gmap string nat) (t : string) :
  t ∈ PyDict.keys conns ->
  default 0 (fresh_counts conns counts !! t) = default 0 (counts !! t).
Proof. intros Hin. rewrite fresh_counts_lookup. by rewrite decide_True. Qed.

(** What one selection comes to when the registry lock is free and a tab is
    connected. *)
Lemma select_best_tab_run (w : world) :
  holds browser_connections_lock w = false ->
  browser_connections w <> [] ->
  exists tab ws pre post,
    PyDict.keys (browser_connections w) = pre ++ tab :: post /\
    Forall (fun t => default 0 (tab_request_counts w !! tab) <
                     default 0 (tab_request_counts w !! t)) pre /\
    Forall (fun t => default 0 (tab_request_counts w !! tab) <=
                     default 0 (tab_request_counts w !! t))
      (PyDict.keys (browser_connections w)) /\
    PyDict.get tab (browser_connections w) = Some ws /\
    select_best_tab_for_request w =
      (Return (tab, ws),
       with_trace (fun t => (t ++ [Acquire browser_connections_lock])
                              ++ [Release browser_connections_lock])
         (with_counts (fun c =>
            <[tab := S (default 0 (c !! tab))]> (fresh_counts (browser_connections w) c)) w)).
Proof.
  intros Hfree Hconn.
  destruct w as [cfg mem mnm rr ver bc bws cnt chans qs md hd tr].
  unfold holds in Hfree. cbn [held browser_connections tab_request_counts] in *.
  destruct bc as [|[t0 ws0] bc']; [done|]. clear Hconn.
  set (bc := (t0, ws0) :: bc').
  destruct (min_load_tab_first_least (fresh_counts bc cnt) t0 (map fst bc'))
    as (tab & pre & post & Hmin & Hkeys & Hpre & Hall).
  assert (PyDict.keys bc = t0 :: map fst bc') as Hk by done.
  assert (tab ∈ PyDict.keys bc) as Hin.
  { rewrite Hk, Hkeys. apply elem_of_app. right. apply list_elem_of_here. }
  destruct (PyDict_get_keys tab bc Hin) as [ws Hws].
  exists tab, ws, pre, post.
  split; [by rewrite Hk|].
  assert (forall t, t ∈ PyDict.keys bc ->
            default 0 (fresh_counts bc cnt !! t) = default 0 (cnt !! t)) as Hload
    by (intros; by apply fresh_counts_load).
  split.
  { apply Forall_forall. intros t Ht.
    rewrite <- (Hload tab Hin), <- (Hload t).
    - by apply (proj1 (Forall_forall _ _) Hpre).
    - rewrite Hk, Hkeys. apply elem_of_app. by left. }
  split.
  { apply Forall_forall. intros t Ht.
    rewrite <- (Hload tab Hin), <- (Hload t) by done.
    apply (proj1 (Forall_forall _ _) Hall). by rewrite <- Hk. }
  split; [done|].
  unfold select_best_tab_for_request, wait_for, async_with.
  unfold mbind, M_bind, acquire, release, modify, read, holds.
  cbn [held]. rewrite Hfree.
  cbn -[min_load_tab filter fold_left lookup insert PyDict.get PyDict.mem].
  change (fold_left _ _ (filter _ cnt)) with (fresh_counts bc cnt).
  change (t0 :: map fst bc') with (PyDict.keys bc) in *.
  rewrite Hmin, Hws.
  lazy beta iota zeta delta
    [mret M_ret with_counts with_trace with_held
     CONFIG MODEL_ENDPOINT_MAP MODEL_NAME_TO_ID_MAP MODEL_ROUND_ROBIN_INDEX verification
     browser_connections browser_ws tab_request_counts response_channels queues
     request_metadata held trace].
  change (fold_left _ _ (filter _ cnt)) with (fresh_counts bc cnt).
  rewrite (Hload tab Hin), release_after_acquire by done. reflexivity.
Qed.

End SelectFacts.
Section SelectTheorems.
Import Runtime.
Import LoadBalancer.
Import LoadBalancerNotions.

(** X1. With the registry lock free and at least one tab connected,
    [select_best_tab_for_request] returns a connected tab together with its
    socket; no connected tab has fewer requests in flight, the tabs listed
    before it in the registry all have strictly more, its counter goes up
    by one, and the lock is free again afterwards. *)
Theorem select_best_tab_takes_the_least_loaded (w : world) :
  holds browser_connections_lock w = false ->
  browser_connections w <> [] ->
  exists tab ws pre post,
    fst (select_best_tab_for_request w) = Return (tab, ws) /\
    PyDict.get tab (browser_connections w) = Some ws /\
    PyDict.keys (browser_connections w) = pre ++ tab :: post /\
    (forall t, t ∈ pre ->
       default 0 (tab_request_counts w !! tab) < default 0 (tab_request_counts w !! t)) /\
    (forall t, t ∈ PyDict.keys (browser_connections w) ->
       default 0 (tab_request_counts w !! tab) <= default 0 (tab_request_counts w !! t)) /\
    tab_request_counts (snd (select_best_tab_for_request w)) !! tab =
      Some (S (default 0 (tab_request_counts w !! tab))) /\
    held (snd (select_best_tab_for_request w)) = held w.
Proof.
  intros Hfree Hconn.
  destruct (select_best_tab_run w Hfree Hconn)
    as (tab & ws & pre & post & Hkeys & Hpre & Hall & Hws & ->).
  exists tab, ws, pre, post. simpl.
  split; [done|]. split; [done|]. split; [done|].
  split; [by apply Forall_forall|]. split; [by apply Forall_forall|].
  split; [by rewrite lookup_insert_eq | done].
Qed.

Lemma select_best_tab_takes_the_least_loaded_witness :
  exists tab ws pre post,
    fst (select_best_tab_for_request Scenario.two_tabs) = Return (tab, ws) /\
    PyDict.get tab (browser_connections Scenario.two_tabs) = Some ws /\
    PyDict.keys (browser_connections Scenario.two_tabs) = pre ++ tab :: post /\
    (forall t, t ∈ pre ->
       default 0 (tab_request_counts Scenario.two_tabs !! tab) <
       default 0 (tab_request_counts Scenario.two_tabs !! t)) /\
    (forall t, t ∈ PyDict.keys (browser_connections Scenario.two_tabs) ->
       default 0 (tab_request_counts Scenario.two_tabs !! tab) <=
       default 0 (tab_request_counts Scenario.two_tabs !! t)) /\
    tab_request_counts (snd (select_best_tab_for_request Scenario.two_tabs)) !! tab =
      Some (S (default 0 (tab_request_counts Scenario.two_tabs !! tab))) /\
    held (snd (select_best_tab_for_request Scenario.two_tabs)) = held Scenario.two_tabs.
Proof.
  apply (select_best_tab_takes_the_least_loaded Scenario.two_tabs); [reflexivity|].
  simpl. discriminate.
Defined.

(** X2. After a selection the table of counters covers the connected tabs
    and nothing else: a counter left behind by a tab that is gone is dropped,
    and every connected tab other than the chosen one keeps its load (0 if
    it had no counter yet). *)
Theorem select_best_tab_renews_the_counters (w : world) :
  holds browser_connections_lock w = false ->
  browser_connections w <> [] ->
  exists tab ws,
    fst (select_best_tab_for_request w) = Return (tab, ws) /\
    forall t, t <> tab ->
      tab_request_counts (snd (select_best_tab_for_request w)) !! t =
        if decide (t ∈ PyDict.keys (browser_connections w))
        then Some (default 0 (tab_request_counts w !! t))
        else None.
Proof.
  intros Hfree Hconn.
  destruct (select_best_tab_run w Hfree Hconn)
    as (tab & ws & pre & post & Hkeys & Hpre & Hall & Hws & ->).
  exists tab, ws. split; [done|]. intros t Hne. simpl.
  rewrite lookup_insert_ne by done. apply fresh_counts_lookup.
Qed.

Lemma select_best_tab_renews_the_counters_witness :
  exists tab ws,
    fst (select_best_tab_for_request Scenario.t1_gone) = Return (tab, ws) /\
    forall t, t <> tab ->
      tab_request_counts (snd (select_best_tab_for_request Scenario.t1_gone)) !! t =
        if decide (t ∈ PyDict.keys (browser_connections Scenario.t1_gone))
        then Some (default 0 (tab_request_counts Scenario.t1_gone !! t))
        else None.
Proof.
  apply (select_best_tab_renews_the_counters Scenario.t1_gone); [reflexivity|].
  simpl. discriminate.
Defined.

(** X3. [select_best_tab_for_request] never waits for ever and never picks
    from an empty registry: with no tab connected, or with the registry lock
    already taken (the five-second timeout), it raises a 503, the counters
    are as they were and no lock is left held that was not held before. *)
Theorem select_best_tab_refuses (w : world) :
  browser_connections w = [] \/ holds browser_connections_lock w = true ->
  exists detail,
    fst (select_best_tab_for_request w) = Raise (HTTPException 503 detail) /\
    tab_request_counts (snd (select_best_tab_for_request w)) = tab_request_counts w /\
    held (snd (select_best_tab_for_request w)) = held w.
Proof.
  intros Hcase.
  destruct w as [cfg mem mnm rr ver bc bws cnt chans qs md hd tr].
  cbn [browser_connections] in Hcase. unfold holds in Hcase. cbn [held] in Hcase.
  unfold select_best_tab_for_request, wait_for, async_with.
  unfold mbind, M_bind, acquire, release, modify, read, raise, holds.
  cbn [held].
  destruct (existsb (lock_eqb browser_connections_lock) hd) eqn:Hheld.
  - eexists. cbn [fst snd tab_request_counts held]. done.
  - destruct Hcase as [->|?]; [|done].
    lazy beta iota zeta delta
      [with_counts with_trace with_held fst snd
       CONFIG MODEL_ENDPOINT_MAP MODEL_NAME_TO_ID_MAP MODEL_ROUND_ROBIN_INDEX verification
       browser_connections browser_ws tab_request_counts response_channels queues
       request_metadata held trace].
    eexists. split; [done|]. split; [done|]. by apply release_after_acquire.
Qed.

Lemma select_best_tab_refuses_witness :
  exists detail,
    fst (select_best_tab_for_request Scenario.idle) = Raise (HTTPException 503 detail) /\
    tab_request_counts (snd (select_best_tab_for_request Scenario.idle)) =
      tab_request_counts Scenario.idle /\
    held (snd (select_best_tab_for_request Scenario.idle)) = held Scenario.idle.
Proof. apply (select_best_tab_refuses Scenario.idle). left. reflexivity. Defined.

Lemma release_tab_request_run (tab : string) (w : world) :
  holds tab_request_counts_lock w = false ->
  release_tab_request tab w =
    (Return tt,
     with_trace (fun t => (t ++ [Acquire tab_request_counts_lock])
                            ++ [Release tab_request_counts_lock])
       (with_counts (fun counts =>
          match counts !! tab with
          | Some (S n) => <[tab := n]> counts
          | _ => counts
          end) w)).
Proof.
  intros Hfree.
  destruct w as [cfg mem mnm rr ver bc bws cnt chans qs md hd tr].
  unfold holds in Hfree. cbn [held] in Hfree.
  unfold release_tab_request, async_with.
  unfold mbind, M_bind, acquire, release, modify, holds.
  cbn [held]. rewrite Hfree.
  lazy beta iota zeta delta
    [with_counts with_trace with_held fst snd
     CONFIG MODEL_ENDPOINT_MAP MODEL_NAME_TO_ID_MAP MODEL_ROUND_ROBIN_INDEX verification
     browser_connections browser_ws tab_request_counts response_channels queues
     request_metadata held trace].
  by rewrite release_after_acquire.
Qed.

(** X4. Taking a tab for a request and releasing it again leaves every
    connected tab with the load it had before. *)
Theorem select_then_release_restores_the_loads (w : world) :
  holds browser_connections_lock w = false ->
  holds tab_request_counts_lock w = false ->
  browser_connections w <> [] ->
  exists w',
    (selected ← select_best_tab_for_request; release_tab_request selected.1) w =
      (Return tt, w') /\
    forall t, t ∈ PyDict.keys (browser_connections w) ->
      tab_request_counts w' !! t = Some (default 0 (tab_request_counts w !! t)).
Proof.
  intros Hfree Hfree' Hconn.
  destruct (select_best_tab_run w Hfree Hconn)
    as (tab & ws & pre & post & Hkeys & Hpre & Hall & Hws & Hrun).
  unfold mbind, M_bind. rewrite Hrun. cbn [fst].
  rewrite release_tab_request_run by done.
  eexists. split; [done|]. intros t Ht. simpl.
  rewrite lookup_insert_eq.
  destruct (decide (t = tab)) as [->|Hne].
  - by rewrite lookup_insert_eq.
  - rewrite lookup_insert_ne by done. rewrite lookup_insert_ne by done.
    rewrite fresh_counts_lookup. by rewrite decide_True.
Qed.

Lemma select_then_release_restores_the_loads_witness :
  exists w',
    (selected ← select_best_tab_for_request; release_tab_request selected.1)
      Scenario.two_tabs = (Return tt, w') /\
    forall t, t ∈ PyDict.keys (browser_connections Scenario.two_tabs) ->
      tab_request_counts w' !! t =
        Some (default 0 (tab_request_counts Scenario.two_tabs !! t)).
Proof.
  apply (select_then_release_restores_the_loads Scenario.two_tabs);
    [reflexivity | reflexivity | simpl; discriminate].
Defined.

End SelectTheorems.
(** ** Frame reasoning *)

Section FrameLogic.
Import Runtime.
Import Frame.

Context (I : world -> world -> Prop).
Context (I_refl : forall w, I w w).
Context (I_trans : forall w1 w2 w3, I w1 w2 -> I w2 w3 -> I w1 w3).

Lemma keeps_ret {A} (R : A -> Prop) (a : A) : R a -> keeps I R (mret a).
Proof. intros Ha w. split; [apply I_refl|]. by intros a' [= <-]. Qed.

Lemma keeps_raise {A} (R : A -> Prop) (e : exn) : keeps I R (raise e).
Proof. intros w. split; [apply I_refl | done]. Qed.

Lemma keeps_read : keeps I (fun _ => True) read.
Proof. intros w. split; [apply I_refl | done]. Qed.

Lemma keeps_modify (f : world -> world) :
  (forall w, I w (f w)) -> keeps I (fun _ => True) (modify f).
Proof. intros Hf w. split; [apply Hf | done]. Qed.

Lemma keeps_weaken {A} (R R' : A -> Prop) (m : M A) :
  (forall a, R a -> R' a) -> keeps I R m -> keeps I R' m.
Proof.
  intros HR Hm w. destruct (Hm w) as [Hi Hv]. split; [done|].
  intros a Ha. by apply HR, Hv.
Qed.

Lemma keeps_bind {A B} (R : A -> Prop) (R' : B -> Prop) (m : M A) (f : A -> M B) :
  keeps I R m -> (forall a, R a -> keeps I R' (f a)) -> keeps I R' (m ≫= f).
Proof.
  intros Hm Hf w. destruct (Hm w) as [Hi Hv].
  unfold mbind, M_bind. destruct (m w) as [[a|e|l] w1] eqn:E; simpl in *.
  - destruct (Hf a (Hv a eq_refl) w1) as [Hi2 Hv2].
    split; [by eapply I_trans | done].
  - done.
  - done.
Qed.

Lemma keeps_try_except {A} (R : A -> Prop) (body : M A) (handler : exn -> M A) :
  keeps I R body -> (forall e, keeps I R (handler e)) ->
  keeps I R (try_except body handler).
Proof.
  intros Hb Hh w. destruct (Hb w) as [Hi Hv].
  unfold try_except. destruct (body w) as [[a|e|l] w1] eqn:E; simpl in *.
  - done.
  - destruct (Hh e w1) as [Hi2 Hv2]. split; [by eapply I_trans | done].
  - done.
Qed.

Lemma keeps_for_each {A} (xs : list A) (body : A -> M unit) :
  (forall x, x ∈ xs -> keeps I (fun _ => True) (body x)) ->
  keeps I (fun _ => True) (for_each xs body).
Proof.
  induction xs as [|x xs IH]; intros Hb; simpl.
  - by apply keeps_ret.
  - apply (keeps_bind (fun _ => True)).
    + apply Hb, list_elem_of_here.
    + intros _ _. apply IH. intros y Hy. by apply Hb, list_elem_of_further.
Qed.

End FrameLogic.

Section QueueFrame.
Import Runtime.
Import Frame.
Import MessageConverter.
Import LoadBalancer.

Context (rid : string).

Lemma same_queue_refl w : same_queue rid w w.
Proof. done. Qed.

Lemma same_queue_trans w1 w2 w3 :
  same_queue rid w1 w2 -> same_queue rid w2 w3 -> same_queue rid w1 w3.
Proof. unfold same_queue. congruence. Qed.

Lemma put_elsewhere (request_id : string) (frame : pyval) :
  request_id <> rid -> keeps (same_queue rid) (fun _ => True) (put request_id frame).
Proof.
  intros Hne w. split; [|done]. unfold same_queue, put, emit, modify, mbind, M_bind.
  simpl. by rewrite lookup_insert_ne.
Qed.

End QueueFrame.
Ltac frame_step rid :=
  lazymatch goal with
  | |- Frame.keeps _ _ (mret _) =>
      apply keeps_ret; [apply (same_queue_refl rid) | try done]
  | |- Frame.keeps _ _ (Runtime.raise _) => apply keeps_raise; apply (same_queue_refl rid)
  | |- Frame.keeps _ _ Runtime.read => apply keeps_read; apply (same_queue_refl rid)
  | |- Frame.keeps _ _ (Runtime.modify _) => apply keeps_modify; intros; reflexivity
  | |- Frame.keeps _ _ (Runtime.emit _) =>
      unfold Runtime.emit; apply keeps_modify; intros; reflexivity
  | |- Frame.keeps _ _ (Runtime.send_text _ _) =>
      unfold Runtime.send_text, Runtime.emit; apply keeps_modify; intros; reflexivity
  | |- Frame.keeps _ _ (Runtime.put _ _) => apply put_elsewhere; done
  | |- Frame.keeps _ _ (_ ≫= _) =>
      apply (keeps_bind _ (same_queue_trans rid) (fun _ => True)); [|intros ? _]
  | |- Frame.keeps _ _ (Runtime.try_except _ _) =>
      apply (keeps_try_except _ (same_queue_trans rid)); [|intros ?]
  | |- Frame.keeps _ _ (if ?b then _ else _) => destruct b
  | |- Frame.keeps _ _ (match ?x with _ => _ end) => destruct x
  end.

Section ReassignFrame.
Import Runtime.
Import Frame.
Import MessageConverter.
Import LoadBalancer.

Context (rid : string).

Lemma requests_to_reassign_elsewhere (tab : string)
    (items : list (string * gmap string pyval)) :
  (forall md, (rid, md) ∈ items -> py_eq_str (get_or "tab_id" PNone md) tab = false) ->
  keeps (same_queue rid) (Forall (fun x => x.1 <> rid))
    (requests_to_reassign tab items).
Proof.
  induction items as [|[request_id metadata] rest IH]; intros Hother; simpl.
  - apply keeps_ret; [apply same_queue_refl | constructor].
  - assert (forall md, (rid, md) ∈ rest ->
              py_eq_str (get_or "tab_id" PNone md) tab = false) as Hrest
      by (intros md Hmd; by apply Hother, list_elem_of_further).
    destruct (py_eq_str (get_or "tab_id" PNone metadata) tab) eqn:Hown; [|by apply IH].
    assert (request_id <> rid) as Hne.
    { intros ->. specialize (Hother metadata (list_elem_of_here _ _)). congruence. }
    apply (keeps_bind _ (same_queue_trans rid) (fun _ => True));
      [apply keeps_read; apply same_queue_refl|].
    intros w _.
    apply (keeps_bind _ (same_queue_trans rid) (fun _ => True)).
    { unfold py_ge. repeat frame_step rid. }
    intros [] _.
    + apply (keeps_bind _ (same_queue_trans rid) (fun _ => True)); [|by intros; apply IH].
      repeat frame_step rid.
    + apply (keeps_bind _ (same_queue_trans rid) (Forall (fun x => x.1 <> rid)));
        [by apply IH|].
      intros more Hmore. apply keeps_ret; [apply same_queue_refl|]. by constructor.
Qed.

Lemma convert_call_fails_quietly (P : pipeline) (a b c m t : pyval) :
  keeps (same_queue rid) (fun _ => False)
    (call (convert_openai_to_lmarena_payload P) [a; b; c]
       [("mode_override", m); ("battle_target_override", t)]).
Proof. intros w. rewrite convert_call_raises. done. Qed.

Lemma reassign_one_elsewhere (P : pipeline) tab active_tabs now request_id metadata :
  request_id <> rid ->
  keeps (same_queue rid) (fun _ => True)
    (reassign_one tab active_tabs (convert_openai_to_lmarena_payload P) now
       request_id metadata).
Proof.
  intros Hne. unfold reassign_one.
  apply (keeps_try_except _ (same_queue_trans rid)).
  - apply (keeps_bind _ (same_queue_trans rid) (fun _ => True));
      [apply keeps_read; apply same_queue_refl|].
    intros w _.
    destruct (best_tab _ _) as [[|c s]|];
      [by apply keeps_ret; [apply same_queue_refl|]| |
       by apply keeps_ret; [apply same_queue_refl|]].
    destruct (PyDict.get _ _) as [target_ws|];
      [|apply keeps_raise; apply same_queue_refl].
    apply (keeps_bind _ (same_queue_trans rid) (fun _ => True));
      [unfold py_succ; repeat frame_step rid|].
    intros next_count _.
    apply (keeps_bind _ (same_queue_trans rid) (fun _ => True));
      [repeat frame_step rid|].
    intros _ _.
    apply (keeps_bind _ (same_queue_trans rid) (fun _ => False));
      [apply convert_call_fails_quietly|].
    by intros payload [].
  - intros e. repeat frame_step rid.
Qed.

End ReassignFrame.
Section ReassignTheorems.
Import Runtime.
Import Frame.
Import MessageConverter.
Import LoadBalancer.

(** X5. Reassignment after a disconnect writes only into the channels of
    requests the disconnected tab owned: the queue of any other request (one
    whose metadata names another tab, or that has no metadata) is exactly as
    it was, whatever the state of the process. *)
Theorem reassignment_leaves_other_requests_alone (P : pipeline) (now tab rid : string)
    (w : world) :
  (forall md, (rid, md) ∈ request_metadata w ->
     py_eq_str (get_or "tab_id" PNone md) tab = false) ->
  queues (snd (TabManager.reassign_pending_requests P now tab w)) !! rid =
    queues w !! rid.
Proof.
  intros Hother.
  unfold TabManager.reassign_pending_requests, reassign_pending_requests, async_with.
  unfold mbind at 1, M_bind at 1, acquire.
  destruct (holds browser_connections_lock w); [done|].
  unfold mbind at 1, M_bind at 1, read. cbv beta iota.
  set (w1 := with_trace _ (with_held _ w)).
  assert (request_metadata w1 = request_metadata w) as Hmd by done.
  assert (queues w1 = queues w) as Hq by done.
  destruct (PyDict.keys (browser_connections w1)) as [|k ks].
  { reflexivity. }
  rewrite Hmd.
  match goal with
  | |- context [?m w1] =>
      lazymatch m with
      | mbind _ _ =>
          set (body := m); assert (keeps (same_queue rid) (fun _ => True) body) as Hm
      end
  end.
  { subst body.
    apply (keeps_bind _ (same_queue_trans rid) (Forall (fun x => x.1 <> rid)));
      [by apply requests_to_reassign_elsewhere|].
    intros todo Htodo. apply (keeps_for_each _ (same_queue_refl rid) (same_queue_trans rid)).
    intros [request_id metadata] Hin. apply reassign_one_elsewhere.
    by apply (proj1 (Forall_forall _ _) Htodo (request_id, metadata)). }
  destruct (Hm w1) as [Hsame _]. unfold same_queue in Hsame.
  destruct (body w1) as [[[]|e|l] w2]; simpl in *; congruence.
Qed.

Lemma reassignment_leaves_other_requests_alone_witness :
  queues (snd (TabManager.reassign_pending_requests plain_pipeline "now" "T1"
                 Scenario.t1_gone)) !! "R2" =
    queues Scenario.t1_gone !! "R2".
Proof.
  apply (reassignment_leaves_other_requests_alone plain_pipeline "now" "T1" "R2"
           Scenario.t1_gone).
  intros md Hmd. simpl in Hmd.
  apply elem_of_cons in Hmd as [Hmd|Hmd].
  - discriminate Hmd.
  - apply elem_of_cons in Hmd as [Hmd|Hmd].
    + injection Hmd as ->. reflexivity.
    + by apply elem_of_nil in Hmd.
Defined.

End ReassignTheorems.
(** ** The admission gate, fully *)

Section GateTheorems.
Import Runtime.
Import ApiRoutes.

Lemma py_int_floor (q : Q) :
  (0 <= q)%Q -> (inject_Z (py_int q) <= q)%Q /\ (q < inject_Z (py_int q) + 1)%Q.
Proof.
  destruct q as [n d]. unfold Qle, Qlt, py_int, inject_Z, Qplus. simpl.
  intros Hn. rewrite Z.mul_1_r in *.
  rewrite Z.quot_div_nonneg by lia.
  pose proof (Z.mul_div_le n (Zpos d) ltac:(lia)).
  pose proof (Z.mul_succ_div_gt n (Zpos d) ltac:(lia)).
  split; nia.
Qed.

Lemma py_int_nonpos (q : Q) : (q < 0)%Q -> (py_int q <= 0)%Z.
Proof.
  destruct q as [n d]. unfold Qlt, py_int. simpl. intros Hn.
  rewrite <- (Z.opp_involutive n), Z.quot_opp_l by lia.
  pose proof (Z.quot_pos (- n) (Z.pos d) ltac:(lia) ltac:(lia)). lia.
Qed.

(** X6. The gate at the top of [chat_completions] turns a request away
    exactly while the deadline it is handed lies ahead. The number of seconds
    in the 503 is never negative, never more than the time really left, and
    less than four seconds short of it; with no deadline, or one that has
    passed, the request goes through and the state is untouched. *)
Theorem cooldown_gate_decides_by_the_deadline (now : Q) (deadline : option Q) (w : world) :
  match deadline with
  | Some cooldown_until =>
      if Qlt_le_dec now cooldown_until then
        exists remaining : Z,
          cooldown_gate now deadline w =
            (Raise (HTTPException 503 (cooldown_detail remaining)), w) /\
          (0 <= remaining)%Z /\
          (inject_Z remaining <= cooldown_until - now)%Q /\
          (cooldown_until - now - 4 < inject_Z remaining)%Q
      else cooldown_gate now deadline w = (Return tt, w)
  | None => cooldown_gate now deadline w = (Return tt, w)
  end.
Proof.
  destruct deadline as [u|]; [|reflexivity].
  unfold cooldown_gate.
  destruct (Qlt_le_dec now u) as [Hlt|Hge];
    destruct (Qlt_le_dec 0 (u - now)) as [Hpos|Hneg]; try (exfalso; lra); [|done].
  eexists. split; [reflexivity|].
  destruct (Qlt_le_dec (u - now - 3) 0) as [Hsmall|Hbig].
  - pose proof (py_int_nonpos _ Hsmall) as Hz.
    rewrite Z.max_l by lia. split; [lia|]. change (inject_Z 0) with 0%Q. split; lra.
  - destruct (py_int_floor _ Hbig) as [Hlo Hhi].
    pose proof (py_int_nonneg _ Hbig) as Hnn.
    rewrite Z.max_r by lia. split; [lia|]. split; lra.
Qed.

End GateTheorems.
(** ** The round-robin cursor *)

Section CursorTheorems.
Import Runtime.
Import ApiRoutes.
Import ApiRoutesNotions.

Lemma with_round_robin_id (w : world) :
  with_round_robin (fun _ => MODEL_ROUND_ROBIN_INDEX w) w = w.
Proof. by destruct w. Qed.

(** One pass through the multi-endpoint step. *)
Lemma chat_completions_endpoint_step (name : string) (bindings : list pyval)
    (i : nat) (chosen : pyval) (w : world) :
  name <> "" ->
  MODEL_ENDPOINT_MAP w !! name = Some (PList bindings) ->
  default 0 (MODEL_ROUND_ROBIN_INDEX w !! name) = i ->
  bindings !! i = Some chosen ->
  chat_completions_endpoint (PStr name) w =
    (Return (Some chosen),
     with_round_robin
       (fun idx => <[name := (i + 1) mod length bindings]> idx) w).
Proof.
  intros Hname Hmap Hidx Hchosen.
  destruct bindings as [|e es]; [done|].
  destruct w as [cfg mem mnm rr ver bc bws cnt chans qs md hd tr].
  cbn [MODEL_ENDPOINT_MAP MODEL_ROUND_ROBIN_INDEX] in Hmap, Hidx.
  apply String.eqb_neq in Hname.
  assert (default 0 (init_cursor name rr !! name) = i) as Hinit.
  { unfold init_cursor. destruct (decide (is_Some (rr !! name))) as [|Hnone]; [done|].
    apply eq_None_not_Some in Hnone. rewrite Hnone in Hidx. simpl in Hidx. subst i.
    by rewrite lookup_insert_eq. }
  assert (<[name := (i + 1) mod length (e :: es)]> (init_cursor name rr) =
          <[name := (i + 1) mod length (e :: es)]> rr) as Hins.
  { unfold init_cursor. destruct (decide (is_Some (rr !! name))); [done|].
    by rewrite insert_insert_eq. }
  unfold chat_completions_endpoint, lookup_model, py_index.
  unfold mbind, M_bind, read, modify.
  cbn -[Nat.modulo length lookup insert init_cursor].
  rewrite Hmap, Hname.
  cbn -[Nat.modulo length lookup insert init_cursor].
  world_norm. rewrite Hinit, Hchosen. world_norm.
  by rewrite Hins.
Qed.

(** X7. For a model mapped to a list of [N] endpoint configurations, the
    multi-endpoint step of [chat_completions] hands out the configurations in
    list order, round and round: starting from a cursor [i] below [N], the
    [j]-th request gets entry [(i + j) mod N], and after [k] requests the
    cursor stands at [(i + k) mod N]. *)
Theorem round_robin_hands_out_in_list_order (name : string) (bindings : list pyval)
    (i k : nat) (w : world) :
  name <> "" ->
  MODEL_ENDPOINT_MAP w !! name = Some (PList bindings) ->
  default 0 (MODEL_ROUND_ROBIN_INDEX w !! name) = i ->
  i < length bindings ->
  exists w',
    endpoints_of (PStr name) k w =
      (Return (map (fun j => bindings !! ((i + j) mod length bindings)) (seq 0 k)), w') /\
    MODEL_ROUND_ROBIN_INDEX w' !! name =
      (if k is O then MODEL_ROUND_ROBIN_INDEX w !! name
       else Some ((i + k) mod length bindings)) /\
    MODEL_ENDPOINT_MAP w' = MODEL_ENDPOINT_MAP w.
Proof.
  intros Hname Hmap. revert i w Hmap.
  induction k as [|k IH]; intros i w Hmap Hidx Hi.
  - exists w. by split.
  - destruct (lookup_lt_is_Some_2 bindings i Hi) as [chosen Hchosen].
    assert ((i + 1) mod length bindings < length bindings) as Hnext
      by (apply Nat.mod_upper_bound; lia).
    set (w1 := with_round_robin
                 (fun idx => <[name := (i + 1) mod length bindings]> idx) w).
    destruct (IH ((i + 1) mod length bindings) w1) as (w' & Hrun & Hcur & Hmap');
      [by subst w1 | by (subst w1; simpl; rewrite lookup_insert_eq) | exact Hnext |].
    exists w'. split; [|split].
    + cbn [endpoints_of]. unfold mbind at 1, M_bind at 1.
      rewrite (chat_completions_endpoint_step name bindings i chosen w) by done.
      fold w1. unfold mbind, M_bind. rewrite Hrun. unfold mret, M_ret.
      f_equal. f_equal. cbn [seq map]. rewrite Nat.add_0_r.
      rewrite (Nat.mod_small i) by exact Hi.
      rewrite Hchosen. f_equal.
      rewrite <- seq_shift, map_map. apply map_ext. intros j. f_equal.
      rewrite Nat.Div0.add_mod_idemp_l. f_equal. lia.
    + rewrite Hcur. destruct k as [|k'].
      * subst w1. simpl. rewrite lookup_insert_eq. done.
      * f_equal. rewrite Nat.Div0.add_mod_idemp_l. f_equal. lia.
    + by rewrite Hmap'.
Qed.

Lemma round_robin_hands_out_in_list_order_witness :
  exists w',
    endpoints_of (PStr "m2") 6 Scenario.round_robin =
      (Return (map (fun j => [Scenario.binding "B1"; Scenario.binding "B2";
                              Scenario.binding "B3"] !! ((0 + j) mod 3)) (seq 0 6)), w') /\
    MODEL_ROUND_ROBIN_INDEX w' !! "m2" = Some ((0 + 6) mod 3) /\
    MODEL_ENDPOINT_MAP w' = MODEL_ENDPOINT_MAP Scenario.round_robin.
Proof.
  apply (round_robin_hands_out_in_list_order "m2"
           [Scenario.binding "B1"; Scenario.binding "B2"; Scenario.binding "B3"]
           0 6 Scenario.round_robin); [discriminate | reflexivity | reflexivity | simpl; lia].
Defined.

(** For a model mapped to a list whose first entry is an object, with an
    entry in [models.json], if any, as [load_model_map] stores it, the model
    type can be told. *)
Lemma model_type_of_list (name : string) (first : PyDict.t pyval) (rest : list pyval)
    (w : world) :
  MODEL_ENDPOINT_MAP w !! name = Some (PList (PDict first :: rest)) ->
  (forall v, MODEL_NAME_TO_ID_MAP w !! name = Some v -> exists info, v = PDict info) ->
  exists model_type, model_type_of (PStr name) w = (Return model_type, w).
Proof.
  intros Hmap Hinfo. unfold model_type_of, mbind, M_bind, read. cbv beta iota.
  cbn [hashable negb lookup_model]. rewrite Hmap. cbn [type_in].
  unfold mret, M_ret. cbv beta iota.
  destruct (PyDict.mem "type" first); [by eexists|].
  destruct (MODEL_NAME_TO_ID_MAP w !! name) as [v|] eqn:Hv; [|by eexists].
  destruct (Hinfo v eq_refl) as [info ->]. by eexists.
Qed.

(** X8. A cursor that points past the end of a list of endpoint objects (the
    list was shortened by a hot reload of [model_endpoint_map.json]) is never
    repaired: [chat_completions] raises [IndexError] before it moves the
    cursor, so nothing in the state changes, and the next request for the
    model meets the same error. *)
Theorem stale_cursor_fails_every_request (P : MessageConverter.pipeline) (now : Q)
    (deadline : option Q) (refreshing : bool) (request_id created_at : string)
    (bearer : option string) (openai_req : PyDict.t pyval)
    (name : string) (bindings : list pyval) (i : nat) (w : world) :
  cooldown_gate now deadline w = (Return tt, w) ->
  PyDict.get "model" openai_req = Some (PStr name) ->
  name <> "" ->
  MODEL_ENDPOINT_MAP w !! name = Some (PList bindings) ->
  bindings <> [] ->
  Forall (fun binding => exists fields, binding = PDict fields) bindings ->
  (forall v, MODEL_NAME_TO_ID_MAP w !! name = Some v -> exists info, v = PDict info) ->
  MODEL_ROUND_ROBIN_INDEX w !! name = Some i ->
  length bindings <= i ->
  chat_completions P now deadline refreshing request_id created_at bearer openai_req w =
    (Raise (IndexError "list index out of range"), w).
Proof.
  intros Hgate Hmodel Hname Hmap Hne Hobj Hinfo Hidx Hi.
  destruct bindings as [|e es]; [done|].
  assert ((e :: es) !! i = None) as Hout by (by apply lookup_ge_None_2).
  apply Forall_cons in Hobj as [[first ->] _].
  destruct (model_type_of_list name first es w Hmap Hinfo) as [model_type Hmt].
  unfold chat_completions. unfold mbind at 1, M_bind at 1. rewrite Hgate.
  rewrite Hmodel. cbn [default from_option id].
  unfold mbind at 1, M_bind at 1. rewrite Hmt. clear Hmt Hinfo.
  destruct w as [cfg mem mnm rr ver bc bws cnt chans qs md hd tr].
  cbn [MODEL_ENDPOINT_MAP MODEL_ROUND_ROBIN_INDEX trace] in *.
  apply String.eqb_neq in Hname.
  assert (init_cursor name rr = rr) as Hinit
    by (unfold init_cursor; rewrite decide_True by eauto; done).
  unfold chat_completions_endpoint, lookup_model, py_index.
  unfold mbind, M_bind, read, modify, raise.
  cbn -[Nat.modulo length lookup insert init_cursor].
  rewrite Hmap, Hname. world_norm. rewrite Hinit, Hidx.
  cbn [default from_option id]. rewrite Hout. reflexivity.
Qed.

Lemma stale_cursor_fails_every_request_witness :
  chat_completions MessageConverter.plain_pipeline 0 None false "R1" "t" None
    [("model", PStr "m2")]
    (with_round_robin (fun _ => {["m2" := 3]}) Scenario.round_robin) =
    (Raise (IndexError "list index out of range"),
     with_round_robin (fun _ => {["m2" := 3]}) Scenario.round_robin).
Proof.
  apply (stale_cursor_fails_every_request MessageConverter.plain_pipeline 0 None false
           "R1" "t" None [("model", PStr "m2")] "m2"
           [Scenario.binding "B1"; Scenario.binding "B2"; Scenario.binding "B3"] 3);
    [reflexivity | reflexivity | discriminate | reflexivity | discriminate
    | repeat constructor; by eexists | intros v Hv; discriminate Hv
    | reflexivity | simpl; lia].
Defined.

End CursorTheorems.
(** ** Insertion-ordered dictionaries *)

Section PyDictFacts.
Context {V : Type}.

Lemma PyDict_get_set_eq (k : string) (v : V) (d : PyDict.t V) :
  PyDict.get k (PyDict.set k v d) = Some v.
Proof.
  induction d as [|[k' v'] d IH]; simpl.
  - by rewrite String.eqb_refl.
  - destruct (String.eqb k k') eqn:E; simpl; [by rewrite String.eqb_refl|].
    by rewrite E.
Qed.

Lemma PyDict_get_set_ne (k k0 : string) (v : V) (d : PyDict.t V) :
  k0 <> k -> PyDict.get k0 (PyDict.set k v d) = PyDict.get k0 d.
Proof.
  intros Hne. induction d as [|[k' v'] d IH]; simpl.
  - by apply String.eqb_neq in Hne as ->.
  - destruct (String.eqb k k') eqn:E; simpl.
    + apply String.eqb_eq in E as <-. by apply String.eqb_neq in Hne as ->.
    + by rewrite IH.
Qed.

Lemma PyDict_keys_set_present (k : string) (v : V) (d : PyDict.t V) :
  is_Some (PyDict.get k d) -> PyDict.keys (PyDict.set k v d) = PyDict.keys d.
Proof.
  unfold PyDict.keys. induction d as [|[k' v'] d IH]; simpl.
  - by intros [? [=]].
  - destruct (String.eqb k k') eqn:E; simpl.
    + apply String.eqb_eq in E as ->. done.
    + intros H. by rewrite IH.
Qed.

End PyDictFacts.

(** ** The temperature cap, in general *)

Section TemperatureTheorems.
Import Runtime.
Import ApiRoutes.

(** X9. When the binding sets a numeric [max_temperature] and the request
    carries a numeric temperature, the request that goes on has a
    temperature that exceeds neither the cap nor what was asked for (it is
    the cap when the request was above it, and the request's own value
    otherwise); every other field, and the order of the fields, is as it
    was. *)
Theorem temperature_limit_is_a_minimum (cap original : pyval) (c t : Q)
    (openai_req : PyDict.t pyval) (w : world) :
  py_num cap = Some c ->
  PyDict.get "temperature" openai_req = Some original ->
  py_num original = Some t ->
  exists req' temp' t',
    apply_temperature_limit cap openai_req w = (Return req', w) /\
    PyDict.get "temperature" req' = Some temp' /\
    py_num temp' = Some t' /\
    (t' <= c)%Q /\ (t' <= t)%Q /\ (temp' = cap \/ temp' = original) /\
    (forall k, k <> "temperature" -> PyDict.get k req' = PyDict.get k openai_req) /\
    PyDict.keys req' = PyDict.keys openai_req.
Proof.
  intros Hcap Htemp Ht.
  unfold apply_temperature_limit, py_gt. rewrite Htemp.
  destruct cap; try discriminate Hcap; rewrite Ht, Hcap;
    unfold mbind, M_bind, mret, M_ret;
    (destruct (Qle_bool t c) eqn:Hle; cbn [negb];
     [ exists openai_req, original, t; apply Qle_bool_iff in Hle;
       repeat split; try done; try lra; by right
     | match goal with
       | |- context [PyDict.set "temperature" ?cap openai_req] =>
           exists (PyDict.set "temperature" cap openai_req), cap, c
       end;
       assert (~ (t <= c)%Q) as Hgt by (rewrite <- Qle_bool_iff; congruence);
       split; [done|]; split; [apply PyDict_get_set_eq|]; split; [done|];
       split; [lra|]; split; [lra|]; split; [by left|];
       split; [intros k Hk; by apply PyDict_get_set_ne|];
       apply PyDict_keys_set_present; by eexists ]).
Qed.

Lemma temperature_limit_is_a_minimum_witness :
  exists req' temp' t',
    apply_temperature_limit (PFloat (7 # 10)) Scenario.hot_request Scenario.capped =
      (Return req', Scenario.capped) /\
    PyDict.get "temperature" req' = Some temp' /\
    py_num temp' = Some t' /\
    (t' <= 7 # 10)%Q /\ (t' <= 3 # 2)%Q /\
    (temp' = PFloat (7 # 10) \/ temp' = PFloat (3 # 2)) /\
    (forall k, k <> "temperature" ->
       PyDict.get k req' = PyDict.get k Scenario.hot_request) /\
    PyDict.keys req' = PyDict.keys Scenario.hot_request.
Proof.
  apply (temperature_limit_is_a_minimum (PFloat (7 # 10)) (PFloat (3 # 2)) (7 # 10) (3 # 2)
           Scenario.hot_request Scenario.capped); reflexivity.
Defined.

(** X10. The cap is compared with [>]: a request whose temperature is not a
    number ([null], a string, a list) sent to a model with a numeric cap
    makes the comparison raise [TypeError], and nothing is changed; without
    a cap the same request passes as it is. *)
Theorem temperature_limit_compares_numbers_only (cap original : pyval) (c : Q)
    (openai_req : PyDict.t pyval) (w : world) :
  py_num cap = Some c ->
  PyDict.get "temperature" openai_req = Some original ->
  py_num original = None ->
  (exists msg, apply_temperature_limit cap openai_req w = (Raise (TypeError msg), w)) /\
  apply_temperature_limit PNone openai_req w = (Return openai_req, w).
Proof.
  intros Hcap Htemp Hnum. unfold apply_temperature_limit, py_gt. rewrite Htemp, Hnum.
  split; [|done]. destruct cap; try discriminate Hcap; by eexists.
Qed.

Lemma temperature_limit_compares_numbers_only_witness :
  (exists msg,
     apply_temperature_limit (PFloat (7 # 10)) [("temperature", PNone)] Scenario.capped =
       (Raise (TypeError msg), Scenario.capped)) /\
  apply_temperature_limit PNone [("temperature", PNone)] Scenario.capped =
    (Return [("temperature", PNone)], Scenario.capped).
Proof.
  apply (temperature_limit_compares_numbers_only (PFloat (7 # 10)) PNone (7 # 10)
           [("temperature", PNone)] Scenario.capped); reflexivity.
Defined.

End TemperatureTheorems.
(** ** The API key check *)

Section AuthTheorems.
Import Runtime.
Import ApiRoutes.

(** X11. With an API key configured, a request that has passed the
    cool-down gate, whose model type could be told and which has come through
    the multi-endpoint step (a model name that is a list or an object, or a
    list mapping whose first entry cannot be searched, raises [TypeError]
    before), for a model that is not a direct-API model, and that brings no
    key, or a wrong one, is answered with 401 before a channel is opened or
    anything is sent to a tab. The state it leaves is the one after the
    multi-endpoint step: for a model mapped to a list, the round-robin cursor
    has already moved. *)
Theorem wrong_key_is_turned_away (P : MessageConverter.pipeline) (now : Q)
    (deadline : option Q) (refreshing : bool) (request_id created_at : string)
    (bearer : option string) (openai_req : PyDict.t pyval) (model_type : pyval)
    (endpoint_config : option pyval) (w w1 : world) :
  cooldown_gate now deadline w = (Return tt, w) ->
  model_type_of (default PNone (PyDict.get "model" openai_req)) w =
    (Return model_type, w) ->
  chat_completions_endpoint (default PNone (PyDict.get "model" openai_req)) w =
    (Return endpoint_config, w1) ->
  is_direct_api_mode endpoint_config = false ->
  truthy (get_or "api_key" PNone (CONFIG w)) = true ->
  (forall provided_key, bearer = Some provided_key ->
     MessageConverter.py_eq_str (get_or "api_key" PNone (CONFIG w)) provided_key = false) ->
  exists detail,
    chat_completions P now deadline refreshing request_id created_at bearer openai_req w =
      (Raise (HTTPException 401 detail), w1).
Proof.
  intros Hgate Htype Hstep Hdirect Hkey Hwrong.
  unfold chat_completions. unfold mbind at 1, M_bind at 1. rewrite Hgate.
  unfold mbind at 1, M_bind at 1. rewrite Htype.
  unfold mbind at 1, M_bind at 1, read. cbv beta iota.
  unfold mbind at 1, M_bind at 1. rewrite Hstep. cbv beta iota zeta.
  rewrite Hdirect, Hkey. cbn [andb negb].
  unfold mbind at 1, M_bind at 1.
  destruct bearer as [provided_key|].
  - rewrite (Hwrong provided_key eq_refl). by eexists.
  - by eexists.
Qed.

Lemma wrong_key_is_turned_away_witness :
  exists detail,
    chat_completions MessageConverter.plain_pipeline 0 None false "R1" "t" (Some "guess")
      [("model", PStr "m2")] MoreScenarios.keyed =
      (Raise (HTTPException 401 detail),
       with_round_robin (fun idx => <["m2" := 1]> idx) MoreScenarios.keyed).
Proof.
  apply (wrong_key_is_turned_away MessageConverter.plain_pipeline 0 None false "R1" "t"
           (Some "guess") [("model", PStr "m2")] (PStr "text")
           (Some (Scenario.binding "B1")) MoreScenarios.keyed);
    [reflexivity | | | reflexivity | reflexivity |].
  - vm_compute. reflexivity.
  - vm_compute. reflexivity.
  - intros provided_key [= <-]. reflexivity.
Defined.

End AuthTheorems.
(** ** Comments in [config.jsonc] *)

Section JsoncTheorems.
Import ThinkingSeparator.
Import Jsonc.

Lemma scan_without_slash (in_string escape_next : bool) (line : text) :
  slash ∉ line -> scan in_string escape_next line = line.
Proof.
  revert in_string escape_next.
  induction line as [|c rest IH]; intros in_string escape_next Hno; [done|].
  assert (c <> slash) as Hc by (intros ->; apply Hno, list_elem_of_here).
  assert (slash ∉ rest) as Hrest by (intros ?; by apply Hno, list_elem_of_further).
  cbn [scan]. destruct escape_next; [by rewrite IH|].
  destruct (Ascii.eqb c backslash); [by rewrite IH|].
  destruct (Ascii.eqb c quote); [by rewrite IH|].
  apply Ascii.eqb_neq in Hc. rewrite Hc. cbn [andb]. by rewrite IH.
Qed.

Lemma contains_first (c : ascii) (sep s : text) :
  contains (c :: sep) s = true -> c ∈ s.
Proof.
  unfold contains. destruct (find (c :: sep) s) as [i|] eqn:F; [|done]. intros _.
  apply find_Some in F as [Hstart _]. apply startswith_decompose in Hstart.
  rewrite <- (take_drop i s), Hstart. apply elem_of_app. right. apply list_elem_of_here.
Qed.

Lemma contains_without_first (c : ascii) (sep s : text) :
  c ∉ s -> contains (c :: sep) s = false.
Proof.
  intros Hno. destruct (contains (c :: sep) s) eqn:E; [|done].
  by apply contains_first in E.
Qed.

(** X12. A text in which no line contains a slash has no comment to lose:
    [_parse_jsonc] hands [json.loads] exactly its lines, in order, without
    the blank ones. *)
Theorem jsonc_without_slashes_keeps_its_lines (lines : list text) :
  Forall (fun line => slash ∉ line) lines ->
  no_comments_lines lines = List.filter nonblank lines.
Proof.
  unfold no_comments_lines. induction 1 as [|line rest Hline Hrest IH]; [done|].
  cbn [strip_lines List.filter andb].
  rewrite (contains_without_first slash [star] line Hline).
  rewrite scan_without_slash by done. rewrite IH.
  by destruct (nonblank line).
Qed.

Lemma jsonc_without_slashes_keeps_its_lines_witness :
  no_comments_lines
    [list_ascii_of_string "{"; list_ascii_of_string "  ";
     list_ascii_of_string "  'api_key': 'secret'"; list_ascii_of_string "}"] =
  List.filter nonblank
    [list_ascii_of_string "{"; list_ascii_of_string "  ";
     list_ascii_of_string "  'api_key': 'secret'"; list_ascii_of_string "}"].
Proof.
  apply jsonc_without_slashes_keeps_its_lines.
  repeat constructor; vm_compute; intros Hin;
    repeat (apply elem_of_cons in Hin as [Hin|Hin]; [discriminate Hin|]);
    by apply elem_of_nil in Hin.
Defined.

(** Outside a string literal, plain characters are copied. *)
Lemma scan_plain (pre rest : text) :
  Forall (fun c => c <> quote /\ c <> backslash /\ c <> slash) pre ->
  scan false false (pre ++ rest) = pre ++ scan false false rest.
Proof.
  induction 1 as [|c pre (Hq & Hb & Hs) Hpre IH]; [done|].
  cbn [app scan].
  apply Ascii.eqb_neq in Hq, Hb, Hs. rewrite Hq, Hb, Hs. cbn [andb]. by rewrite IH.
Qed.

(** Inside a string literal everything up to the closing quote is copied,
    slashes included. *)
Lemma scan_string_body (body rest : text) :
  Forall (fun c => c <> quote /\ c <> backslash) body ->
  scan true false (body ++ quote :: rest) = body ++ quote :: scan false false rest.
Proof.
  induction 1 as [|c body (Hq & Hb) Hbody IH].
  - reflexivity.
  - cbn [app scan].
    apply Ascii.eqb_neq in Hq, Hb. rewrite Hq, Hb.
    rewrite andb_false_r. by rewrite IH.
Qed.

(** X13. On a line made of plain text, a string literal, more plain text and
    a [//] comment, the comment is cut and the rest is kept as it is, whatever
    slashes the string literal contains: a URL inside a value survives. *)
Theorem line_comment_is_cut_outside_strings (pre body mid comment : text) :
  Forall (fun c => c <> quote /\ c <> backslash /\ c <> slash) pre ->
  Forall (fun c => c <> quote /\ c <> backslash) body ->
  Forall (fun c => c <> quote /\ c <> backslash /\ c <> slash) mid ->
  scan false false (pre ++ quote :: body ++ quote :: mid ++ slash :: slash :: comment) =
    pre ++ quote :: body ++ quote :: mid.
Proof.
  intros Hpre Hbody Hmid.
  rewrite scan_plain by done. cbn [scan]. f_equal. f_equal.
  change (negb false) with true.
  rewrite scan_string_body by done. f_equal. f_equal.
  rewrite scan_plain by done. cbn [scan]. by rewrite app_nil_r.
Qed.

Lemma line_comment_is_cut_outside_strings_witness :
  scan false false
    (list_ascii_of_string "  'url': " ++
     quote :: list_ascii_of_string "http://localhost:5102/v1" ++
     quote :: list_ascii_of_string ", " ++
     slash :: slash :: list_ascii_of_string " the address") =
  list_ascii_of_string "  'url': " ++
  quote :: list_ascii_of_string "http://localhost:5102/v1" ++
  quote :: list_ascii_of_string ", ".
Proof.
  apply (line_comment_is_cut_outside_strings
           (list_ascii_of_string "  'url': ")
           (list_ascii_of_string "http://localhost:5102/v1")
           (list_ascii_of_string ", ")
           (list_ascii_of_string " the address"));
    repeat constructor; discriminate.
Defined.

End JsoncTheorems.
(** ** Reloading, again and again *)

Section ReloadTheorems.
Import ConfigLoader.

Lemma clear_update_eq (d : gmap string pyval) : clear_update d = d.
Proof. unfold clear_update. by rewrite (right_id_L ∅ (∪)). Qed.

Lemma store_eq (a b : store) :
  CONFIG a = CONFIG b -> MODEL_ENDPOINT_MAP a = MODEL_ENDPOINT_MAP b ->
  CONFIG_FILE_MTIMES a = CONFIG_FILE_MTIMES b -> a = b.
Proof. destruct a, b. simpl. by intros -> -> ->. Qed.

(** X14. Reloading is idempotent: calling [load_config] (or
    [load_model_endpoint_map]) a second time on the same file, forced or
    not, gives the store the first call gave, whether the file is missing,
    unreadable, malformed or well formed. *)
Theorem reload_is_idempotent (force : bool) (fs : file_view) (st : store) :
  load_config force fs (load_config force fs st) = load_config force fs st /\
  load_model_endpoint_map force fs (load_model_endpoint_map force fs st) =
    load_model_endpoint_map force fs st.
Proof.
  split.
  - unfold load_config at 2 3.
    destruct (getmtime fs) as [m|] eqn:Hm.
    + destruct (negb force && (m =? mtime_of "config.jsonc" st)%Z) eqn:Hsame.
      * unfold load_config. by rewrite Hm, Hsame.
      * destruct (content fs) as [| | |d] eqn:Hc;
          unfold load_config; rewrite Hm, Hc; unfold mtime_of; cbn [CONFIG_FILE_MTIMES];
          try (fold (mtime_of "config.jsonc" st); rewrite Hsame; done).
        rewrite lookup_insert_eq. cbn [default from_option id]. rewrite Z.eqb_refl.
        destruct force; cbn [negb andb]; [|done].
        apply store_eq; cbn [CONFIG MODEL_ENDPOINT_MAP CONFIG_FILE_MTIMES]; try done.
        by rewrite insert_insert_eq.
    + unfold load_config. by rewrite Hm.
  - unfold load_model_endpoint_map at 2 3.
    destruct (getmtime fs) as [m|] eqn:Hm.
    + destruct (negb force && (m =? mtime_of "model_endpoint_map.json" st)%Z) eqn:Hsame.
      * unfold load_model_endpoint_map. by rewrite Hm, Hsame.
      * destruct (content fs) as [| | |d] eqn:Hc;
          unfold load_model_endpoint_map; rewrite Hm, Hc; unfold mtime_of;
          cbn [CONFIG_FILE_MTIMES];
          try (fold (mtime_of "model_endpoint_map.json" st); rewrite Hsame; done);
          rewrite lookup_insert_eq; cbn [default from_option id]; rewrite Z.eqb_refl;
          (destruct force; cbn [negb andb]; [|done]);
          apply store_eq; cbn [CONFIG MODEL_ENDPOINT_MAP CONFIG_FILE_MTIMES]; try done;
          by rewrite insert_insert_eq.
    + unfold load_model_endpoint_map. by rewrite Hm.
Qed.

(** X15. A reload that is due (forced, or the modification time differs
    from the recorded one) and whose file parses installs the file's object
    as the whole configuration: keys the file no longer has are gone, the
    endpoint map is not touched, and the new modification time is recorded. *)
Theorem reload_replaces_the_configuration (force : bool) (fs : file_view) (st : store)
    (m : Z) (d : gmap string pyval) :
  getmtime fs = Some m ->
  content fs = Object d ->
  force = true \/ m <> mtime_of "config.jsonc" st ->
  CONFIG (load_config force fs st) = d /\
  MODEL_ENDPOINT_MAP (load_config force fs st) = MODEL_ENDPOINT_MAP st /\
  mtime_of "config.jsonc" (load_config force fs st) = m /\
  (forall key, d !! key = None -> CONFIG (load_config force fs st) !! key = None).
Proof.
  intros Hm Hc Hdue. unfold load_config. rewrite Hm, Hc.
  assert (negb force && (m =? mtime_of "config.jsonc" st)%Z = false) as ->.
  { destruct Hdue as [->|Hne]; [done|]. apply andb_false_iff. right.
    by apply Z.eqb_neq. }
  cbn [CONFIG MODEL_ENDPOINT_MAP]. rewrite clear_update_eq.
  split; [done|]. split; [done|]. split; [|done].
  unfold mtime_of. cbn [CONFIG_FILE_MTIMES]. by rewrite lookup_insert_eq.
Qed.

Lemma reload_replaces_the_configuration_witness :
  CONFIG (load_config false {| getmtime := Some 20%Z;
                               content := Object {["api_key" := PStr "new"]} |} running) =
    {["api_key" := PStr "new"]} /\
  MODEL_ENDPOINT_MAP
    (load_config false {| getmtime := Some 20%Z;
                          content := Object {["api_key" := PStr "new"]} |} running) =
    MODEL_ENDPOINT_MAP running /\
  mtime_of "config.jsonc"
    (load_config false {| getmtime := Some 20%Z;
                          content := Object {["api_key" := PStr "new"]} |} running) = 20%Z /\
  (forall key, ({["api_key" := PStr "new"]} : gmap string pyval) !! key = None ->
     CONFIG (load_config false {| getmtime := Some 20%Z;
                                  content := Object {["api_key" := PStr "new"]} |} running)
       !! key = None).
Proof.
  apply (reload_replaces_the_configuration false
           {| getmtime := Some 20%Z; content := Object {["api_key" := PStr "new"]} |}
           running 20%Z {["api_key" := PStr "new"]});
    [reflexivity | reflexivity | right; vm_compute; discriminate].
Defined.

End ReloadTheorems.
(** ** The file watcher *)

Section WatcherTheorems.
Import ConfigLoader.
Import Monitors.

(** X16. While [config.jsonc] is missing the watcher passes it over and the
    configuration in use stays, whereas a direct call of [load_config]
    (start-up, the admin routes) on the missing file empties it. *)
Theorem watcher_keeps_configuration_of_a_missing_file (force : bool) (fs : files)
    (st : stores) :
  getmtime (config_jsonc fs) = None ->
  CONFIG (loaded (config_monitor_round fs st)) = CONFIG (loaded st) /\
  CONFIG (load_config force (config_jsonc fs) (loaded st)) = ∅.
Proof.
  intros Hmissing. split.
  - unfold config_monitor_round. rewrite Hmissing.
    destruct (getmtime (model_endpoint_map_json fs)) as [m|];
      destruct (getmtime (models_json fs)) as [m'|];
      repeat match goal with
             | |- context [if ?b then _ else _] => destruct b
             end;
      cbn [loaded CONFIG]; try done;
      unfold load_model_endpoint_map;
      repeat match goal with
             | |- context [match ?x with _ => _ end] => destruct x
             end; done.
  - unfold load_config. by rewrite Hmissing.
Qed.

Lemma watcher_keeps_configuration_of_a_missing_file_witness :
  CONFIG (loaded (config_monitor_round
                    {| config_jsonc := {| getmtime := None; content := Missing |};
                       model_endpoint_map_json := broken_edit;
                       models_json := broken_edit |}
                    {| loaded := running; MODEL_NAME_TO_ID_MAP := ∅ |})) =
    CONFIG (loaded {| loaded := running; MODEL_NAME_TO_ID_MAP := ∅ |}) /\
  CONFIG (load_config false {| getmtime := None; content := Missing |}
            (loaded {| loaded := running; MODEL_NAME_TO_ID_MAP := ∅ |})) = ∅.
Proof.
  apply (watcher_keeps_configuration_of_a_missing_file false
           {| config_jsonc := {| getmtime := None; content := Missing |};
              model_endpoint_map_json := broken_edit;
              models_json := broken_edit |}
           {| loaded := running; MODEL_NAME_TO_ID_MAP := ∅ |}).
  reflexivity.
Defined.

End WatcherTheorems.

(** ** Entries of [models.json] *)

Section ModelMapTheorems.
Import ModelMap.

Lemma split_colon_first (id type : string) :
  ~ In ":"%char (list_ascii_of_string id) ->
  split_colon (id +:+ ":" +:+ type) = Some (id, type).
Proof.
  induction id as [|c id IH]; intros Hno; simpl.
  - reflexivity.
  - simpl in Hno. destruct (Ascii.eqb c ":") eqn:E.
    + apply Ascii.eqb_eq in E. exfalso. apply Hno. by left.
    + rewrite IH; [done|]. intros ?. apply Hno. by right.
Qed.

(** X17. An entry of [models.json] written [id:type] is split at its first
    colon: the type is everything after it (further colons included), and an
    id that reads [null] in any capitalisation is stored as [None]. The
    stored map has exactly the names of the file, whatever was stored
    before. *)
Theorem model_entry_splits_at_first_colon (id type : string)
    (raw old : gmap string pyval) (name : string) :
  ~ In ":"%char (list_ascii_of_string id) ->
  raw !! name = Some (PStr (id +:+ ":" +:+ type)) ->
  load_model_map (ConfigLoader.Object raw) old !! name =
    Some (PDict [ ("id", if String.eqb (MessageConverter.lower id) "null"
                         then PNone else PStr id);
                  ("type", PStr type) ]) /\
  dom (load_model_map (ConfigLoader.Object raw) old) = dom raw.
Proof.
  intros Hid Hraw. unfold load_model_map. split; [|apply dom_fmap_L].
  rewrite lookup_fmap, Hraw. cbn [fmap option_fmap option_map process_entry].
  by rewrite split_colon_first.
Qed.

Lemma model_entry_splits_at_first_colon_witness :
  load_model_map (ConfigLoader.Object {["painter" := PStr "NULL:image:v2"]}) ∅ !! "painter" =
    Some (PDict [ ("id", PNone); ("type", PStr "image:v2") ]) /\
  dom (load_model_map (ConfigLoader.Object {["painter" := PStr "NULL:image:v2"]}) ∅) =
    dom ({["painter" := PStr "NULL:image:v2"]} : gmap string pyval).
Proof.
  apply (model_entry_splits_at_first_colon "NULL" "image:v2"
           {["painter" := PStr "NULL:image:v2"]} ∅ "painter"); [|reflexivity].
  simpl. intros [H|[H|[H|[H|[]]]]]; discriminate H.
Defined.

End ModelMapTheorems.
(** ** The image pipeline beyond the cache hit *)

Section ImageTheorems.
Import ImageService.

Lemma PyDict_set_absent {V} (k : string) (v : V) (d : PyDict.t V) :
  PyDict.get k d = None -> PyDict.set k v d = d ++ [(k, v)].
Proof.
  induction d as [|[k' v'] d IH]; simpl; [done|].
  destruct (String.eqb k k'); [done|]. intros H. by rewrite IH.
Qed.

Lemma PyDict_get_app_absent {V} (k : string) (d1 d2 : PyDict.t V) :
  PyDict.get k d1 = None -> PyDict.get k (d1 ++ d2) = PyDict.get k d2.
Proof.
  induction d1 as [|[k' v'] d1 IH]; simpl; [done|].
  destruct (String.eqb k k'); [done|]. apply IH.
Qed.

Lemma PyDict_get_tail_absent {V} (k : string) (d : PyDict.t V) :
  PyDict.get k d = None -> PyDict.get k (tail d) = None.
Proof.
  destruct d as [|[k' v'] d]; simpl; [done|]. by destruct (String.eqb k k').
Qed.

(** Storing a result for a hash that is not in the cache leaves it there,
    also when the oldest entry has to go. *)
Lemma cache_store_keeps_the_new_entry (evict : bool) (cache_config : PyDict.t pyval)
    (max_size : Q)
    (h value : string) (now : Q) (st : image_state) (cache : PyDict.t (string * Q)) :
  PROCESSED_IMAGE_CACHE st = Some cache ->
  PyDict.get h cache = None ->
  h <> "" ->
  py_num (default (PInt 200) (PyDict.get "max_size" cache_config)) = Some max_size ->
  (1 <= max_size)%Q ->
  exists st1 cache',
    cache_store evict true cache_config (Some h) value now st = (None, st1) /\
    PROCESSED_IMAGE_CACHE st1 = Some cache' /\
    PyDict.get h cache' = Some (value, now).
Proof.
  intros Hc Hmiss Hh Hnum Hmax. unfold cache_store. rewrite Hc.
  apply String.eqb_neq in Hh. rewrite Hh.
  rewrite (PyDict_set_absent h (value, now) cache Hmiss), Hnum.
  assert (PyDict.get h (cache ++ [(h, (value, now))]) = Some (value, now)) as Hnew.
  { rewrite PyDict_get_app_absent by done. simpl. by rewrite String.eqb_refl. }
  destruct evict; [|by eexists _, _].
  destruct (negb (Qle_bool _ max_size)) eqn:Hbig; [|by eexists _, _].
  eexists _, _. split; [done|]. split; [done|].
  destruct cache as [|entry cache'].
  - exfalso. apply negb_true_iff in Hbig. simpl in Hbig.
    apply Qle_bool_iff in Hmax.
    change (inject_Z (Z.of_nat 1)) with 1%Q in Hbig. congruence.
  - cbn [app tail].
    rewrite PyDict_get_app_absent.
    + simpl. by rewrite String.eqb_refl.
    + by apply (PyDict_get_tail_absent h (entry :: cache')).
Qed.

(** X18. With the cache on, the file bed off and settings of the types the
    code takes them to have ([processed_image_cache] an object with numbers
    for [max_size], at least 1, and [ttl_seconds]; [image_optimization] an
    object or a value that counts as false), an image that decodes and is
    not in the cache is processed, and the result is stored: asking for the
    same image again before the time to live has run out returns the same
    result and does no further work (no second decode or optimisation). *)
Theorem processed_image_is_cached_for_next_time (T : toolbox) (now later : Q)
    (base64_data filename : string) (CONFIG : gmap string pyval)
    (FILEBED_RECOVERY_TIME : Q) (model_image_config : pyval) (st : image_state)
    (cache_config : PyDict.t pyval) (max_size ttl : Q)
    (cache : PyDict.t (string * Q)) (image_bytes image_format : string) :
  Runtime.get_or "processed_image_cache" (PDict []) CONFIG = PDict cache_config ->
  truthy (default (PBool true) (PyDict.get "enabled" cache_config)) = true ->
  py_num (default (PInt 200) (PyDict.get "max_size" cache_config)) = Some max_size ->
  (1 <= max_size)%Q ->
  py_num (default (PInt 3600) (PyDict.get "ttl_seconds" cache_config)) = Some ttl ->
  ((exists settings,
      Runtime.get_or "image_optimization" (PDict []) CONFIG = PDict settings) \/
   truthy (Runtime.get_or "image_optimization" (PDict []) CONFIG) = false) ->
  truthy (Runtime.get_or "file_bed_enabled" (PBool false) CONFIG) = false ->
  PROCESSED_IMAGE_CACHE st = Some cache ->
  PyDict.get (calculate_image_hash T base64_data) cache = None ->
  calculate_image_hash T base64_data <> "" ->
  decode_base64_image T base64_data = inl (image_bytes, image_format) ->
  (later - now < ttl)%Q ->
  exists processed st1,
    process_image_data T now base64_data filename CONFIG FILEBED_RECOVERY_TIME
      model_image_config st = (Returns processed None, st1) /\
    process_image_data T later base64_data filename CONFIG FILEBED_RECOVERY_TIME
      model_image_config st1 = (Returns processed None, st1).
Proof.
  intros Hcfg Hen Hnum Hmax Httl Hopt Hbed Hc Hmiss Hh Hdec Hfresh.
  assert (forall processed st1 cache1,
            PROCESSED_IMAGE_CACHE st1 = Some cache1 ->
            PyDict.get (calculate_image_hash T base64_data) cache1 = Some (processed, now) ->
            process_image_data T later base64_data filename CONFIG FILEBED_RECOVERY_TIME
              model_image_config st1 = (Returns processed None, st1)) as Hhit.
  { intros processed st1 cache1 Hc1 Hget.
    by apply (cache_hit_after T later base64_data filename CONFIG FILEBED_RECOVERY_TIME
                model_image_config st1 cache_config ttl cache1 processed now). }
  unfold process_image_data at 1.
  rewrite Hcfg, Hen, (merged_optimization_config_typed _ model_image_config Hopt).
  rewrite Hbed, Hc, Hmiss, Hdec.
  set (optimization_config := merge_image_config _ _).
  assert (forall value st0,
            PROCESSED_IMAGE_CACHE st0 = Some cache ->
            exists st1,
              cache_store true true cache_config (Some (calculate_image_hash T base64_data))
                value now st0 = (None, st1) /\
              process_image_data T later base64_data filename CONFIG FILEBED_RECOVERY_TIME
                model_image_config st1 = (Returns value None, st1)) as Hstore.
  { intros value st0 Hc0.
    destruct (cache_store_keeps_the_new_entry true cache_config max_size
                (calculate_image_hash T base64_data) value now st0 cache
                Hc0 Hmiss Hh Hnum Hmax) as (st1 & cache' & Hs & Hc' & Hget').
    exists st1. split; [done|]. by apply (Hhit value st1 cache'). }
  assert (forall value st0,
            PROCESSED_IMAGE_CACHE st0 = Some cache ->
            exists processed st1,
              (match cache_store true true cache_config
                       (Some (calculate_image_hash T base64_data)) value now st0 with
               | (None, st) => (Returns value None, st)
               | (Some type_name, st) =>
                   (Returns base64_data (Some (processing_error type_name)), st)
               end) = (Returns processed None, st1) /\
              process_image_data T later base64_data filename CONFIG FILEBED_RECOVERY_TIME
                model_image_config st1 = (Returns processed None, st1)) as Hend.
  { intros value st0 Hc0. destruct (Hstore value st0 Hc0) as (st1 & -> & Hagain).
    by exists value, st1. }
  destruct (truthy (default (PBool false) (py_get "enabled" optimization_config))
            || _).
  - destruct (optimize_image T image_bytes optimization_config image_format)
      as [[optimized_data optimized_format]|opt_error]; by apply Hend.
  - by apply Hend.
Qed.

Lemma processed_image_is_cached_for_next_time_witness :
  exists processed st1,
    process_image_data plain_toolbox 10 "data:image/png;base64,BBBB" "b.png" ∅ 300 PNone
      cached_image = (Returns processed None, st1) /\
    process_image_data plain_toolbox 20 "data:image/png;base64,BBBB" "b.png" ∅ 300 PNone
      st1 = (Returns processed None, st1).
Proof.
  apply (processed_image_is_cached_for_next_time plain_toolbox 10 20
           "data:image/png;base64,BBBB" "b.png" ∅ 300 PNone cached_image [] 200 3600
           [("AAAA", ("https://files.example/a.png", 0%Q))] "BBBB" "png");
    [reflexivity | reflexivity | reflexivity | vm_compute; discriminate | reflexivity
    | left; by eexists | reflexivity | reflexivity | reflexivity | discriminate
    | reflexivity | vm_compute; reflexivity].
Defined.

Lemma PyDict_del_subset {V} (k : string) (d : PyDict.t V) (x : string * V) :
  x ∈ PyDict.del k d -> x ∈ d.
Proof.
  induction d as [|[k' v'] d IH]; simpl; [done|].
  destruct (String.eqb k k').
  - apply list_elem_of_further.
  - intros [->|Hin]%elem_of_cons; [apply list_elem_of_here|].
    by apply list_elem_of_further, IH.
Qed.

Lemma PyDict_get_elem {V} (k : string) (v : V) (d : PyDict.t V) :
  PyDict.get k d = Some v -> (k, v) ∈ d.
Proof.
  induction d as [|[k' v'] d IH]; simpl; [done|].
  destruct (String.eqb k k') eqn:E.
  - apply String.eqb_eq in E as ->. intros [= ->]. apply list_elem_of_here.
  - intros H. by apply list_elem_of_further, IH.
Qed.

(** X19. An image that cannot be decoded is never cached and never
    uploaded: whatever the configuration and the state of the cache, the call
    adds no entry to the cache and does no work beyond the attempt to decode.
    It answers with the data as they came and the decoder's error, unless
    the cache already held an unexpired result for that hash, which it
    returns, or a setting it reads before decoding has not the type the code
    takes it to have, in which case it raises and has done nothing. *)
Theorem undecodable_image_is_never_cached (T : toolbox) (now : Q)
    (base64_data filename : string) (CONFIG : gmap string pyval)
    (FILEBED_RECOVERY_TIME : Q) (model_image_config : pyval) (st : image_state)
    (decode_error : string) :
  decode_base64_image T base64_data = inr decode_error ->
  let r := process_image_data T now base64_data filename CONFIG FILEBED_RECOVERY_TIME
             model_image_config st in
  (forall entry, entry ∈ default [] (PROCESSED_IMAGE_CACHE (snd r)) ->
     entry ∈ default [] (PROCESSED_IMAGE_CACHE st)) /\
  (forall x, x ∈ work (snd r) -> x ∈ work st \/ x = Decode) /\
  (fst r = Returns base64_data (Some decode_error) \/
   (exists cached_data cache_time,
      (calculate_image_hash T base64_data, (cached_data, cache_time))
        ∈ default [] (PROCESSED_IMAGE_CACHE st) /\
      fst r = Returns cached_data None) \/
   (exists type_name, r = (Raises type_name, st))).
Proof.
  intros Hdec r. subst r. unfold process_image_data. rewrite Hdec.
  assert (forall x, x ∈ work (did Decode st) -> x ∈ work st \/ x = Decode) as Hwork.
  { intros x. simpl. rewrite elem_of_app, list_elem_of_singleton. tauto. }
  destruct (Runtime.get_or "processed_image_cache" (PDict []) CONFIG)
    as [| | | | | |cache_config];
    try (cbn [fst snd]; split; [done|]; split; [by left|]; right; right; by eexists).
  destruct (merged_optimization_config _ _) as [type_name|optimization_config];
    [cbn [fst snd]; split; [done|]; split; [by left|]; right; right; by eexists|].
  destruct (truthy (default (PBool true) (PyDict.get "enabled" cache_config)));
    [|cbn [fst snd]; split; [done|]; split; [done | by left]].
  destruct (PROCESSED_IMAGE_CACHE st) as [cache|] eqn:Hc;
    [|cbn [fst snd did PROCESSED_IMAGE_CACHE]; rewrite Hc;
      split; [done|]; split; [done | by left]].
  destruct (PyDict.get (calculate_image_hash T base64_data) cache)
    as [[cached_data cache_time]|] eqn:Hget.
  - destruct (py_num _) as [ttl|];
      [|cbn [fst snd]; rewrite Hc; split; [done|]; split; [by left|];
        right; right; by eexists].
    destruct (Qlt_le_dec _ _); cbn [fst snd did with_cache PROCESSED_IMAGE_CACHE default
                                    from_option id].
    + rewrite Hc. split; [done|]. split; [by left|]. right. left.
      exists cached_data, cache_time. split; [|done]. by apply PyDict_get_elem.
    + split; [intros entry; apply PyDict_del_subset|].
      split; [|by left]. exact Hwork.
  - cbn [fst snd did PROCESSED_IMAGE_CACHE]. rewrite Hc.
    split; [done|]. split; [done | by left].
Qed.

Lemma undecodable_image_is_never_cached_witness :
  (forall entry,
     entry ∈ default [] (PROCESSED_IMAGE_CACHE
                           (snd (process_image_data ImageScenarios.no_decoder 10
                                   "data:text/plain;base64,BBBB" "b.png" ∅ 300 PNone
                                   cached_image))) ->
     entry ∈ default [] (PROCESSED_IMAGE_CACHE cached_image)) /\
  (forall x,
     x ∈ work (snd (process_image_data ImageScenarios.no_decoder 10
                      "data:text/plain;base64,BBBB" "b.png" ∅ 300 PNone cached_image)) ->
     x ∈ work cached_image \/ x = Decode) /\
  (fst (process_image_data ImageScenarios.no_decoder 10 "data:text/plain;base64,BBBB"
          "b.png" ∅ 300 PNone cached_image) =
     Returns "data:text/plain;base64,BBBB" (Some "not an image") \/
   (exists cached_data cache_time,
      (calculate_image_hash ImageScenarios.no_decoder "data:text/plain;base64,BBBB",
       (cached_data, cache_time)) ∈ default [] (PROCESSED_IMAGE_CACHE cached_image) /\
      fst (process_image_data ImageScenarios.no_decoder 10 "data:text/plain;base64,BBBB"
             "b.png" ∅ 300 PNone cached_image) = Returns cached_data None) \/
   (exists type_name,
      process_image_data ImageScenarios.no_decoder 10 "data:text/plain;base64,BBBB"
        "b.png" ∅ 300 PNone cached_image = (Raises type_name, cached_image))).
Proof.
  apply (undecodable_image_is_never_cached ImageScenarios.no_decoder 10
           "data:text/plain;base64,BBBB" "b.png" ∅ 300 PNone cached_image "not an image").
  reflexivity.
Defined.

End ImageTheorems.
(** ** Merging image settings *)

Section MergeImageConfigTheorems.
Import ImageService.

(** One turn of the loop over [field_mapping]. *)
Local Abbreviation merge_step model_config :=
  (fun (m : PyDict.t pyval) '(model_key, global_key) =>
     match py_get model_key model_config with
     | Some value =>
         let m := PyDict.set global_key value m in
         if String.eqb model_key "quality"
         then PyDict.set "webp_quality" value (PyDict.set "jpeg_quality" value m)
         else m
     | None => m
     end).

Lemma merge_step_other (model_config : pyval) (m : PyDict.t pyval)
    (model_key global_key k : string) :
  k <> global_key ->
  (model_key = "quality" -> k <> "jpeg_quality" /\ k <> "webp_quality") ->
  PyDict.get k (merge_step model_config m (model_key, global_key)) = PyDict.get k m.
Proof.
  intros Hk Hq. cbv beta iota.
  destruct (py_get model_key model_config) as [value|]; [|done]. cbv zeta.
  destruct (String.eqb model_key "quality") eqn:E.
  - apply String.eqb_eq in E. destruct (Hq E) as [Hj Hw].
    by rewrite !PyDict_get_set_ne.
  - by rewrite PyDict_get_set_ne.
Qed.

Lemma merge_steps_other (model_config : pyval) (mapping : list (string * string))
    (m : PyDict.t pyval) (k : string) :
  Forall (fun '(model_key, global_key) =>
            k <> global_key /\
            (model_key = "quality" -> k <> "jpeg_quality" /\ k <> "webp_quality"))
    mapping ->
  PyDict.get k (fold_left (merge_step model_config) mapping m) = PyDict.get k m.
Proof.
  intros Hall. revert m. induction Hall as [|[mk gk] mapping [Hk Hq] Hall IH]; intros m.
  - done.
  - cbn [fold_left]. rewrite IH. by apply merge_step_other.
Qed.

(** X20. How [merge_image_config] settles the JPEG quality for a model that
    has settings of its own: the model's [jpeg_quality] if it has one, else
    the model's general [quality], else the global [jpeg_quality]; a setting
    the function does not know is taken from the global configuration
    alone. *)
Theorem merge_image_config_prefers_the_specific (global_config : pyval)
    (model_config : PyDict.t pyval) (k : string) :
  model_config <> [] ->
  let merged := merge_image_config global_config (PDict model_config) in
  let global := if truthy global_config then as_dict global_config else [] in
  py_get "jpeg_quality" merged =
    match PyDict.get "jpeg_quality" model_config, PyDict.get "quality" model_config with
    | Some specific, _ => Some specific
    | None, Some general => Some general
    | None, None => PyDict.get "jpeg_quality" global
    end /\
  (k ∉ map snd field_mapping -> py_get k merged = PyDict.get k global).
Proof.
  intros Hmodel merged global. subst merged global.
  unfold merge_image_config.
  set (global := if truthy global_config then as_dict global_config else []).
  assert (truthy (PDict model_config) = true) as -> by (by destruct model_config).
  cbn [negb].
  assert (forall k' m,
            k' <> "enabled" ->
            py_get k' (if truthy (default (PBool false) (py_get "enabled" (PDict model_config)))
                       then PDict (PyDict.set "enabled" (PBool true) m)
                       else PDict m) = PyDict.get k' m) as Hen.
  { intros k' m Hk'.
    destruct (truthy (default (PBool false) (py_get "enabled" (PDict model_config))));
      simpl; [by apply PyDict_get_set_ne | done]. }
  split.
  - rewrite Hen by discriminate.
    change field_mapping with
      ([ ("enabled", "enabled"); ("target_format", "target_format");
         ("convert_png_to_jpg", "convert_png_to_jpg");
         ("convert_to_webp", "convert_to_webp"); ("target_size_kb", "target_size_kb") ]
       ++ [ ("quality", "jpeg_quality"); ("jpeg_quality", "jpeg_quality") ]
       ++ [ ("webp_quality", "webp_quality"); ("max_width", "max_width");
            ("max_height", "max_height"); ("strip_metadata", "strip_metadata");
            ("optimize_encoding", "optimize_encoding") ]).
    rewrite !fold_left_app.
    rewrite merge_steps_other
      by (repeat constructor; try discriminate; intros [=]).
    match goal with
    | |- context [fold_left ?f ?l global] => set (before := fold_left f l global)
    end.
    assert (PyDict.get "jpeg_quality" before = PyDict.get "jpeg_quality" global) as Hbefore.
    { subst before. apply merge_steps_other.
      repeat constructor; try discriminate; intros [=]. }
    cbn [fold_left]. cbv beta iota.
    change (py_get "jpeg_quality" (PDict model_config))
      with (PyDict.get "jpeg_quality" model_config).
    change (py_get "quality" (PDict model_config))
      with (PyDict.get "quality" model_config).
    destruct (PyDict.get "jpeg_quality" model_config) as [specific|];
      destruct (PyDict.get "quality" model_config) as [general|]; cbv zeta;
      cbn [String.eqb Ascii.eqb Bool.eqb]; rewrite ?PyDict_get_set_eq; try done.
    + rewrite PyDict_get_set_ne by discriminate. by rewrite PyDict_get_set_eq.
  - intros Hk. rewrite Hen.
    + apply merge_steps_other. apply Forall_forall. intros [mk gk] Hin.
      split.
      * intros ->. apply Hk. apply list_elem_of_fmap. by exists (mk, gk).
      * intros _. split; intros ->; apply Hk; vm_compute;
          repeat (first [apply list_elem_of_here | apply list_elem_of_further]).
    + intros ->. apply Hk. vm_compute. apply list_elem_of_here.
Qed.

Lemma merge_image_config_prefers_the_specific_witness :
  py_get "jpeg_quality"
    (merge_image_config (PDict [("jpeg_quality", PInt 80); ("timeout", PInt 30)])
       (PDict [("quality", PInt 60)])) = Some (PInt 60) /\
  ("timeout" ∉ map snd field_mapping ->
   py_get "timeout"
     (merge_image_config (PDict [("jpeg_quality", PInt 80); ("timeout", PInt 30)])
        (PDict [("quality", PInt 60)])) = Some (PInt 30)).
Proof.
  apply (merge_image_config_prefers_the_specific
           (PDict [("jpeg_quality", PInt 80); ("timeout", PInt 30)])
           [("quality", PInt 60)] "timeout").
  discriminate.
Defined.

End MergeImageConfigTheorems.
(** ** The thinking separator: the cases the partition leaves open *)

Section SeparatorTheorems.
Import ThinkingSeparator.
Import DirectApiService.

Implicit Types sep s t : text.

Lemma find_app_None sep s t : find sep (s ++ t) = None -> find sep s = None.
Proof.
  intros Hnone. destruct (find sep s) as [i|] eqn:F; [|done].
  apply (find_app_Some sep s t) in F. congruence.
Qed.

(** While the separator has not come, the position up to which reasoning has
    been sent is always [length sep] short of the end of what has arrived. *)
Lemma process_line_hold_position sep st c cs r :
  split_done st = false ->
  find sep (accumulated_for_split st ++ c :: cs) = None ->
  output_position st <= length (accumulated_for_split st) - length sep ->
  output_position (process_line sep st (Delta (Some (c :: cs)) r)).2 =
    length (accumulated_for_split st ++ c :: cs) - length sep.
Proof.
  intros Hd Hf Hpos. unfold process_line. rewrite Hd, Hf.
  set (acc := accumulated_for_split st ++ c :: cs).
  assert (length (accumulated_for_split st) <= length acc) as Hlen
    by (unfold acc; rewrite length_app; lia).
  destruct (slice _ _ acc) as [|x xs] eqn:Es; cbn [snd output_position]. 2: { lia. }
  apply (f_equal length) in Es. unfold slice in Es.
  rewrite length_drop, length_take in Es. cbn [length] in Es. lia.
Qed.

Lemma process_lines_withhold sep lines :
  content_only lines ->
  forall st,
    split_done st = false ->
    output_position st = length (accumulated_for_split st) - length sep ->
    find sep (accumulated_for_split st ++ content_of lines) = None ->
    content_of (process_lines sep st lines).1 = [] /\
    reasoning_of (process_lines sep st lines).1 =
      slice (output_position st)
        (length (accumulated_for_split st ++ content_of lines) - length sep)
        (accumulated_for_split st ++ content_of lines).
Proof.
  induction 1 as [|line lines Hr Hrest IH]; intros st Hd Hpos Hnone.
  - unfold content_of, reasoning_of, slice; simpl. split; [done|].
    rewrite app_nil_r, <- Hpos.
    by rewrite skipn_firstn_comm, Nat.sub_diag.
  - change (content_of (line :: lines)) with (line_content line ++ content_of lines) in *.
    rewrite process_lines_cons, reasoning_of_app, content_of_app.
    destruct (line_content line) as [|c cs] eqn:Ec.
    + rewrite (process_line_skip sep st line Ec). simpl.
      destruct (IH st Hd Hpos Hnone) as [-> ->].
      unfold reasoning_of, content_of; simpl. by rewrite Hr, Ec.
    + destruct line as [[content|] r|]; simpl in Ec; try done. subst content.
      rewrite app_assoc in Hnone |- *.
      pose proof (find_app_None _ _ _ Hnone) as Ef.
      assert (output_position st <= length (accumulated_for_split st) - length sep)
        as Hpos' by lia.
      destruct (process_line_hold sep st c cs r Hd Ef Hpos')
        as (Hd1 & Hacc1 & Hle & Hpos1 & Hr1 & Hc1).
      pose proof (process_line_hold_position sep st c cs r Hd Ef Hpos') as Hop1.
      set (st1 := (process_line sep st (Delta (Some (c :: cs)) r)).2) in *.
      rewrite <- Hacc1 in Hnone, Hop1 |- *.
      destruct (IH st1 Hd1 Hop1 Hnone) as [IHc IHr].
      rewrite Hr1, Hc1, IHr, IHc. simpl. split; [done|].
      set (total := accumulated_for_split st1 ++ content_of lines).
      assert (length (accumulated_for_split st1) <= length total) as Hlen
        by (unfold total; rewrite length_app; lia).
      unfold slice.
      assert (take (output_position st1) (accumulated_for_split st1) =
              take (output_position st1) (take (length total - length sep) total)) as ->.
      { rewrite take_take, Nat.min_l by lia. unfold total.
        rewrite take_app_le by lia. done. }
      apply drop_take_drop. lia.
Qed.

(** X21. When every chunk decodes and holds whole lines, the upstream sends
    content only and that content never contains the configured separator,
    the client is sent no [content] at all: everything is delivered as
    [reasoning_content], except the last [length sep] characters, which are
    held back in case they begin a separator and are not sent when the stream
    ends. *)
Theorem separator_never_seen_withholds_the_tail (sep : text) (chunks : list chunk) :
  sep <> [] ->
  Forall orderly chunks ->
  content_only (received chunks) ->
  find sep (content_of (received chunks)) = None ->
  content_of (received (combined_stream (Some sep) initial chunks)) = [] /\
  reasoning_of (received (combined_stream (Some sep) initial chunks)) =
    take (length (content_of (received chunks)) - length sep)
      (content_of (received chunks)).
Proof.
  intros Hsep Hall Honly Hnone.
  rewrite (combined_stream_lines sep initial chunks Hsep Hall).
  destruct (process_lines_withhold sep (received chunks) Honly initial eq_refl)
    as [Hc Hr]; [simpl; lia | done |].
  simpl in Hc, Hr. split; [done|]. rewrite Hr. unfold slice. by rewrite drop_0.
Qed.

(** X22. The splitter of the non-streaming path,
    [split_thinking_content], and the streaming splitter cut at the same
    place, the first occurrence of the separator: when every chunk of the
    stream decodes and holds whole lines and the upstream sends content only,
    the former, applied to the whole content, returns what the client of the
    stream receives on the two channels, with the white space around each
    part removed. When the separator does not occur it returns no reasoning
    and the content untouched. *)
Theorem whole_split_agrees_with_the_stream (sep : text) (chunks : list chunk) :
  sep <> [] ->
  Forall orderly chunks ->
  content_only (received chunks) ->
  split_thinking_content (content_of (received chunks)) sep =
    match find sep (content_of (received chunks)) with
    | Some _ =>
        (strip (reasoning_of (received (combined_stream (Some sep) initial chunks))),
         strip (content_of (received (combined_stream (Some sep) initial chunks))))
    | None => ([], content_of (received chunks))
    end.
Proof.
  intros Hsep Hall Honly. unfold split_thinking_content.
  destruct sep as [|a sep]; [done|].
  destruct (find (a :: sep) (content_of (received chunks))) as [i|] eqn:Hi; [|done].
  rewrite (combined_stream_lines (a :: sep) initial chunks Hsep Hall).
  assert (find (a :: sep) (accumulated_for_split initial) = None) as Hnone by done.
  destruct (process_lines_split (a :: sep) (received chunks) Honly initial i eq_refl Hnone)
    as [Hr Hc]; [simpl; lia | done |].
  simpl in Hr, Hc. by rewrite Hr, Hc.
Qed.

Lemma whole_split_agrees_with_the_stream_witness :
  split_thinking_content (content_of (received s5_chunks)) s5_separator =
    match find s5_separator (content_of (received s5_chunks)) with
    | Some _ =>
        (strip (reasoning_of (received (combined_stream (Some s5_separator) initial
                                          s5_chunks))),
         strip (content_of (received (combined_stream (Some s5_separator) initial
                                        s5_chunks))))
    | None => ([], content_of (received s5_chunks))
    end.
Proof.
  apply (whole_split_agrees_with_the_stream s5_separator s5_chunks).
  - discriminate.
  - repeat constructor.
  - repeat constructor.
Defined.

Lemma separator_never_seen_withholds_the_tail_witness :
  content_of (received (combined_stream (Some s5_separator) initial
                          [whole_lines [Delta (Some (list_ascii_of_string "plain answer"))
                                          None]])) = [] /\
  reasoning_of (received (combined_stream (Some s5_separator) initial
                            [whole_lines [Delta (Some (list_ascii_of_string "plain answer"))
                                            None]])) =
    take (length (content_of (received
                    [whole_lines [Delta (Some (list_ascii_of_string "plain answer"))
                                    None]]))
          - length s5_separator)
      (content_of (received
                     [whole_lines [Delta (Some (list_ascii_of_string "plain answer"))
                                     None]])).
Proof.
  apply (separator_never_seen_withholds_the_tail s5_separator
           [whole_lines [Delta (Some (list_ascii_of_string "plain answer")) None]]).
  - discriminate.
  - repeat constructor.
  - repeat constructor.
  - vm_compute. reflexivity.
Defined.

End SeparatorTheorems.
(** ** Tabs coming and going *)

Section RegistryTheorems.
Import Runtime.
Import WebsocketRoutes.
Import WebsocketEndpoint.

Lemma same_registry_refl w : Frame.same_registry w w.
Proof. done. Qed.

Lemma same_registry_trans w1 w2 w3 :
  Frame.same_registry w1 w2 -> Frame.same_registry w2 w3 -> Frame.same_registry w1 w3.
Proof.
  unfold Frame.same_registry. intros (-> & -> & -> & ->) (-> & -> & -> & ->). done.
Qed.

Lemma puts_keep_the_registry (frame : pyval) (rids : list string) :
  Frame.keeps Frame.same_registry (fun _ => True)
    (for_each rids (fun r => put r frame)).
Proof.
  apply (keeps_for_each _ same_registry_refl same_registry_trans).
  intros r _ w. split; [|done]. unfold put, emit, modify, mbind, M_bind. simpl. done.
Qed.

Lemma PyDict_del_set_absent {V} (k : string) (v : V) (d : PyDict.t V) :
  PyDict.get k d = None -> PyDict.del k (PyDict.set k v d) = d.
Proof.
  induction d as [|[k' v'] d IH]; simpl.
  - by rewrite String.eqb_refl.
  - destruct (String.eqb k k') eqn:E; [done|]. intros Hd. simpl. rewrite E.
    by rewrite IH.
Qed.

Lemma disconnect_registry (P : MessageConverter.pipeline) (now tab_id : string)
    (w : world) :
  held w = [] ->
  browser_connections (snd (websocket_disconnect P now tab_id w)) =
    PyDict.del tab_id (browser_connections w) /\
  browser_ws (snd (websocket_disconnect P now tab_id w)) =
    head (PyDict.values (PyDict.del tab_id (browser_connections w))) /\
  tab_request_counts (snd (websocket_disconnect P now tab_id w)) =
    delete tab_id (tab_request_counts w).
Proof.
  destruct w as [cfg mem mnm rr ver bc bws cnt chans qs md hd tr]. simpl.
  intros ->.
  unfold websocket_disconnect, disconnect_cleanup, async_with.
  unfold mbind, M_bind, acquire, release, modify, read, emit, holds. simpl.
  destruct (PyDict.del tab_id bc) as [|kv rest] eqn:Hdel; simpl.
  - destruct (truthy (get_or "enable_auto_retry" (PBool false) cfg)); simpl; [done|].
    match goal with
    | |- context [for_each chans ?body ?w0] =>
        pose proof (proj1 (puts_keep_the_registry browser_disconnected chans w0))
          as (Hconns & Hws & Hcounts & _);
        destruct (for_each chans body w0) as [[[]|e|l] w2]
    end; simpl in *; by rewrite ?Hconns, ?Hws, ?Hcounts.
  - unfold TabManager.reassign_pending_requests, LoadBalancer.reassign_pending_requests.
    unfold async_with, try_except, mbind, M_bind, acquire, holds. simpl. done.
Qed.

(** X23. However the disconnect handler ends (it may be left waiting for a
    lock), it has taken the tab out of the registry, left the other tabs
    registered in their order, pointed [browser_ws] at the first tab that
    remains ([None] when none does) and dropped the tab's load counter. *)
Theorem disconnect_updates_the_registry (P : MessageConverter.pipeline)
    (now tab_id : string) (w : world) :
  held w = [] ->
  browser_connections (snd (websocket_disconnect P now tab_id w)) =
    PyDict.del tab_id (browser_connections w) /\
  browser_ws (snd (websocket_disconnect P now tab_id w)) =
    head (PyDict.values (PyDict.del tab_id (browser_connections w))) /\
  tab_request_counts (snd (websocket_disconnect P now tab_id w)) =
    delete tab_id (tab_request_counts w).
Proof.
  intros Hfree. by apply disconnect_registry.
Qed.

Lemma disconnect_updates_the_registry_witness :
  browser_connections
    (snd (websocket_disconnect MessageConverter.plain_pipeline "now" "T1" Scenario.two_tabs))
    = PyDict.del "T1" (browser_connections Scenario.two_tabs) /\
  browser_ws
    (snd (websocket_disconnect MessageConverter.plain_pipeline "now" "T1" Scenario.two_tabs))
    = head (PyDict.values (PyDict.del "T1" (browser_connections Scenario.two_tabs))) /\
  tab_request_counts
    (snd (websocket_disconnect MessageConverter.plain_pipeline "now" "T1" Scenario.two_tabs))
    = delete "T1" (tab_request_counts Scenario.two_tabs).
Proof.
  apply (disconnect_updates_the_registry MessageConverter.plain_pipeline "now" "T1"
           Scenario.two_tabs).
  reflexivity.
Defined.

(** X24. A tab that registers under an id that was free and then disconnects
    leaves the registry of tabs exactly as it was before it came, and
    [browser_ws] at the first registered tab ([None] for an empty registry):
    the state "no browser connected" is reached again exactly when no tab is
    left. *)
Theorem connect_then_disconnect_restores_the_registry (P : MessageConverter.pipeline)
    (now tab_id websocket : string) (w : world) :
  held w = [] ->
  PyDict.get tab_id (browser_connections w) = None ->
  fst (register_tab tab_id websocket w) = Return tt /\
  PyDict.get tab_id (browser_connections (snd (register_tab tab_id websocket w))) =
    Some websocket /\
  browser_ws (snd (register_tab tab_id websocket w)) <> None /\
  browser_connections
    (snd (websocket_disconnect P now tab_id (snd (register_tab tab_id websocket w)))) =
    browser_connections w /\
  browser_ws
    (snd (websocket_disconnect P now tab_id (snd (register_tab tab_id websocket w)))) =
    head (PyDict.values (browser_connections w)).
Proof.
  intros Hfree Hnew.
  assert (fst (register_tab tab_id websocket w) = Return tt /\
          browser_connections (snd (register_tab tab_id websocket w)) =
            PyDict.set tab_id websocket (browser_connections w) /\
          browser_ws (snd (register_tab tab_id websocket w)) <> None /\
          held (snd (register_tab tab_id websocket w)) = []) as (Hr & Hc & Hws & Hh).
  { destruct w as [cfg mem mnm rr ver bc bws cnt chans qs md hd tr]. simpl in *.
    subst hd. unfold register_tab, async_with.
    unfold mbind, M_bind, acquire, release, modify, read, emit, holds. simpl.
    split; [done|]. split; [done|]. split; [|done].
    destruct bws; [destruct (String.eqb _ _)|]; done. }
  split; [done|]. split; [rewrite Hc; apply PyDict_get_set_eq|]. split; [done|].
  destruct (disconnect_registry P now tab_id (snd (register_tab tab_id websocket w)))
    as (Hc' & Hws' & _); [done|].
  rewrite Hc', Hws', Hc, PyDict_del_set_absent; done.
Qed.

Lemma connect_then_disconnect_restores_the_registry_witness :
  fst (register_tab "T2" "ws2" Scenario.one_tab) = Return tt /\
  PyDict.get "T2" (browser_connections (snd (register_tab "T2" "ws2" Scenario.one_tab))) =
    Some "ws2" /\
  browser_ws (snd (register_tab "T2" "ws2" Scenario.one_tab)) <> None /\
  browser_connections
    (snd (websocket_disconnect MessageConverter.plain_pipeline "now" "T2"
            (snd (register_tab "T2" "ws2" Scenario.one_tab)))) =
    browser_connections Scenario.one_tab /\
  browser_ws
    (snd (websocket_disconnect MessageConverter.plain_pipeline "now" "T2"
            (snd (register_tab "T2" "ws2" Scenario.one_tab)))) =
    head (PyDict.values (browser_connections Scenario.one_tab)).
Proof.
  apply (connect_then_disconnect_restores_the_registry MessageConverter.plain_pipeline
           "now" "T2" "ws2" Scenario.one_tab); reflexivity.
Defined.

End RegistryTheorems.
(** ** Frames from the browser *)

Section ReceiveLoopTheorems.
Import Runtime.
Import Frame.
Import MessageConverter.
Import WebsocketRoutes.
Import WebsocketEndpoint.

Lemma open_channels_only_refl w : open_channels_only w w.
Proof. done. Qed.

Lemma open_channels_only_trans w1 w2 w3 :
  open_channels_only w1 w2 -> open_channels_only w2 w3 -> open_channels_only w1 w3.
Proof.
  intros (Hc & Hm & Hq) (Hc' & Hm' & Hq'). split; [congruence|]. split; [congruence|].
  intros r Hr. rewrite Hq' by (by rewrite Hc). by apply Hq.
Qed.

Lemma emit_open_channels_only (e : event) (w : world) :
  fst (emit e w) = Return tt /\ open_channels_only w (snd (emit e w)).
Proof. done. Qed.

Lemma put_open_channels_only (rid : string) (data : pyval) (w : world) :
  rid ∈ response_channels w ->
  fst (put rid data w) = Return tt /\ open_channels_only w (snd (put rid data w)).
Proof.
  intros Hopen. split; [done|]. split; [done|]. split; [done|].
  intros r Hr. unfold put, mbind, M_bind, modify, emit. simpl.
  rewrite lookup_insert_ne; [done|]. by intros ->.
Qed.

Lemma route_message_open_channels_only (tab_id : string) (message : PyDict.t pyval)
    (w : world) :
  fst (route_message tab_id message w) = Return tt /\
  open_channels_only w (snd (route_message tab_id message w)).
Proof.
  unfold route_message.
  destruct (negb (truthy _)); [apply emit_open_channels_only|].
  destruct (default PNone (PyDict.get "data" message));
    destruct (default PNone (PyDict.get "request_id" message)) as [| | | |rid| |];
    try apply emit_open_channels_only;
    (unfold mbind, M_bind, read; cbv beta iota;
     destruct (bool_decide (rid ∈ response_channels w)) eqn:Hopen;
       [apply bool_decide_eq_true in Hopen | apply emit_open_channels_only];
     destruct (PyDict.get rid (request_metadata w)) as [md|];
       [|by apply put_open_channels_only];
     destruct (truthy _); [by apply put_open_channels_only|];
     destruct (py_eq_str _ _);
       [by apply put_open_channels_only | apply emit_open_channels_only]).
Qed.

(** X25. Whatever frames with textual request ids a tab sends, the receive
    loop does not fail on them and never opens or closes a channel: the
    registries of channels and of request metadata stay as they are, and a
    queue that does not belong to a registered channel is never written, so a
    frame for an unknown or finished request is lost. *)
Theorem receive_loop_feeds_open_channels_only (tab_id : string)
    (messages : list (PyDict.t pyval)) (w : world) :
  Forall textual_id messages ->
  fst (receive_loop tab_id messages w) = Return tt /\
  response_channels (snd (receive_loop tab_id messages w)) = response_channels w /\
  request_metadata (snd (receive_loop tab_id messages w)) = request_metadata w /\
  (forall r, r ∉ response_channels w ->
     queues (snd (receive_loop tab_id messages w)) !! r = queues w !! r).
Proof.
  intros _.
  change (fst (receive_loop tab_id messages w) = Return tt /\
          open_channels_only w (snd (receive_loop tab_id messages w))).
  unfold receive_loop. revert w.
  induction messages as [|message messages IH]; intros w; [done|].
  simpl. unfold mbind, M_bind.
  destruct (route_message_open_channels_only tab_id message w) as [Hret Hkeep].
  destruct (route_message tab_id message w) as [o w1]. simpl in *. subst o.
  destruct (IH w1) as [Hret' Hkeep']. split; [done|].
  by apply (open_channels_only_trans w w1).
Qed.

Lemma receive_loop_feeds_open_channels_only_witness :
  fst (receive_loop "T2"
         [Scenario.frame "R9" (PStr "a0:lost"); Scenario.frame "R1" (PStr "a0:hi");
          [("data", PStr "a0:no id")]]
         Scenario.orphan_channel) = Return tt /\
  response_channels
    (snd (receive_loop "T2"
            [Scenario.frame "R9" (PStr "a0:lost"); Scenario.frame "R1" (PStr "a0:hi");
             [("data", PStr "a0:no id")]]
            Scenario.orphan_channel)) = response_channels Scenario.orphan_channel /\
  request_metadata
    (snd (receive_loop "T2"
            [Scenario.frame "R9" (PStr "a0:lost"); Scenario.frame "R1" (PStr "a0:hi");
             [("data", PStr "a0:no id")]]
            Scenario.orphan_channel)) = request_metadata Scenario.orphan_channel /\
  (forall r, r ∉ response_channels Scenario.orphan_channel ->
     queues
       (snd (receive_loop "T2"
               [Scenario.frame "R9" (PStr "a0:lost"); Scenario.frame "R1" (PStr "a0:hi");
                [("data", PStr "a0:no id")]]
               Scenario.orphan_channel)) !! r = queues Scenario.orphan_channel !! r).
Proof.
  apply (receive_loop_feeds_open_channels_only "T2"
           [Scenario.frame "R9" (PStr "a0:lost"); Scenario.frame "R1" (PStr "a0:hi");
            [("data", PStr "a0:no id")]]
           Scenario.orphan_channel).
  repeat constructor.
Defined.

Lemma put_run (rid : string) (data : pyval) (w : world) :
  put rid data w =
    (Return tt,
     with_trace (fun t => t ++ [Put rid data])
       (with_queues (fun q => <[rid := default [] (q !! rid) ++ [data]]> q) w)).
Proof. done. Qed.

Lemma route_message_permitted (tab_id rid : string) (data : pyval)
    (message : PyDict.t pyval) (w : world) :
  PyDict.get "request_id" message = Some (PStr rid) -> rid <> "" ->
  PyDict.get "data" message = Some data -> data <> PNone ->
  rid ∈ response_channels w ->
  match PyDict.get rid (request_metadata w) with
  | None => True
  | Some metadata =>
      truthy (get_or "transfer_allowed" (PBool true) metadata) = true \/
      get_or "tab_id" PNone metadata = PStr tab_id
  end ->
  route_message tab_id message w = put rid data w.
Proof.
  intros Hrid Hne Hdata Hd Hopen Hperm.
  unfold route_message. rewrite Hrid, Hdata.
  change (default PNone (Some data)) with data.
  change (default PNone (Some (PStr rid))) with (PStr rid).
  rewrite (truthy_str rid Hne). cbn [negb].
  assert ((w0 ← read;
           if bool_decide (rid ∈ response_channels w0) then
             match PyDict.get rid (request_metadata w0) with
             | Some metadata =>
                 if truthy (get_or "transfer_allowed" (PBool true) metadata)
                 then put rid data
                 else if py_eq_str (get_or "tab_id" PNone metadata) tab_id
                      then put rid data
                      else emit (Warning "cross-tab routing refused")
             | None => put rid data
             end
           else emit (Warning "unknown or closed request")) w = put rid data w) as Hrun.
  { unfold mbind, M_bind, read. cbv beta iota. rewrite bool_decide_true by done.
    destruct (PyDict.get rid (request_metadata w)) as [md|]; [|done].
    destruct (truthy _); [done|]. destruct Hperm as [?|Heq]; [done|].
    apply py_eq_str_true in Heq. by rewrite Heq. }
  destruct data; done.
Qed.

(** X26. Frames for one request reach its channel in the order in which the
    tab sent them: after the receive loop has taken the frames, the queue of
    the request is what it was followed by their data, in order and without
    loss, provided the channel is open and the tab may answer for the request
    (no metadata, transfers allowed, or the tab is the recorded owner). *)
Theorem frames_reach_the_channel_in_order (tab_id rid : string) (datas : list pyval)
    (messages : list (PyDict.t pyval)) (w : world) :
  rid <> "" ->
  rid ∈ response_channels w ->
  Forall2 (fun message data =>
             PyDict.get "request_id" message = Some (PStr rid) /\
             PyDict.get "data" message = Some data /\ data <> PNone)
    messages datas ->
  match PyDict.get rid (request_metadata w) with
  | None => True
  | Some metadata =>
      truthy (get_or "transfer_allowed" (PBool true) metadata) = true \/
      get_or "tab_id" PNone metadata = PStr tab_id
  end ->
  default [] (queues (snd (receive_loop tab_id messages w)) !! rid) =
    default [] (queues w !! rid) ++ datas.
Proof.
  intros Hne Hopen Hall. unfold receive_loop. revert w Hopen.
  induction Hall as [|message data messages datas (Hrid & Hdata & Hd) Hall IH];
    intros w Hopen Hperm.
  - simpl. by rewrite app_nil_r.
  - simpl. unfold mbind at 1, M_bind at 1.
    rewrite (route_message_permitted tab_id rid data message w) by done.
    rewrite put_run. cbv beta iota.
    rewrite IH by done.
    simpl. rewrite lookup_insert_eq. simpl. by rewrite <- app_assoc.
Qed.

Lemma frames_reach_the_channel_in_order_witness :
  default []
    (queues (snd (receive_loop "T1"
                    [Scenario.frame "R1" (PStr "a0:one"); Scenario.frame "R1" (PStr "a0:two");
                     Scenario.frame "R1" (PStr "[DONE]")]
                    Scenario.strict_owner)) !! "R1") =
  default [] (queues Scenario.strict_owner !! "R1") ++
    [PStr "a0:one"; PStr "a0:two"; PStr "[DONE]"].
Proof.
  apply (frames_reach_the_channel_in_order "T1" "R1"
           [PStr "a0:one"; PStr "a0:two"; PStr "[DONE]"]
           [Scenario.frame "R1" (PStr "a0:one"); Scenario.frame "R1" (PStr "a0:two");
            Scenario.frame "R1" (PStr "[DONE]")]
           Scenario.strict_owner).
  - discriminate.
  - simpl. apply list_elem_of_here.
  - repeat constructor; discriminate.
  - right. reflexivity.
Defined.

(** X27. The first frame of a script that did not announce a tab id is
    handled before the loop, and on the channel's existence alone: where the
    loop would refuse the frame, because the request forbids transfers and
    belongs to another tab than ["default"], the same frame as first frame is
    put on the channel. *)
Theorem legacy_first_frame_skips_the_owner_check (rid : string) (data : pyval)
    (message : PyDict.t pyval) (metadata : gmap string pyval) (w : world) :
  PyDict.get "request_id" message = Some (PStr rid) -> rid <> "" ->
  PyDict.get "data" message = Some data -> data <> PNone ->
  rid ∈ response_channels w ->
  PyDict.get rid (request_metadata w) = Some metadata ->
  truthy (get_or "transfer_allowed" (PBool true) metadata) = false ->
  get_or "tab_id" PNone metadata <> PStr "default" ->
  queues (snd (route_message "default" message w)) = queues w /\
  queues (snd (route_first_message message w)) =
    <[rid := default [] (queues w !! rid) ++ [data]]> (queues w).
Proof.
  intros Hrid Hne Hdata Hd Hopen Hmd Hstrict Hother.
  assert (py_eq_str (get_or "tab_id" PNone metadata) "default" = false)
    as Hneq.
  { destruct (py_eq_str _ _) eqn:E; [|done].
    by apply py_eq_str_true in E. }
  unfold route_message, route_first_message. rewrite Hrid, Hdata.
  change (default PNone (Some data)) with data.
  change (default PNone (Some (PStr rid))) with (PStr rid).
  rewrite (truthy_str rid Hne). cbn [negb].
  destruct data; try done;
    (unfold mbind, M_bind, read; cbv beta iota;
     rewrite bool_decide_true by done; rewrite Hmd, Hstrict, Hneq; done).
Qed.

Lemma legacy_first_frame_skips_the_owner_check_witness :
  queues (snd (route_message "default" (Scenario.frame "R1" (PStr "a0:hi"))
                 Scenario.strict_owner)) = queues Scenario.strict_owner /\
  queues (snd (route_first_message (Scenario.frame "R1" (PStr "a0:hi"))
                 Scenario.strict_owner)) =
    <["R1" := default [] (queues Scenario.strict_owner !! "R1") ++ [PStr "a0:hi"]]>
      (queues Scenario.strict_owner).
Proof.
  apply (legacy_first_frame_skips_the_owner_check "R1" (PStr "a0:hi")
           (Scenario.frame "R1" (PStr "a0:hi"))
           (<["transfer_allowed" := PBool false]> (Scenario.pending "T1" 0))
           Scenario.strict_owner).
  - reflexivity.
  - discriminate.
  - reflexivity.
  - discriminate.
  - simpl. apply list_elem_of_here.
  - reflexivity.
  - reflexivity.
  - vm_compute. discriminate.
Defined.

End ReceiveLoopTheorems.
(** ** The sweep of request metadata *)

Section MemoryMonitorTheorems.
Import Runtime.
Import MemoryMonitor.

Lemma PyDict_get_del_ne {V} (k k' : string) (d : PyDict.t V) :
  k <> k' -> PyDict.get k (PyDict.del k' d) = PyDict.get k d.
Proof.
  intros Hne. induction d as [|[k0 v0] d IH]; [done|]. simpl.
  destruct (String.eqb k' k0) eqn:E'.
  - apply String.eqb_eq in E' as <-.
    by rewrite (proj2 (String.eqb_neq k k') Hne).
  - simpl. by rewrite IH.
Qed.

Lemma PyDict_get_None_keys {V} (k : string) (d : PyDict.t V) :
  k ∉ PyDict.keys d -> PyDict.get k d = None.
Proof.
  induction d as [|[k0 v0] d IH]; [done|]. simpl. intros Hk.
  apply not_elem_of_cons in Hk as [Hne Hk].
  rewrite (proj2 (String.eqb_neq k k0) Hne). by apply IH.
Qed.

Lemma PyDict_keys_del_subset {V} (k k' : string) (d : PyDict.t V) :
  k ∈ PyDict.keys (PyDict.del k' d) -> k ∈ PyDict.keys d.
Proof.
  induction d as [|[k0 v0] d IH]; [done|]. simpl.
  destruct (String.eqb k' k0).
  - apply list_elem_of_further.
  - simpl. intros [->|Hk]%elem_of_cons; [apply list_elem_of_here|].
    by apply list_elem_of_further, IH.
Qed.

Lemma PyDict_del_NoDup {V} (k : string) (d : PyDict.t V) :
  NoDup (PyDict.keys d) ->
  NoDup (PyDict.keys (PyDict.del k d)) /\ PyDict.get k (PyDict.del k d) = None.
Proof.
  induction d as [|[k0 v0] d IH]; [done|]. simpl. intros [Hk0 Hnd]%NoDup_cons.
  destruct (String.eqb k k0) eqn:E.
  - apply String.eqb_eq in E as ->. split; [done|]. by apply PyDict_get_None_keys.
  - destruct (IH Hnd) as [Hnd' Hget]. simpl. rewrite E. split; [|done].
    apply NoDup_cons. split; [|done]. intros Hin. apply Hk0.
    by apply (PyDict_keys_del_subset k0 k).
Qed.

Lemma PyDict_get_Some_elem {V} (k : string) (v : V) (d : PyDict.t V) :
  NoDup (PyDict.keys d) -> (k, v) ∈ d -> PyDict.get k d = Some v.
Proof.
  induction d as [|[k0 v0] d IH]; simpl.
  - by intros _ ?%elem_of_nil.
  - intros [Hk0 Hnd]%NoDup_cons [[= -> ->]|Hin]%elem_of_cons.
    + by rewrite String.eqb_refl.
    + destruct (String.eqb k k0) eqn:E; [|by apply IH].
      apply String.eqb_eq in E as ->. exfalso. apply Hk0.
      apply list_elem_of_fmap. by exists (k0, v).
Qed.

Lemma sweep_one_run (req_id : string) (w : world) :
  fst (sweep_one req_id w) = Return tt /\
  queues (snd (sweep_one req_id w)) = queues w /\
  trace (snd (sweep_one req_id w)) = trace w /\
  request_metadata (snd (sweep_one req_id w)) = PyDict.del req_id (request_metadata w) /\
  (forall rid, rid ∈ response_channels (snd (sweep_one req_id w)) <->
               rid ∈ response_channels w /\ rid <> req_id).
Proof.
  unfold sweep_one, mbind, M_bind, modify, read. cbv beta iota.
  destruct w as [cfg mem mnm rr ver bc bws cnt chans qs md hd tr]. simpl.
  destruct (bool_decide (req_id ∈ chans)) eqn:Hopen; simpl;
    (split; [done|]; split; [done|]; split; [done|]; split; [done|]); intros rid.
  - rewrite !list_elem_of_In, filter_In, negb_true_iff, String.eqb_neq. done.
  - apply bool_decide_eq_false in Hopen. split; [|tauto].
    intros Hin. split; [done|]. by intros ->.
Qed.

(** The deletions of the second loop, each with its channel. *)
Lemma sweep_run (ids : list string) (w : world) :
  NoDup (PyDict.keys (request_metadata w)) ->
  fst (for_each ids sweep_one w) = Return tt /\
  queues (snd (for_each ids sweep_one w)) = queues w /\
  trace (snd (for_each ids sweep_one w)) = trace w /\
  (forall rid, PyDict.get rid (request_metadata (snd (for_each ids sweep_one w))) =
                 if bool_decide (rid ∈ ids) then None
                 else PyDict.get rid (request_metadata w)) /\
  (forall rid, rid ∈ response_channels (snd (for_each ids sweep_one w)) <->
                 rid ∈ response_channels w /\ rid ∉ ids).
Proof.
  revert w. induction ids as [|req_id ids IH]; intros w Hnd.
  - simpl. split; [done|]. split; [done|]. split; [done|]. split; [done|].
    intros rid. split; [|by intros [? _]]. intros Hin. split; [done|].
    apply not_elem_of_nil.
  - cbn [for_each]. unfold mbind, M_bind.
    destruct (PyDict_del_NoDup req_id (request_metadata w) Hnd) as [Hnd1 Hgone].
    destruct (sweep_one_run req_id w) as (Hret & Hq & Htr & Hmd & Hch).
    destruct (sweep_one req_id w) as [o w1]. cbn [fst snd] in *. subst o.
    assert (NoDup (PyDict.keys (request_metadata w1))) as Hnd' by (by rewrite Hmd).
    destruct (IH w1 Hnd') as (Hret' & Hq' & Htr' & Hmd' & Hch').
    split; [done|]. split; [congruence|]. split; [congruence|]. split.
    + intros rid. rewrite Hmd', Hmd.
      destruct (decide (rid = req_id)) as [->|Hne].
      * rewrite (bool_decide_true (req_id ∈ req_id :: ids)) by apply list_elem_of_here.
        by destruct (bool_decide _).
      * rewrite PyDict_get_del_ne by done.
        destruct (bool_decide (rid ∈ ids)) eqn:E.
        -- apply bool_decide_eq_true in E.
           by rewrite bool_decide_true by (by apply list_elem_of_further).
        -- apply bool_decide_eq_false in E.
           rewrite bool_decide_false; [done|].
           intros [?|?]%elem_of_cons; done.
    + intros rid. rewrite Hch', Hch, not_elem_of_cons. tauto.
Qed.

(** X28. The memory monitor's sweep, once more than ten requests have
    metadata: every entry found stale (older than
    [metadata_timeout_minutes], or with a creation time that cannot be read)
    loses its metadata and its channel, every other entry and channel stays,
    and no queue receives a frame: the request behind a swept channel is not
    told that it has ended. *)
Theorem metadata_sweep_is_silent (age_minutes : string -> option Q) (w : world) :
  (10 < length (request_metadata w))%nat ->
  NoDup (PyDict.keys (request_metadata w)) ->
  fst (metadata_cleanup age_minutes w) = Return tt /\
  queues (snd (metadata_cleanup age_minutes w)) = queues w /\
  trace (snd (metadata_cleanup age_minutes w)) = trace w /\
  (forall rid,
     PyDict.get rid (request_metadata (snd (metadata_cleanup age_minutes w))) =
       match PyDict.get rid (request_metadata w) with
       | Some metadata =>
           if is_stale age_minutes
                (get_or "metadata_timeout_minutes" (PInt 30) (CONFIG w)) metadata
           then None else Some metadata
       | None => None
       end) /\
  (forall rid,
     rid ∈ response_channels (snd (metadata_cleanup age_minutes w)) <->
     rid ∈ response_channels w /\
     forall metadata, PyDict.get rid (request_metadata w) = Some metadata ->
       is_stale age_minutes
         (get_or "metadata_timeout_minutes" (PInt 30) (CONFIG w)) metadata = false).
Proof.
  intros Hmany Hnd.
  set (threshold := get_or "metadata_timeout_minutes" (PInt 30) (CONFIG w)).
  assert (metadata_cleanup age_minutes w =
          for_each (map fst (List.filter (fun '(_, metadata) =>
                                            is_stale age_minutes threshold metadata)
                               (request_metadata w))) sweep_one w) as ->.
  { unfold metadata_cleanup, mbind, M_bind, read. cbv beta iota.
    by rewrite (proj2 (Nat.ltb_lt _ _) Hmany). }
  set (ids := map fst _).
  assert (forall rid, rid ∈ ids <->
            exists metadata, PyDict.get rid (request_metadata w) = Some metadata /\
                             is_stale age_minutes threshold metadata = true) as Hids.
  { intros rid. subst ids. rewrite list_elem_of_fmap. split.
    - intros ([k md] & -> & Hin). apply list_elem_of_In, filter_In in Hin as [Hin Hst].
      exists md. split; [|done]. apply PyDict_get_Some_elem; [done|].
      by apply list_elem_of_In.
    - intros (md & Hget & Hst). exists (rid, md). split; [done|].
      apply list_elem_of_In, filter_In. split; [|done].
      apply list_elem_of_In. by apply PyDict_get_elem. }
  destruct (sweep_run ids w Hnd) as (Hret & Hq & Htr & Hmd & Hch).
  split; [done|]. split; [done|]. split; [done|]. split.
  - intros rid. rewrite Hmd.
    destruct (PyDict.get rid (request_metadata w)) as [md|] eqn:Hget.
    + destruct (is_stale age_minutes threshold md) eqn:Hst.
      * rewrite bool_decide_true; [done|]. apply Hids. by exists md.
      * rewrite bool_decide_false; [done|]. intros (md' & Hget' & Hst')%Hids. congruence.
    + by destruct (bool_decide _).
  - intros rid. rewrite Hch, Hids. split.
    + intros [Hin Hno]. split; [done|]. intros md Hget.
      destruct (is_stale age_minutes threshold md) eqn:Hst; [|done].
      exfalso. apply Hno. by exists md.
    + intros [Hin Hno]. split; [done|]. intros (md & Hget & Hst).
      rewrite (Hno md Hget) in Hst. done.
Qed.

Lemma metadata_sweep_is_silent_witness :
  fst (metadata_cleanup MoreScenarios.minutes_since MoreScenarios.crowded) = Return tt /\
  queues (snd (metadata_cleanup MoreScenarios.minutes_since MoreScenarios.crowded)) =
    queues MoreScenarios.crowded /\
  trace (snd (metadata_cleanup MoreScenarios.minutes_since MoreScenarios.crowded)) =
    trace MoreScenarios.crowded /\
  (forall rid,
     PyDict.get rid
       (request_metadata
          (snd (metadata_cleanup MoreScenarios.minutes_since MoreScenarios.crowded))) =
       match PyDict.get rid (request_metadata MoreScenarios.crowded) with
       | Some metadata =>
           if is_stale MoreScenarios.minutes_since
                (get_or "metadata_timeout_minutes" (PInt 30) (CONFIG MoreScenarios.crowded))
                metadata
           then None else Some metadata
       | None => None
       end) /\
  (forall rid,
     rid ∈ response_channels
             (snd (metadata_cleanup MoreScenarios.minutes_since MoreScenarios.crowded)) <->
     rid ∈ response_channels MoreScenarios.crowded /\
     forall metadata,
       PyDict.get rid (request_metadata MoreScenarios.crowded) = Some metadata ->
       is_stale MoreScenarios.minutes_since
         (get_or "metadata_timeout_minutes" (PInt 30) (CONFIG MoreScenarios.crowded))
         metadata = false).
Proof.
  apply (metadata_sweep_is_silent MoreScenarios.minutes_since MoreScenarios.crowded).
  - simpl. lia.
  - simpl. repeat (apply NoDup_cons; split;
                   [intros Hin;
                    repeat (apply elem_of_cons in Hin as [Hin|Hin]; [discriminate Hin|]);
                    by apply elem_of_nil in Hin|]).
    apply NoDup_nil_2.
Defined.

End MemoryMonitorTheorems.

(** * Part IV: the temperature cap and the broker over whole runs *)

(** ** The temperature cap along the whole route *)

Section CappedRouteFacts.
Import Runtime.
Import MessageConverter.
Import LoadBalancer.
Import ApiRoutes.
Import Admission.




End CappedRouteFacts.


(** ** The two registries along a run *)

Section LockFrame.
Import Runtime.
Import Frame.

Context (I : world -> world -> Prop).
Context (I_refl : forall w, I w w).
Context (I_trans : forall w1 w2 w3, I w1 w2 -> I w2 w3 -> I w1 w3).
Context (I_lock : forall w f g, I w (with_trace f (with_held g w))).

Lemma keeps_acquire (l : lock) : keeps I (fun _ => True) (acquire l).
Proof.
  intros w. split; [|done]. unfold acquire.
  destruct (holds l w); simpl; [apply I_refl | apply I_lock].
Qed.

Lemma keeps_async_with {A} (R : A -> Prop) (l : lock) (body : M A) :
  keeps I R body -> keeps I R (async_with l body).
Proof.
  intros Hb. unfold async_with.
  apply (keeps_bind I I_trans (fun _ => True)); [apply keeps_acquire|].
  intros _ _ w. destruct (Hb w) as [Hi Hv].
  destruct (body w) as [[a|e|l'] w1] eqn:E; simpl in *.
  - split; [|done]. eapply I_trans; [exact Hi|]. apply I_lock.
  - split; [|done]. eapply I_trans; [exact Hi|]. apply I_lock.
  - done.
Qed.

Lemma keeps_wait_for {A} (R : A -> Prop) (body : M A) (e : exn) :
  keeps I R body -> keeps I R (LoadBalancer.wait_for body e).
Proof.
  intros Hb w. destruct (Hb w) as [Hi Hv]. unfold LoadBalancer.wait_for.
  by destruct (body w) as [[a|e'|l] w1].
Qed.


End LockFrame.

Section RegistryFacts.
Import Runtime.
Import Frame.
Import MessageConverter.
Import LoadBalancer.
Import ApiRoutes.
Import WebsocketRoutes.
Import Broker.

Lemma registries_untouched_refl w : registries_untouched w w.
Proof. done. Qed.

Lemma registries_untouched_trans w1 w2 w3 :
  registries_untouched w1 w2 -> registries_untouched w2 w3 -> registries_untouched w1 w3.
Proof. unfold registries_untouched. intros [-> ->] [-> ->]. done. Qed.

Lemma registries_untouched_lock w f g :
  registries_untouched w (with_trace f (with_held g w)).
Proof. done. Qed.






End RegistryFacts.

Ltac untouched_step :=
  lazymatch goal with
  | |- Frame.keeps _ _ (mret _) =>
      apply keeps_ret; [apply registries_untouched_refl | try done]
  | |- Frame.keeps _ _ (Runtime.raise _) =>
      apply keeps_raise; apply registries_untouched_refl
  | |- Frame.keeps _ _ Runtime.read => apply keeps_read; apply registries_untouched_refl
  | |- Frame.keeps _ _ (Runtime.modify _) => apply keeps_modify; intros; split; reflexivity
  | |- Frame.keeps _ _ (Runtime.emit _) => unfold Runtime.emit
  | |- Frame.keeps _ _ (Runtime.send_text _ _) => unfold Runtime.send_text
  | |- Frame.keeps _ _ (Runtime.put _ _) => unfold Runtime.put
  | |- Frame.keeps _ _ (_ ≫= _) =>
      apply (keeps_bind _ registries_untouched_trans (fun _ => True)); [|intros ? _]
  | |- Frame.keeps _ _ (Runtime.try_except _ _) =>
      apply (keeps_try_except _ registries_untouched_trans); [|intros ?]
  | |- Frame.keeps _ _ (Runtime.async_with _ _) =>
      apply (keeps_async_with _ registries_untouched_refl registries_untouched_trans
               registries_untouched_lock)
  | |- Frame.keeps _ _ (LoadBalancer.wait_for _ _) => apply keeps_wait_for
  | |- Frame.keeps _ _ (if ?b then _ else _) => destruct b
  | |- Frame.keeps _ _ (match ?x with _ => _ end) => destruct x
  | |- Frame.keeps _ _ (let '(_, _) := ?x in _) => destruct x
  end.

Section UntouchedFacts.
Import Runtime.
Import Frame.
Import MessageConverter.
Import LoadBalancer.
Import ApiRoutes.
Import WebsocketRoutes.
Import Broker.


Lemma release_tab_request_untouched tab_id :
  keeps registries_untouched (fun _ => True) (release_tab_request tab_id).
Proof. unfold release_tab_request. repeat untouched_step. Qed.

Lemma put_untouched rid data :
  keeps registries_untouched (fun _ => True) (put rid data).
Proof. repeat untouched_step. Qed.

Lemma route_message_untouched tab_id message :
  keeps registries_untouched (fun _ => True) (route_message tab_id message).
Proof. unfold route_message. repeat untouched_step. Qed.

Lemma route_first_message_untouched message :
  keeps registries_untouched (fun _ => True) (route_first_message message).
Proof. unfold route_first_message. repeat untouched_step. Qed.

Lemma register_tab_untouched tab_id websocket :
  keeps registries_untouched (fun _ => True)
    (WebsocketEndpoint.register_tab tab_id websocket).
Proof. unfold WebsocketEndpoint.register_tab. repeat untouched_step. Qed.








Lemma stream_release_untouched request_id :
  keeps registries_untouched (fun _ => True) (stream_release request_id).
Proof.
  unfold stream_release. repeat untouched_step; apply release_tab_request_untouched.
Qed.

End UntouchedFacts.


Section KeptFacts.
Import Runtime.
Import Frame.
Import MessageConverter.
Import LoadBalancer.
Import ApiRoutes.
Import WebsocketRoutes.
Import Broker.















End KeptFacts.

Section RoutingFacts.
Import Runtime.
Import MessageConverter.
Import WebsocketRoutes.
Import Broker.


End RoutingFacts.

